(** * autograde.py: submission collection and normalisation

    A shallow embedding of the collection pipeline of [autograde.py]
    ([filter], [extract_zip], [extract_files], [collect]) together with the
    parts of the Python library it calls ([str], [os.path], [re]).

    Strings are [string]; Python's integer indices are [Z] ([str.rfind]
    answers [-1] for "not found").  The archive contents are given as a tree
    ([entry]); the effects of the program are recorded as an ordered list of
    [event]s that is interpreted over a finite map from paths to entries. *)

From Stdlib Require Import ZArith Lia Bool Ascii String List DecimalString.
From stdpp Require Import base option list strings gmap.

(* ===================================================================== *)
(** ** Python [str] methods *)
(* ===================================================================== *)

Module str.

(** [s.startswith(p)] *)
Fixpoint startswith (s p : string) {struct p} : bool :=
  match p, s with
  | EmptyString, _ => true
  | String a p', String b s' => Ascii.eqb a b && startswith s' p'
  | String _ _, EmptyString => false
  end.

(** [s[i:]] for [0 <= i] *)
Fixpoint drop (n : nat) (s : string) : string :=
  match n, s with
  | O, _ => s
  | S _, EmptyString => EmptyString
  | S n', String _ s' => drop n' s'
  end.

(** [s[:i]] for [0 <= i] *)
Fixpoint take (n : nat) (s : string) : string :=
  match n, s with
  | O, _ => EmptyString
  | S _, EmptyString => EmptyString
  | S n', String c s' => String c (take n' s')
  end.

Definition slice_from (i : Z) (s : string) : string := drop (Z.to_nat i) s.
Definition slice_to (i : Z) (s : string) : string := take (Z.to_nat i) s.

(** [s.rfind(c)]: the index of the last occurrence of [c], [-1] if none. *)
Fixpoint rfind (c : ascii) (s : string) : Z :=
  match s with
  | EmptyString => (-1)%Z
  | String x s' =>
      let r := rfind c s' in
      if (0 <=? r)%Z then (r + 1)%Z
      else if Ascii.eqb x c then 0%Z else (-1)%Z
  end.

(** [s.rstrip(c)]: [s] without its trailing run of [c]. *)
Fixpoint rstrip (c : ascii) (s : string) : string :=
  match s with
  | EmptyString => EmptyString
  | String x s' =>
      match rstrip c s' with
      | EmptyString => if Ascii.eqb x c then EmptyString else String x EmptyString
      | r => String x r
      end
  end.

(** [c * n] *)
Fixpoint mul (c : ascii) (n : nat) : string :=
  match n with
  | O => EmptyString
  | S n' => String c (mul c n')
  end.

(** [s.endswith(c)] for a one-character [c] *)
Fixpoint endswith (s : string) (c : ascii) : bool :=
  match s with
  | EmptyString => false
  | String x EmptyString => Ascii.eqb x c
  | String _ s' => endswith s' c
  end.

(** [bool(s)]: a string is falsy exactly when it is empty. *)
Definition truthy (s : string) : bool :=
  match s with EmptyString => false | _ => true end.

(** [c in s] *)
Fixpoint contains (c : ascii) (s : string) : bool :=
  match s with
  | EmptyString => false
  | String x s' => Ascii.eqb x c || contains c s'
  end.

End str.

(* ===================================================================== *)
(** ** [os.path] (posixpath) *)
(* ===================================================================== *)

Module os_path.

Definition sep : ascii := "/"%char.
Definition extsep : ascii := "."%char.

(** [posixpath.basename]: [i = p.rfind('/') + 1; return p[i:]] *)
Definition basename (p : string) : string :=
  let i := (str.rfind sep p + 1)%Z in
  str.slice_from i p.

(** [posixpath.dirname]:
    [i = p.rfind('/') + 1; head = p[:i];
     if head and head != '/'*len(head): head = head.rstrip('/')] *)
Definition dirname (p : string) : string :=
  let i := (str.rfind sep p + 1)%Z in
  let head := str.slice_to i p in
  if str.truthy head && negb (String.eqb head (str.mul sep (String.length head)))
  then str.rstrip sep head
  else head.

(** The loop of [genericpath._splitext] that skips the leading dots of the
    file name: [n] is the number of indices left before [dotIndex]. *)
Fixpoint splitext_scan (p : string) (filenameIndex : nat) (n : nat) : bool :=
  match n with
  | O => false
  | S n' =>
      match String.get filenameIndex p with
      | Some c =>
          if negb (Ascii.eqb c extsep) then true
          else splitext_scan p (S filenameIndex) n'
      | None => true
      end
  end.

(** [posixpath.splitext] *)
Definition splitext (p : string) : string * string :=
  let sepIndex := str.rfind sep p in
  let dotIndex := str.rfind extsep p in
  if (sepIndex <? dotIndex)%Z
     && splitext_scan p (Z.to_nat (sepIndex + 1)) (Z.to_nat (dotIndex - (sepIndex + 1)))
  then (str.slice_to dotIndex p, str.slice_from dotIndex p)
  else (p, EmptyString).

(** One step of [posixpath.join]'s loop over the later components. *)
Definition join_step (path b : string) : string :=
  if str.startswith b "/" then b
  else if negb (str.truthy path) || str.endswith path sep then path +:+ b
  else path +:+ "/" +:+ b.

(** [posixpath.join(a, *p)] *)
Definition join (a : string) (p : list string) : string :=
  fold_left join_step p a.

End os_path.

(* ===================================================================== *)
(** ** Python [re]: a backtracking matcher for the constructs the two
       patterns of [collect] are written with *)
(* ===================================================================== *)

Module re.

(** Character sets: a literal, a range [[lo-hi]], a negation [[^...]] and
    the dot, which matches every character but a line feed. *)
Inductive cset : Type :=
| CChar (c : ascii)
| CRange (lo hi : ascii)
| CNot (cs : cset)
| CDot.

Definition LF : ascii := "010"%char.

Fixpoint cset_mem (cs : cset) (c : ascii) : bool :=
  match cs with
  | CChar x => Ascii.eqb c x
  | CRange lo hi =>
      Nat.leb (nat_of_ascii lo) (nat_of_ascii c) && Nat.leb (nat_of_ascii c) (nat_of_ascii hi)
  | CNot cs' => negb (cset_mem cs' c)
  | CDot => negb (Ascii.eqb c LF)
  end.

Inductive regex : Type :=
| Start                                  (* ^ *)
| Lit (s : string)                       (* a literal run of characters *)
| Repeat (cs : cset) (min : nat)         (* cs* (min = 0), cs+ (min = 1), greedy *)
| Maybe (r : regex)                      (* r?, greedy *)
| Alt (r1 r2 : regex)                    (* r1|r2 *)
| Seq (r1 r2 : regex)
| Group (name : string) (r : regex).     (* (?P<name>r) *)

(** A match object: the text bound to each named group. *)
Abbreviation match_object := (gmap string string).

Fixpoint strip_prefix (p s : string) {struct p} : option string :=
  match p, s with
  | EmptyString, _ => Some s
  | String a p', String b s' => if Ascii.eqb a b then strip_prefix p' s' else None
  | String _ _, EmptyString => None
  end.

(** Greedy repetition of a character set: the longest run is tried first,
    a shorter one only after the continuation [k] has failed on it. *)
Fixpoint repeat_greedy {A : Type} (cs : cset) (min : nat) (pos : nat) (s : string)
         (k : nat -> string -> option A) : option A :=
  let stop := match min with O => k pos s | S _ => None end in
  match s with
  | String c s' =>
      if cset_mem cs c then
        match repeat_greedy cs (Nat.pred min) (S pos) s' k with
        | Some x => Some x
        | None => stop
        end
      else stop
  | EmptyString => stop
  end.

(** [exec r pos s g k]: match [r] against [s], the part of the subject that
    starts at index [pos], with the groups [g] bound so far, and hand what
    is left to the continuation [k]; alternatives are tried in Python's
    order and the first success wins. *)
Fixpoint exec (r : regex) (pos : nat) (s : string) (g : match_object)
         (k : nat -> string -> match_object -> option match_object)
  : option match_object :=
  match r with
  | Start => if Nat.eqb pos 0 then k pos s g else None
  | Lit l =>
      match strip_prefix l s with
      | Some s' => k (pos + String.length l)%nat s' g
      | None => None
      end
  | Repeat cs min => repeat_greedy cs min pos s (fun pos' s' => k pos' s' g)
  | Maybe r' =>
      match exec r' pos s g k with
      | Some x => Some x
      | None => k pos s g
      end
  | Alt r1 r2 =>
      match exec r1 pos s g k with
      | Some x => Some x
      | None => exec r2 pos s g k
      end
  | Seq r1 r2 => exec r1 pos s g (fun pos' s' g' => exec r2 pos' s' g' k)
  | Group name r' =>
      exec r' pos s g
           (fun pos' s' g' => k pos' s' (<[name := str.take (pos' - pos) s]> g'))
  end.

(** [re.match(pattern, text)] *)
Definition match_ (pattern : regex) (text : string) : option match_object :=
  exec pattern 0 text ∅ (fun _ _ g => Some g).

(** [m.group(name)] for a group of the pattern *)
Definition group (m : match_object) (name : string) : string :=
  default EmptyString (m !! name).

Fixpoint seq (rs : list regex) : regex :=
  match rs with
  | [] => Lit EmptyString
  | [r] => r
  | r :: rs' => Seq r (seq rs')
  end.

End re.

(** The class [Re] of the source: a holder of the last match. *)
Record Re : Type := { last_match : option re.match_object }.

Definition Re_init : Re := {| last_match := None |}.

(** [Re.match(self, pattern, text)]: stores the match and returns it. *)
Definition Re_match (self : Re) (pattern : re.regex) (text : string)
  : Re * option re.match_object :=
  let m := re.match_ pattern text in
  ({| last_match := m |}, m).

(** [pattern_student]: the groups type = h, number = [0-9]+, an underscore,
    firstname = [^_]+, an underscore, lastname = [^_]+, an underscore,
    filename = .+ ; anchored by ^ . *)
Definition pattern_student : re.regex :=
  re.seq [ re.Start;
           re.Group "type" (re.Lit "h");
           re.Group "number" (re.Repeat (re.CRange "0" "9") 1);
           re.Lit "_";
           re.Group "firstname" (re.Repeat (re.CNot (re.CChar "_")) 1);
           re.Lit "_";
           re.Group "lastname" (re.Repeat (re.CNot (re.CChar "_")) 1);
           re.Lit "_";
           re.Group "filename" (re.Repeat re.CDot 1) ].

(** [pattern_group]: the groups type = Gruppe|Group, a space, number = [0-9]+,
    an underscore, firstname = [^_] starred, an optional underscore,
    lastname = [^_] starred, an underscore, filename = .+ ; anchored by ^ . *)
Definition pattern_group : re.regex :=
  re.seq [ re.Start;
           re.Group "type" (re.Alt (re.Lit "Gruppe") (re.Lit "Group"));
           re.Lit " ";
           re.Group "number" (re.Repeat (re.CRange "0" "9") 1);
           re.Lit "_";
           re.Group "firstname" (re.Repeat (re.CNot (re.CChar "_")) 0);
           re.Maybe (re.Lit "_");
           re.Group "lastname" (re.Repeat (re.CNot (re.CChar "_")) 0);
           re.Lit "_";
           re.Group "filename" (re.Repeat re.CDot 1) ].

(* ===================================================================== *)
(** ** The world the program runs in *)
(* ===================================================================== *)

(** The program reads archives and writes a tree of directories.  Of this
    the model keeps the following.

    - What lies at a path is an [entry].  An archive lists its members in
      order, each name with what it unpacks to; [zipfile] and [py7zr] behave
      alike, each on the extension it is opened for.
    - Opening something that is not the archive its extension announces
      raises ([BadZipFile], [Bad7zFile], [IsADirectoryError]), and so does
      [shutil.copyfile] on a directory.  Other failures of the operating
      system (permissions, a full disk) are not modelled: [makedirs],
      [extract], [copyfile] on a file and [copytree] succeed.
    - [os.path.isdir] on an unpacked path answers by the member that was
      unpacked there, and [copytree] copies the unpacked members listed
      below the directory's name.
    - The scratch directories of [tempfile.TemporaryDirectory] are numbered
      by a counter that is threaded through the calls; every statement
      about the result or the tree holds for any value of that counter. *)

(** What lies at a path: a plain file, a directory, or an archive with its
    members in listing order, each listed name with what it unpacks to. *)
#[local] Unset Elimination Schemes.
Inductive entry : Type :=
| File (content : string)
| Dir
| ZipFile (members : list (string * entry))
| SevenZipFile (members : list (string * entry)).
#[local] Set Elimination Schemes.

Definition isdir (e : entry) : bool :=
  match e with Dir => true | _ => false end.

(** The exceptions that leave the functions modelled here. *)
Inductive exn : Type :=
| NotImplementedError
| BadZipFile
| Bad7zFile
| IsADirectoryError
| AttributeError.

Inductive result (A : Type) : Type :=
| Ok (a : A)
| Raise (x : exn).
Arguments Ok {A} a.
Arguments Raise {A} x.

Inductive level : Type := DEBUG | INFO | FATAL.

(** The observable effects, in the order in which they happen. *)
Inductive event : Type :=
| Log (lvl : level) (msg : string)
| Makedirs (path : string)                       (* os.makedirs(path, exist_ok=True) *)
| Mkdtemp (path : string)                        (* entering TemporaryDirectory() *)
| Rmtree (path : string)                         (* leaving it, on every exit path *)
| Extract (archive member target : string)       (* archive.extract(member, target) *)
| Copyfile (src dst : string) (content : entry)  (* shutil.copyfile(src, dst) *)
| Copytree (src dst : string) (tree : list (string * entry)).
                                                 (* shutil.copytree(src, dst, dirs_exist_ok=True) *)

(** The name of the [n]-th scratch directory of a run. *)
Definition mkdtemp (n : nat) : string :=
  "/tmp/tmp" +:+ NilEmpty.string_of_uint (Nat.to_uint n).

(** A file in the list [files] of [extract_files]: its path, the name it is
    listed under in the archive it was unpacked from (the path itself for a
    file that was not unpacked), and what lies there. *)
Record located : Type := Located {
  path : string;
  member : string;
  content : entry
}.

(** What [shutil.copytree] finds below an unpacked directory: the unpacked
    members listed under its name, by their path relative to it. *)
Definition tree_of (d : string) (unpacked : list located) : list (string * entry) :=
  omap (fun u =>
          match re.strip_prefix (str.rstrip os_path.sep d +:+ "/") (member u) with
          | Some EmptyString => None
          | Some rel => Some (rel, content u)
          | None => None
          end) unpacked.

(* ===================================================================== *)
(** ** The functions of [autograde.py] *)
(* ===================================================================== *)

Module autograde.

Import os_path.

(** A submission: the dictionary with the keys ['type'], ['number'] and
    ['dir'] that [collect] builds. *)
Record submission : Type := Submission {
  type : string;
  number : string;
  dir : string
}.

(** What a call leaves behind: its result, the number of the next scratch
    directory, and the events it caused. *)
Definition outcome (A : Type) : Type := result A * nat * list event.

(** The condition of the comprehension in [filter]. *)
Definition keep (i : string) : bool :=
  negb (str.startswith i "__MACOSX/")
  && negb (str.startswith i ".")
  && negb (str.startswith (basename i) ".").

(** [filter(items)] *)
Definition filter (items : list string) : list string :=
  List.filter keep items.

(** [zipFile.namelist()] / [zipFile.getnames()] *)
Definition namelist (members : list (string * entry)) : list string :=
  map fst members.

(** The members that pass [filter], each with what it unpacks to. *)
Definition filter_members (members : list (string * entry)) : list (string * entry) :=
  List.filter (fun m => keep (fst m)) members.

(** [extract_zip(inputfile, target)], where [e] is what lies at
    [inputfile]: the paths returned, each with the member unpacked there,
    and the [extract] calls made. *)
Definition extract_zip (inputfile : string) (e : entry) (target : string)
  : result (list located) * list event :=
  let '(filename, ext) := splitext inputfile in
  let unpack (members : list (string * entry)) :=
    (Ok (map (fun m => Located (join target [fst m]) (fst m) (snd m))
             (filter_members members)),
     map (fun item => Extract inputfile item target) (filter (namelist members))) in
  if String.eqb ext ".zip" then
    match e with
    | ZipFile members => unpack members
    | Dir => (Raise IsADirectoryError, [])
    | _ => (Raise BadZipFile, [])
    end
  else if String.eqb ext ".7z" then
    match e with
    | SevenZipFile members => unpack members
    | Dir => (Raise IsADirectoryError, [])
    | _ => (Raise Bad7zFile, [])
    end
  else (Raise NotImplementedError, []).

(** [not notebook], for [notebook] that is [None] or a path. *)
Definition not_ (notebook : option string) : bool :=
  match notebook with
  | None => true
  | Some s => negb (str.truthy s)
  end.

(** The [for f in files] loop of [extract_files]; [unpacked] is all that
    lies in the scratch directory, [notebook] the loop-carried variable. *)
Fixpoint extract_files_loop (files unpacked : list located)
         (submission_dir notebook_filename : string) (notebook : option string)
  : result (option string) * list event :=
  match files with
  | [] => (Ok notebook, [])
  | Located f item e :: files' =>
      let '(fname, fext) := splitext f in
      let continue_ notebook' evs :=
        let '(r, evs') := extract_files_loop files' unpacked submission_dir
                                             notebook_filename notebook' in
        (r, Log DEBUG ("> " +:+ f) :: evs ++ evs') in
      if String.eqb fext ".ipynb" then
        if not_ notebook then
          if isdir e then
            (Raise IsADirectoryError,
             [Log DEBUG ("> " +:+ f); Log DEBUG ("notebook found: " +:+ f)])
          else
            continue_ (Some f)
                      [Log DEBUG ("notebook found: " +:+ f);
                       Copyfile f (join submission_dir [notebook_filename]) e]
        else
          continue_ notebook
                    [Log DEBUG ("notebook found: " +:+ f);
                     Log FATAL "Multiple notebooks found in submission!"]
      else if isdir e && String.eqb (basename (dirname f)) "data" then
        continue_ notebook
                  [Log DEBUG "Data dir found";
                   Copytree f (join submission_dir ["data"]) (tree_of item unpacked)]
      else continue_ notebook []
  end.

(** [extract_files(inputfile, target, submission, notebook_filename)] *)
Definition extract_files (inputfile : string) (e : entry) (target : string)
           (submission : submission) (notebook_filename : string) (n : nat)
  : outcome (list string) :=
  let '(filename, ext) := splitext inputfile in
  let tmpdir := mkdtemp n in
  let '(r, evs) :=
    let '(files, evs0) :=
      if String.eqb ext ".ipynb" then (Ok [Located inputfile inputfile e], [])
      else if String.eqb ext ".zip" || String.eqb ext ".7z"
           then extract_zip inputfile e tmpdir
           else (Raise NotImplementedError, []) in
    match files with
    | Raise x => (Raise x, evs0)
    | Ok files =>
        match extract_files_loop files files (dir submission) notebook_filename None with
        | (Raise x, evs1) => (Raise x, evs0 ++ evs1)
        | (Ok notebook, evs1) =>
            (Ok (map path files),
             evs0 ++ evs1 ++
             (if not_ notebook then [Log FATAL "No notebook found in submission!"]
              else []))
        end
    end in
  (r, S n, Mkdtemp tmpdir :: evs ++ [Rmtree tmpdir]).

(** The test [gre.match(pattern_student, basename) or
    gre.match(pattern_group, basename)]: the second match is attempted only
    when the first one failed, and [gre] remembers the last attempt. *)
Definition match_either (gre : Re) (basename : string) : Re * bool :=
  let '(gre1, m1) := Re_match gre pattern_student basename in
  match m1 with
  | Some _ => (gre1, true)
  | None =>
      let '(gre2, m2) := Re_match gre1 pattern_group basename in
      (gre2, match m2 with Some _ => true | None => false end)
  end.

(** The dictionary built at the start of the matched branch. *)
Definition classify (m : re.match_object) (target assignment : string) : submission :=
  let '(ty, num) :=
    if String.eqb (re.group m "type") "h"
    then ("student", re.group m "number")
    else ("group", "group" +:+ re.group m "number") in
  {| type := ty; number := num; dir := join target [num; assignment] |}.

(** The loop [for f in extract_zip(inputfile, tmpdir):
    submissions.extend(collect(f, ...))] over the members that were
    unpacked; an exception from one call ends the loop. *)
Section for_members.
Variable collect_ : string -> entry -> nat -> outcome (list submission).
Variable tmpdir : string.

Fixpoint for_members (members : list (string * entry)) (n : nat)
  : outcome (list submission) :=
  match members with
  | [] => (Ok [], n, [])
  | m :: members' =>
      if keep (fst m) then
        match collect_ (join tmpdir [fst m]) (snd m) n with
        | (Ok subs, n1, evs1) =>
            match for_members members' n1 with
            | (Ok subs', n2, evs2) => (Ok (subs ++ subs'), n2, evs1 ++ evs2)
            | (Raise x, n2, evs2) => (Raise x, n2, evs1 ++ evs2)
            end
        | (Raise x, n1, evs1) => (Raise x, n1, evs1)
        end
      else for_members members' n
  end.
End for_members.

(** [collect(inputfile, target, assignment, notebook_filename)], where [e]
    is what lies at [inputfile] and [n] numbers the next scratch
    directory. *)
Fixpoint collect (inputfile : string) (e : entry)
         (target assignment notebook_filename : string) (n : nat) {struct e}
  : outcome (list submission) :=
  let '(filename, ext) := splitext inputfile in
  let basename := basename inputfile in
  let '(gre, matched) := match_either Re_init basename in
  if matched then
    match last_match gre with
    | None => (Raise AttributeError, n, [])
    | Some m =>
        let submission := classify m target assignment in
        let '(r, n', evs) :=
          extract_files inputfile e target submission notebook_filename n in
        let evs' :=
          Makedirs (dir submission)
          :: Log INFO (type submission +:+ " submission found: " +:+ basename)
          :: evs in
        match r with
        | Ok _ => (Ok [submission], n', evs')
        | Raise x => (Raise x, n', evs')
        end
    end
  else if String.eqb ext ".ipynb" then
    (Ok [], n, [Log FATAL ("Unmatched notebook found in " +:+ inputfile)])
  else if String.eqb ext ".zip" || String.eqb ext ".7z" then
    let tmpdir := mkdtemp n in
    let '(r, n', evs) :=
      match extract_zip inputfile e tmpdir with
      | (Raise x, evs0) => (Raise x, S n, evs0)
      | (Ok _, evs0) =>
          match e with
          | ZipFile members | SevenZipFile members =>
              let '(r, n', evs1) :=
                for_members
                  (fun f e' n' => collect f e' target assignment notebook_filename n')
                  tmpdir members (S n) in
              (r, n', evs0 ++ evs1)
          | _ => (Ok [], S n, evs0)
          end
      end in
    (r, n',
     Mkdtemp tmpdir
     :: Log INFO ("Extracting " +:+ inputfile +:+ " to " +:+ tmpdir)
     :: evs ++ [Rmtree tmpdir])
  else
    (Raise NotImplementedError, n,
     [Log FATAL ("Don't know what to do with file: " +:+ inputfile)]).

End autograde.

Import autograde.

(* ===================================================================== *)
(** ** The tree that is kept: what the events do to it *)
(* ===================================================================== *)

(** The directories above [p]: every non-empty part of [p] that ends just
    before a separator. *)
Fixpoint parents_from (pre s : string) : list string :=
  match s with
  | EmptyString => []
  | String c s' =>
      (if Ascii.eqb c os_path.sep && str.truthy pre then [pre] else [])
      ++ parents_from (pre +:+ String c EmptyString) s'
  end.

Definition parents (p : string) : list string := parents_from EmptyString p.

(** Putting [e] at [p], with the directories above it. *)
Definition put (p : string) (e : entry) : list (string * entry) :=
  map (fun q => (q, Dir)) (parents p) ++ [(p, e)].

(** The writes an event makes to the tree that is kept.  [makedirs] with
    [exist_ok=True] leaves an existing directory as it is; [copyfile]
    replaces its destination; [copytree] with [dirs_exist_ok=True] merges
    into its destination.  Scratch directories are fresh and lie outside
    that tree, and logging does not touch it. *)
Definition writes_of (ev : event) : list (string * entry) :=
  match ev with
  | Makedirs p => put p Dir
  | Copyfile _ dst c => [(dst, c)]
  | Copytree _ dst tree =>
      put dst Dir ++ flat_map (fun m => put (dst +:+ "/" +:+ fst m) (snd m)) tree
  | _ => []
  end.

Definition apply_writes (ws : list (string * entry)) (fs : gmap string entry)
  : gmap string entry :=
  fold_left (fun fs w => <[fst w := snd w]> fs) ws fs.

(** The last entry a list of writes puts at [k], if it writes there. *)
Fixpoint last_write (k : string) (ws : list (string * entry)) : option entry :=
  match ws with
  | [] => None
  | w :: ws' =>
      match last_write k ws' with
      | Some e => Some e
      | None => if String.eqb (fst w) k then Some (snd w) else None
      end
  end.

(** The writes of a list of events, in order. *)
Definition writes (evs : list event) : list (string * entry) :=
  flat_map writes_of evs.

Definition run_events (evs : list event) (fs : gmap string entry) : gmap string entry :=
  apply_writes (writes evs) fs.

(* ===================================================================== *)
(** ** Vocabulary of the statements *)
(* ===================================================================== *)

(** [s.split(c)] *)
Fixpoint split (c : ascii) (s : string) : list string :=
  match s with
  | EmptyString => [EmptyString]
  | String x s' =>
      if Ascii.eqb x c then EmptyString :: split c s'
      else match split c s' with
           | h :: t => String x h :: t
           | [] => [String x EmptyString]
           end
  end.

(** The segments of a path. *)
Definition segments (p : string) : list string := split os_path.sep p.

Definition hidden (segment : string) : bool := str.startswith segment ".".

Fixpoint all_chars (p : ascii -> bool) (s : string) : bool :=
  match s with
  | EmptyString => true
  | String c s' => p c && all_chars p s'
  end.

Definition isdigit (c : ascii) : bool :=
  Nat.leb 48 (nat_of_ascii c) && Nat.leb (nat_of_ascii c) 57.

Definition not_underscore (c : ascii) : bool := negb (Ascii.eqb c "_").

(** The individual grammar [h<digits>_<firstname>_<lastname>_<restfilename>]:
    digits is [0-9]+, the two names are [^_]+, and restfilename is the
    pattern's [.+], a character other than a line feed followed by
    whatever is left. *)
Definition individual_grammar (basename digits : string) : Prop :=
  exists firstname lastname c rest,
    basename = "h" +:+ digits +:+ "_" +:+ firstname +:+ "_" +:+ lastname +:+ "_"
                   +:+ String c rest
    /\ digits <> EmptyString /\ all_chars isdigit digits = true
    /\ firstname <> EmptyString /\ all_chars not_underscore firstname = true
    /\ lastname <> EmptyString /\ all_chars not_underscore lastname = true
    /\ c <> re.LF.

(** The group grammar
    [(Gruppe|Group) <digits>_<firstname?>_<lastname?>_<restfilename>]:
    as above, but the two names may be empty. *)
Definition group_grammar (basename digits : string) : Prop :=
  exists prefix firstname lastname c rest,
    basename = prefix +:+ " " +:+ digits +:+ "_" +:+ firstname +:+ "_" +:+ lastname
                      +:+ "_" +:+ String c rest
    /\ (prefix = "Gruppe" \/ prefix = "Group")
    /\ digits <> EmptyString /\ all_chars isdigit digits = true
    /\ all_chars not_underscore firstname = true
    /\ all_chars not_underscore lastname = true
    /\ c <> re.LF.

(** The extension of a path, [os.path.splitext(p)[1]]. *)
Definition ext (p : string) : string := snd (os_path.splitext p).

(** A file that the loop of [extract_files] takes for a notebook. *)
Definition is_notebook (f : located) : bool := String.eqb (ext (path f)) ".ipynb".

(** A file that the loop of [extract_files] takes for a data directory. *)
Definition is_datadir (f : located) : bool :=
  negb (is_notebook f) && isdir (content f)
  && String.eqb (os_path.basename (os_path.dirname (path f))) "data".

(** Projections of a list of events. *)
Definition fatals (evs : list event) : list string :=
  omap (fun ev => match ev with Log FATAL m => Some m | _ => None end) evs.

Definition copyfiles (evs : list event) : list (string * string * entry) :=
  omap (fun ev => match ev with Copyfile s d c => Some (s, d, c) | _ => None end) evs.

Definition copytrees (evs : list event) : list (string * string) :=
  omap (fun ev => match ev with Copytree s d _ => Some (s, d) | _ => None end) evs.

(** The files the loop of [extract_files] has looked at, from its
    [logging.debug("> %s" % f)] lines. *)
Definition visited (evs : list event) : list string :=
  omap (fun ev => match ev with
                  | Log DEBUG m => re.strip_prefix "> " m
                  | _ => None
                  end) evs.

Definition supported (x : string) : bool :=
  String.eqb x ".ipynb" || String.eqb x ".zip" || String.eqb x ".7z".

Definition is_sep (c : ascii) : bool := Ascii.eqb c os_path.sep.

(** A repetition of [cs] stops in front of [r]. *)
Definition stops (cs : re.cset) (r : string) : Prop :=
  match r with
  | EmptyString => True
  | String c _ => re.cset_mem cs c = false
  end.

(** A scratch directory as [join] needs it: not empty, no trailing
    separator, and not itself called [data]. *)
Definition plain_dir (t : string) : Prop :=
  t <> "" /\ str.endswith t os_path.sep = false /\ os_path.basename t <> "data".

(** [collect] with its three fixed arguments, as the loop over the members
    of an archive calls it. *)
Definition collect_in (target assignment notebook_filename : string)
  : string -> entry -> nat -> outcome (list submission) :=
  fun f e n => collect f e target assignment notebook_filename n.

(** What a call leaves in the world that is kept: its result and its
    writes to the tree. *)
Definition kept {A : Type} (o : outcome A) : result A * list (string * entry) :=
  (fst (fst o), writes (snd o)).

(** The exception a result stands for, if any. *)
Definition failure {A : Type} (r : result A) : option exn :=
  match r with
  | Ok _ => None
  | Raise x => Some x
  end.

(** The result and the writes of [collect] on [e] depend on the path of
    the input only through its base name and its extension. *)
Definition path_independent (target assignment notebook_filename : string)
           (e : entry) : Prop :=
  forall (p p' : string) (n n' : nat),
    os_path.basename p = os_path.basename p' -> ext p = ext p' ->
    kept (collect_in target assignment notebook_filename p e n)
    = kept (collect_in target assignment notebook_filename p' e n').

(** An unpacked member in the scratch directory [t]. *)
Definition unpacked_to (t : string) (m : string * entry) : located :=
  Located (os_path.join t [fst m]) (fst m) (snd m).

(** The members of an archive. *)
Definition members_of (e : entry) : list (string * entry) :=
  match e with
  | ZipFile members | SevenZipFile members => members
  | _ => []
  end.

(** The archive that the extension [x] announces. *)
Definition archive_of (x : string) (members : list (string * entry)) : entry :=
  if String.eqb x ".7z" then SevenZipFile members else ZipFile members.

(** The list [files] that [extract_files] builds before its loop. *)
Definition files_of (inputfile : string) (e : entry) (tmpdir : string)
  : result (list located) :=
  if String.eqb (ext inputfile) ".ipynb" then Ok [Located inputfile inputfile e]
  else if String.eqb (ext inputfile) ".zip" || String.eqb (ext inputfile) ".7z"
       then fst (extract_zip inputfile e tmpdir)
       else Raise NotImplementedError.

(** The [extract] calls made while that list is built. *)
Definition unpack_events (inputfile : string) (e : entry) (tmpdir : string)
  : list event :=
  if String.eqb (ext inputfile) ".ipynb" then []
  else if String.eqb (ext inputfile) ".zip" || String.eqb (ext inputfile) ".7z"
       then snd (extract_zip inputfile e tmpdir)
       else [].

Definition notebooks (files : list located) : list located :=
  List.filter is_notebook files.

Definition datadirs (files : list located) : list located :=
  List.filter is_datadir files.

(** Where the loop of [extract_files] merges a data directory. *)
Definition merges (submission_dir : string) (files : list located)
  : list (string * string) :=
  map (fun f => (path f, os_path.join submission_dir ["data"])) (datadirs files).

Definition multiple_notebooks : string := "Multiple notebooks found in submission!".
Definition no_notebook : string := "No notebook found in submission!".

(** The basename matches one of the two patterns. *)
Definition matched (basename : string) : bool := snd (match_either Re_init basename).

(* ===================================================================== *)
(** ** Further vocabulary: the language of the group pattern *)
(* ===================================================================== *)

(** Everything the group pattern matches: after the digits and their
    underscore come one or two names without underscores (the underscore
    between them is optional in the pattern), an underscore, and a
    character other than a line feed. *)
Definition group_language (basename digits : string) : Prop :=
  exists prefix firstname u lastname c rest,
    basename = prefix +:+ " " +:+ digits +:+ "_" +:+ firstname +:+ u +:+ lastname
                      +:+ "_" +:+ String c rest
    /\ (prefix = "Gruppe" \/ prefix = "Group")
    /\ digits <> EmptyString /\ all_chars isdigit digits = true
    /\ all_chars not_underscore firstname = true
    /\ (u = EmptyString \/ u = "_")
    /\ all_chars not_underscore lastname = true
    /\ c <> re.LF.

(* ===================================================================== *)
(** ** Further vocabulary: disciplines that the events of a run follow *)
(* ===================================================================== *)

(** A non-empty run of decimal digits. *)
Definition digits (d : string) : Prop :=
  d <> EmptyString /\ all_chars isdigit d = true.

(** A submission as [collect] builds it for the course directory [target]
    and the assignment: a student under the digits of the file name, or a
    group under the word group and those digits, with its directory below
    both. *)
Definition well_formed (target assignment : string) (s : submission) : Prop :=
  dir s = os_path.join target [number s; assignment]
  /\ ((type s = "student" /\ digits (number s))
      \/ (type s = "group" /\ exists d, number s = "group" +:+ d /\ digits d)).

(** The directories that [os.makedirs] was called on, in order. *)
Definition makedirs (evs : list event) : list string :=
  omap (fun ev => match ev with Makedirs p => Some p | _ => None end) evs.

(** The scratch directories that were created, in order. *)
Definition mkdtemps (evs : list event) : list string :=
  omap (fun ev => match ev with Mkdtemp p => Some p | _ => None end) evs.

(** The discipline of the scratch directories, checked along the events:
    [open] lists the scratch directories that exist, the innermost first.
    A directory that is removed must be the innermost one, and an archive
    is unpacked into the innermost one only.  The answer is the list of
    the scratch directories that are left, or [None] when an event breaks
    the discipline. *)
Fixpoint scratch (evs : list event) (open : list string) : option (list string) :=
  match evs with
  | [] => Some open
  | Mkdtemp d :: evs' => scratch evs' (d :: open)
  | Rmtree d :: evs' =>
      match open with
      | d' :: open' => if String.eqb d d' then scratch evs' open' else None
      | [] => None
      end
  | Extract _ _ t :: evs' =>
      match open with
      | d' :: _ => if String.eqb t d' then scratch evs' open else None
      | [] => None
      end
  | _ :: evs' => scratch evs' open
  end.

(** The discipline of the copies, checked along the events: [current] is
    the directory of the last call of [os.makedirs].  A file is copied
    only to the name [notebook_filename] in that directory and a tree
    only to its [data] directory.  The answer is the directory that is
    current at the end, or [None] when an event breaks the discipline. *)
Fixpoint placed (notebook_filename : string) (evs : list event)
         (current : option string) : option (option string) :=
  match evs with
  | [] => Some current
  | Makedirs d :: evs' => placed notebook_filename evs' (Some d)
  | Copyfile _ dst _ :: evs' =>
      match current with
      | Some d =>
          if String.eqb dst (os_path.join d [notebook_filename])
          then placed notebook_filename evs' current else None
      | None => None
      end
  | Copytree _ dst _ :: evs' =>
      match current with
      | Some d =>
          if String.eqb dst (os_path.join d ["data"])
          then placed notebook_filename evs' current else None
      | None => None
      end
  | _ :: evs' => placed notebook_filename evs' current
  end.

(** The events between the creation and the removal of the scratch
    directory [t] in [extract_files], for the submission directory [d]. *)
Definition inner (t d notebook_filename : string) (ev : event) : Prop :=
  match ev with
  | Log _ _ => True
  | Extract _ _ t' => t' = t
  | Copyfile _ dst _ => dst = os_path.join d [notebook_filename]
  | Copytree _ dst _ => dst = os_path.join d ["data"]
  | _ => False
  end.

(** The members of an archive collected one by one, each under its own
    name as if it had been given as an input of its own, with no scratch
    directory involved: the result, and the writes to the tree, of going
    through the members that pass [filter] until one of them raises. *)
Fixpoint direct (target assignment notebook_filename : string)
         (members : list (string * entry))
  : result (list submission) * list (string * entry) :=
  match members with
  | [] => (Ok [], [])
  | m :: members' =>
      if keep (fst m) then
        match kept (collect (fst m) (snd m) target assignment notebook_filename 0) with
        | (Ok subs, ws) =>
            let '(r, ws') := direct target assignment notebook_filename members' in
            (match r with Ok subs' => Ok (subs ++ subs') | Raise x => Raise x end,
             ws ++ ws')
        | (Raise x, ws) => (Raise x, ws)
        end
      else direct target assignment notebook_filename members'
  end.

(* ===================================================================== *)
(** ** Around [collect]: the rest of the program *)
(* ===================================================================== *)

(** [%i] of a length. *)
Definition decimal (n : nat) : string := NilEmpty.string_of_uint (Nat.to_uint n).

(** [%d] of a count. *)
Definition decimal_int (z : Z) : string := NilEmpty.string_of_int (Z.to_int z).

Definition is_dot (c : ascii) : bool := Ascii.eqb c os_path.extsep.

(** The two ways in which [get_notebook_name] fails: the exception it
    raises itself, and the one of a dictionary without the key. *)
Inductive lookup_error : Type := RuntimeError | KeyError.

(** [get_notebook_name(api, assignment)], where [get_notebooks] is what
    [api.get_notebooks] answers, a list of dictionaries. *)
Definition get_notebook_name (get_notebooks : string -> list (gmap string string))
           (assignment : string) : (lookup_error + string) * list event :=
  let notebooks := get_notebooks assignment in
  match notebooks with
  | [] => (inl RuntimeError, [Log FATAL "No source notebooks found for assignment"])
  | notebook :: _ =>
      match notebook !! "name" with
      | Some name => (inr (name +:+ ".ipynb"), [])
      | None => (inl KeyError, [])
      end
  end.

(** The variable [html] of [collect_feedback]. *)
Definition feedback_html (assignment student notebook_filename : string) : string :=
  os_path.join "feedback"
               [student; assignment;
                fst (os_path.splitext notebook_filename) +:+ ".html"].

(** The loop of [main] over the input files, each with what lies there:
    the submissions of one input are counted and logged, and then
    forgotten; an exception of [collect] ends the program. *)
Fixpoint main_collect (inputfiles : list (string * entry))
         (submissiondir assignment notebook_filename : string) (n : nat)
  : outcome unit :=
  match inputfiles with
  | [] => (Ok tt, n, [])
  | (inputfile, e) :: inputfiles' =>
      match collect inputfile e submissiondir assignment notebook_filename n with
      | (Raise x, n1, evs1) => (Raise x, n1, evs1)
      | (Ok submissions, n1, evs1) =>
          let line :=
            match submissions with
            | [] => Log FATAL "No submissions found."
            | _ => Log INFO ("Found " +:+ decimal (length submissions)
                                      +:+ " submissions")
            end in
          let '(r, n2, evs2) :=
            main_collect inputfiles' submissiondir assignment notebook_filename n1 in
          (r, n2, evs1 ++ line :: evs2)
      end
  end.

(** The feedback part of [main] runs against nbgrader and the file system.
    Both are kept abstract: a state of the world, and operations that
    change it and may raise. *)
Section environment.

Variables (world X : Type).

(** [os.path.exists] *)
Variable exists_ : world -> string -> bool.
(** [shutil.copy(src, dst)] *)
Variable copy : world -> string -> string -> world * option X.
(** [api.generate_feedback(assignment, student, force)] *)
Variable api_generate_feedback : world -> string -> string -> bool -> world * option X.
(** [api.release_feedback(assignment, student)] *)
Variable api_release_feedback : world -> string -> string -> world * option X.

(** What ends the feedback part early: the [TypeError] of adding [None]
    to a number, or an exception of the environment. *)
Inductive crash : Type :=
| TypeError
| Raised (x : X).

(** [generate_feedback(api, assignment, student, force)] *)
Definition generate_feedback (w : world) (assignment student : string) (force : bool)
  : world * option X :=
  match api_generate_feedback w assignment student force with
  | (w1, Some x) => (w1, Some x)
  | (w1, None) => api_release_feedback w1 assignment student
  end.

(** [collect_feedback(api, assignment, student, output, notebook_filename)]:
    it returns [1], or [None] where the function ends without a
    [return]. *)
Definition collect_feedback (w : world)
           (assignment student output notebook_filename : string)
  : world * (X + option Z) * list event :=
  let html := feedback_html assignment student notebook_filename in
  if exists_ w html then
    let target := os_path.join output [student +:+ ".html"] in
    let line := Log INFO ("Collecting feedback from: " +:+ html) in
    match copy w html target with
    | (w1, Some x) => (w1, inl x, [line])
    | (w1, None) => (w1, inr (Some 1%Z), [line])
    end
  else (w, inr None, []).

(** The loop [for student in autograded] of [main], with the variable
    [reports] it carries. *)
Fixpoint feedback_loop (autograded : list string)
         (assignment output notebook_filename : string) (reports : Z) (w : world)
  : world * (crash + Z) * list event :=
  match autograded with
  | [] => (w, inr reports, [])
  | student :: autograded' =>
      match generate_feedback w assignment student true with
      | (w1, Some x) => (w1, inl (Raised x), [])
      | (w1, None) =>
          match collect_feedback w1 assignment student output notebook_filename with
          | (w2, inl x, evs) => (w2, inl (Raised x), evs)
          | (w2, inr None, evs) => (w2, inl TypeError, evs)
          | (w2, inr (Some k), evs) =>
              let '(w3, r, evs') :=
                feedback_loop autograded' assignment output notebook_filename
                              (reports + k)%Z w2 in
              (w3, r, evs ++ evs')
          end
      end
  end.

(** The end of [main]: the loop from zero, and the line that reports
    the count. *)
Definition report (autograded : list string)
           (assignment output notebook_filename : string) (w : world)
  : world * (crash + unit) * list event :=
  match feedback_loop autograded assignment output notebook_filename 0%Z w with
  | (w1, inl c, evs) => (w1, inl c, evs)
  | (w1, inr reports, evs) =>
      (w1, inr tt,
       evs ++ [Log INFO (decimal_int reports +:+ " reports written to " +:+ output)])
  end.

End environment.

Arguments TypeError {X}.
Arguments Raised {X} x.

(* ===================================================================== *)
(** ** Strings *)
(* ===================================================================== *)

#[local] Arguments Ascii.eqb !_ !_ /.

Section string_facts.

Lemma sapp_nil_l (s : string) : "" +:+ s = s.
Proof. reflexivity. Qed.

Lemma sapp_cons (c : ascii) (s t : string) : String c s +:+ t = String c (s +:+ t).
Proof. reflexivity. Qed.

Lemma sapp_nil_r (s : string) : s +:+ "" = s.
Proof. induction s as [|c s IH]; [done | by rewrite sapp_cons, IH]. Qed.

Lemma sapp_assoc (a b c : string) : (a +:+ b) +:+ c = a +:+ b +:+ c.
Proof. induction a as [|x a IH]; [done | by rewrite !sapp_cons, IH]. Qed.

Lemma slength_app (a b : string) :
  String.length (a +:+ b) = (String.length a + String.length b)%nat.
Proof. induction a as [|x a IH]; [done | by rewrite sapp_cons; simpl; rewrite IH]. Qed.

Lemma drop_app_plus (a b : string) (n : nat) :
  str.drop (String.length a + n) (a +:+ b) = str.drop n b.
Proof. induction a as [|x a IH]; [done | by rewrite sapp_cons]. Qed.

Lemma drop_app (a b : string) : str.drop (String.length a) (a +:+ b) = b.
Proof. rewrite <- (Nat.add_0_r (String.length a)), drop_app_plus. done. Qed.

Lemma take_app_plus (a b : string) (n : nat) :
  str.take (String.length a + n) (a +:+ b) = a +:+ str.take n b.
Proof. induction a as [|x a IH]; [done | by rewrite !sapp_cons; simpl; rewrite IH]. Qed.

Lemma take_app (a b : string) : str.take (String.length a) (a +:+ b) = a.
Proof.
  rewrite <- (Nat.add_0_r (String.length a)), take_app_plus.
  simpl. apply sapp_nil_r.
Qed.

Lemma rfind_ge (c : ascii) (s : string) : (-1 <= str.rfind c s)%Z.
Proof.
  induction s as [|x s IH]; simpl; [lia |].
  destruct (Z.leb_spec 0 (str.rfind c s)); [lia |].
  destruct (Ascii.eqb x c); lia.
Qed.

Lemma rfind_lt (c : ascii) (s : string) :
  (str.rfind c s < Z.of_nat (String.length s))%Z.
Proof.
  induction s as [|x s IH]; simpl String.length; simpl str.rfind; [lia |].
  destruct (Z.leb_spec 0 (str.rfind c s)); [lia |].
  destruct (Ascii.eqb x c); lia.
Qed.

Lemma rfind_app (c : ascii) (a b : string) :
  str.rfind c (a +:+ b) =
  if (0 <=? str.rfind c b)%Z then (Z.of_nat (String.length a) + str.rfind c b)%Z
  else str.rfind c a.
Proof.
  induction a as [|x a IH].
  - rewrite sapp_nil_l. simpl. destruct (Z.leb_spec 0 (str.rfind c b)); [lia |].
    pose proof (rfind_ge c b). lia.
  - rewrite sapp_cons. cbn [str.rfind String.length]. rewrite IH.
    destruct (Z.leb_spec 0 (str.rfind c b)) as [Hb|Hb].
    + destruct (Z.leb_spec 0 (Z.of_nat (String.length a) + str.rfind c b)); lia.
    + done.
Qed.

Lemma rfind_none (c : ascii) (s : string) :
  str.contains c s = false -> str.rfind c s = (-1)%Z.
Proof.
  induction s as [|x s IH]; simpl; [done |].
  intros [Hx Hs]%orb_false_elim. rewrite (IH Hs), Hx. done.
Qed.

Lemma rfind_some (c : ascii) (s : string) :
  str.contains c s = true -> (0 <= str.rfind c s)%Z.
Proof.
  induction s as [|x s IH]; simpl; [done |].
  destruct (Z.leb_spec 0 (str.rfind c s)) as [H|H]; [lia |].
  destruct (Ascii.eqb x c); simpl; [lia |].
  intros Hs. specialize (IH Hs). lia.
Qed.

End string_facts.

(* ===================================================================== *)
(** ** Paths *)
(* ===================================================================== *)

Section path_facts.

Import os_path.

Lemma contains_app (c : ascii) (a b : string) :
  str.contains c (a +:+ b) = str.contains c a || str.contains c b.
Proof.
  induction a as [|x a IH]; [done |].
  rewrite sapp_cons. simpl. rewrite IH. by rewrite orb_assoc.
Qed.

Lemma rfind_sep_cons (b : string) :
  str.rfind sep (String sep b) = (str.rfind sep b + 1)%Z
  \/ (str.rfind sep b = -1 /\ str.rfind sep (String sep b) = 0)%Z.
Proof.
  simpl. pose proof (rfind_ge sep b).
  destruct (Z.leb_spec 0 (str.rfind sep b)); [by left | right; lia].
Qed.

(** The base name of a path is the base name of what follows any of its
    separators. *)
Lemma basename_app_sep (a b : string) : basename (a +:+ "/" +:+ b) = basename b.
Proof.
  unfold basename, str.slice_from. rewrite rfind_app.
  change ("/" +:+ b) with (String sep b).
  pose proof (rfind_ge sep b) as Hge.
  destruct (rfind_sep_cons b) as [E|[E1 E]]; rewrite E.
  - destruct (Z.leb_spec 0 (str.rfind sep b + 1)) as [H|H].
    + replace (Z.to_nat (Z.of_nat (String.length a) + (str.rfind sep b + 1) + 1))
        with (String.length a + S (Z.to_nat (str.rfind sep b + 1)))%nat by lia.
      by rewrite drop_app_plus.
    + lia.
  - destruct (Z.leb_spec 0 0) as [_|H]; [|lia].
    replace (Z.to_nat (Z.of_nat (String.length a) + 0 + 1))
      with (String.length a + 1)%nat by lia.
    rewrite drop_app_plus, E1. done.
Qed.

Lemma basename_no_sep (b : string) : str.contains sep b = false -> basename b = b.
Proof. intros H. unfold basename. by rewrite (rfind_none _ _ H). Qed.

Lemma endswith_inv (s : string) (c : ascii) :
  str.endswith s c = true -> exists s', s = s' +:+ String c "".
Proof.
  induction s as [|x s IH]; [done |].
  destruct s as [|y s].
  - simpl. intros ->%Ascii.eqb_eq. by exists "".
  - intros H. destruct (IH H) as [s' ->]. by exists (String x s').
Qed.

(** How [join] puts a scratch directory and a member name together. *)
Lemma join_cases (t item : string) :
  join t [item] = item
  \/ exists t', join t [item] = t' +:+ "/" +:+ item.
Proof.
  unfold join. cbn [fold_left]. unfold join_step.
  destruct (str.startswith item "/"); [by left |].
  destruct t as [|c t]; [by left |].
  destruct (str.endswith (String c t) sep) eqn:E; simpl.
  - right. destruct (endswith_inv _ _ E) as [t' ->].
    exists t'. by rewrite sapp_assoc.
  - right. by eexists.
Qed.

Lemma basename_join (t item : string) : basename (join t [item]) = basename item.
Proof.
  destruct (join_cases t item) as [->|[t' ->]]; [done | apply basename_app_sep].
Qed.

Lemma get_app_plus (a b : string) (i : nat) :
  String.get (String.length a + i) (a +:+ b) = String.get i b.
Proof. induction a as [|x a IH]; [done | by rewrite sapp_cons]. Qed.

Lemma splitext_scan_app (a b : string) (i n : nat) :
  splitext_scan (a +:+ b) (String.length a + i) n = splitext_scan b i n.
Proof.
  revert i; induction n as [|n IH]; intros i; [done |].
  simpl. rewrite get_app_plus.
  destruct (String.get i b) as [c|]; [|done].
  destruct (negb (Ascii.eqb c extsep)); [done |].
  rewrite <- IH. f_equal. lia.
Qed.

(** The extension of a path is the extension of what follows any of its
    separators. *)
Lemma ext_app_sep (a b : string) : ext (a +:+ "/" +:+ b) = ext b.
Proof.
  unfold ext, splitext.
  rewrite (rfind_app sep a), (rfind_app extsep a).
  change ("/" +:+ b) with (String sep b).
  pose proof (rfind_ge sep b) as Hs. pose proof (rfind_ge extsep b) as Hd.
  pose proof (rfind_lt extsep a) as Hda.
  assert (Ed : str.rfind extsep (String sep b) =
               if (0 <=? str.rfind extsep b)%Z then (str.rfind extsep b + 1)%Z else (-1)%Z).
  { simpl. by destruct (0 <=? str.rfind extsep b)%Z. }
  rewrite Ed. clear Ed.
  assert (Es : exists rs, str.rfind sep (String sep b) = rs
               /\ (0 <= rs)%Z /\ (rs + 1 = str.rfind sep b + 2)%Z).
  { destruct (rfind_sep_cons b) as [E|[E1 E]]; rewrite E; eexists; split; try done; lia. }
  destruct Es as (rs & -> & Hrs0 & Hrs).
  destruct (Z.leb_spec 0 rs); [|lia].
  destruct (Z.leb_spec 0 (str.rfind extsep b)) as [Hb|Hb].
  - destruct (Z.leb_spec 0 (str.rfind extsep b + 1)); [|lia].
    replace (Z.of_nat (String.length a) + rs <? Z.of_nat (String.length a) + (str.rfind extsep b + 1))%Z
      with (str.rfind sep b <? str.rfind extsep b)%Z
      by (destruct (Z.ltb_spec (str.rfind sep b) (str.rfind extsep b));
          destruct (Z.ltb_spec (Z.of_nat (String.length a) + rs)
                               (Z.of_nat (String.length a) + (str.rfind extsep b + 1))); lia).
    replace (Z.to_nat (Z.of_nat (String.length a) + rs + 1))
      with (String.length (a +:+ "/") + Z.to_nat (str.rfind sep b + 1))%nat
      by (rewrite slength_app; simpl; lia).
    replace (Z.to_nat (Z.of_nat (String.length a) + (str.rfind extsep b + 1)
                       - (Z.of_nat (String.length a) + rs + 1)))
      with (Z.to_nat (str.rfind extsep b - (str.rfind sep b + 1))) by lia.
    replace (a +:+ String sep b) with ((a +:+ "/") +:+ b) by (by rewrite sapp_assoc).
    rewrite splitext_scan_app.
    destruct (_ && _); [|done].
    simpl. unfold str.slice_from.
    replace (Z.to_nat (Z.of_nat (String.length a) + (str.rfind extsep b + 1)))
      with (String.length (a +:+ "/") + Z.to_nat (str.rfind extsep b))%nat
      by (rewrite slength_app; simpl; lia).
    by rewrite drop_app_plus.
  - change (0 <=? -1)%Z with false. cbv iota.
    destruct (Z.ltb_spec (Z.of_nat (String.length a) + rs) (str.rfind extsep a)); [lia |].
    destruct (Z.ltb_spec (str.rfind sep b) (str.rfind extsep b)); [lia |].
    done.
Qed.

Lemma ext_join (t item : string) : ext (join t [item]) = ext item.
Proof.
  destruct (join_cases t item) as [->|[t' ->]]; [done | apply ext_app_sep].
Qed.

End path_facts.

Section dirname_facts.

Import os_path.

Lemma rstrip_app (c : ascii) (a b : string) :
  str.rstrip c (a +:+ b) =
  match str.rstrip c b with
  | EmptyString => str.rstrip c a
  | r => a +:+ r
  end.
Proof.
  induction a as [|x a IH].
  - rewrite sapp_nil_l. by destruct (str.rstrip c b).
  - rewrite sapp_cons. simpl. rewrite IH.
    destruct (str.rstrip c b) as [|y r]; [done |].
    rewrite !sapp_cons. by destruct a.
Qed.

Lemma rstrip_cons_ne (c x : ascii) (s : string) :
  Ascii.eqb x c = false -> str.rstrip c (String x s) = String x (str.rstrip c s).
Proof. intros H. simpl. rewrite H. by destruct (str.rstrip c s). Qed.

Lemma rstrip_cons_keep (c y : ascii) (s : string) :
  str.rstrip c s <> "" -> str.rstrip c (String y s) = String y (str.rstrip c s).
Proof. intros H. simpl. by destruct (str.rstrip c s). Qed.

Lemma rstrip_no_trail (c : ascii) (s : string) :
  str.endswith s c = false -> str.rstrip c s = s.
Proof.
  induction s as [|x s IH]; [done |].
  destruct s as [|y s].
  - simpl. by intros ->.
  - intros H. specialize (IH H). simpl in *. by rewrite IH.
Qed.

Lemma eqb_mul_all (s : string) :
  String.eqb s (str.mul sep (String.length s)) = all_chars is_sep s.
Proof.
  induction s as [|x s IH]; [done |].
  simpl. rewrite IH. unfold is_sep. done.
Qed.

Lemma all_chars_app (p : ascii -> bool) (a b : string) :
  all_chars p (a +:+ b) = all_chars p a && all_chars p b.
Proof.
  induction a as [|x a IH]; [done |].
  rewrite sapp_cons. simpl. by rewrite IH, andb_assoc.
Qed.

Lemma all_sep_endswith (s : string) :
  all_chars is_sep s = true -> s <> "" -> str.endswith s sep = true.
Proof.
  induction s as [|x s IH]; [done |].
  simpl. intros [Hx Hs]%andb_true_iff _.
  destruct s as [|y s]; [done |]. by apply IH.
Qed.

Lemma startswith_sep_cons (x : ascii) (s : string) :
  str.startswith (String x s) "/" = Ascii.eqb x sep.
Proof.
  simpl. rewrite andb_true_r. apply Ascii.eqb_sym.
Qed.

Lemma split_last (p : string) :
  str.contains sep p = true ->
  exists u v, p = u +:+ "/" +:+ v /\ str.contains sep v = false.
Proof.
  induction p as [|x p IH]; [done |].
  simpl. destruct (str.contains sep p) eqn:Hp.
  - intros _. destruct (IH eq_refl) as (u & v & -> & Hv).
    exists (String x u), v. by rewrite sapp_cons.
  - rewrite orb_false_r. intros ->%Ascii.eqb_eq.
    by exists "", p.
Qed.

Lemma rfind_split (u v : string) :
  str.contains sep v = false ->
  str.rfind sep (u +:+ "/" +:+ v) = Z.of_nat (String.length u).
Proof.
  intros Hv. rewrite rfind_app. change ("/" +:+ v) with (String sep v).
  simpl. rewrite (rfind_none _ _ Hv). simpl. lia.
Qed.

Lemma dirname_no_sep (p : string) : str.contains sep p = false -> dirname p = "".
Proof. intros H. unfold dirname. by rewrite (rfind_none _ _ H). Qed.

Lemma dirname_split (u v : string) :
  str.contains sep v = false ->
  dirname (u +:+ "/" +:+ v) =
  if all_chars is_sep u then u +:+ "/" else str.rstrip sep u.
Proof.
  intros Hv. unfold dirname, str.slice_to. rewrite (rfind_split _ _ Hv).
  replace (Z.to_nat (Z.of_nat (String.length u) + 1))
    with (String.length (u +:+ "/") + 0)%nat by (rewrite slength_app; simpl; lia).
  rewrite <- sapp_assoc, take_app_plus. simpl str.take. rewrite sapp_nil_r.
  rewrite eqb_mul_all, all_chars_app. simpl. rewrite andb_true_r.
  assert (Ht : str.truthy (u +:+ "/") = true) by (by destruct u).
  rewrite Ht. simpl.
  destruct (all_chars is_sep u); simpl; [done |].
  by rewrite rstrip_app.
Qed.

Lemma join_plain (t item : string) :
  plain_dir t ->
  join t [item] = if str.startswith item "/" then item else t +:+ "/" +:+ item.
Proof.
  intros (Ht & He & _). unfold join. cbn [fold_left]. unfold join_step.
  destruct (str.startswith item "/"); [done |].
  rewrite He. destruct t; [by destruct Ht | by simpl].
Qed.

(** Whether the directory above a member is called [data] does not depend
    on the scratch directory the member was unpacked to. *)
Lemma data_parent_join (t item : string) :
  plain_dir t ->
  String.eqb (basename (dirname (join t [item]))) "data"
  = String.eqb (basename (dirname item)) "data".
Proof.
  intros Hplain. rewrite (join_plain _ _ Hplain).
  destruct Hplain as (Ht & He & Hb).
  destruct (str.startswith item "/") eqn:Hs; [done |].
  assert (Hnt : all_chars is_sep t = false).
  { destruct (all_chars is_sep t) eqn:E; [|done].
    by rewrite (all_sep_endswith _ E Ht) in He. }
  destruct (str.contains sep item) eqn:Hc.
  - destruct (split_last _ Hc) as (u & v & -> & Hv).
    destruct u as [|x u].
    { rewrite sapp_nil_l in Hs. change ("/" +:+ v) with (String sep v) in Hs.
      by rewrite startswith_sep_cons in Hs. }
    assert (Hx : Ascii.eqb x sep = false)
      by (by rewrite sapp_cons, startswith_sep_cons in Hs).
    replace (t +:+ "/" +:+ String x u +:+ "/" +:+ v)
      with ((t +:+ "/" +:+ String x u) +:+ "/" +:+ v) by (by rewrite !sapp_assoc).
    rewrite !dirname_split by done.
    assert (Hxu : all_chars is_sep (String x u) = false)
      by (simpl; unfold is_sep; by rewrite Hx).
    rewrite all_chars_app, Hnt, Hxu. cbn [andb].
    rewrite rstrip_app. change ("/" +:+ String x u) with (String sep (String x u)).
    rewrite (rstrip_cons_keep sep sep (String x u))
      by (by rewrite (rstrip_cons_ne sep x u Hx)).
    change (String sep (str.rstrip sep (String x u)))
      with ("/" +:+ str.rstrip sep (String x u)).
    by rewrite basename_app_sep.
  - rewrite dirname_split, Hnt by done.
    rewrite (rstrip_no_trail _ _ He), (dirname_no_sep _ Hc).
    apply String.eqb_neq in Hb. rewrite Hb. done.
Qed.

Lemma uint_no_sep (u : Decimal.uint) :
  str.contains sep (NilEmpty.string_of_uint u) = false.
Proof. induction u; simpl; done. Qed.

Lemma endswith_app_no (a b : string) :
  str.contains sep b = false -> b <> "" -> str.endswith (a +:+ b) sep = false.
Proof.
  intros Hb Hne. induction a as [|x a IH].
  - rewrite sapp_nil_l. clear Hne. induction b as [|y b IHb]; [done |].
    simpl in Hb. apply orb_false_elim in Hb as [Hy Hb].
    destruct b as [|z b]; [done |]. by apply IHb.
  - rewrite sapp_cons. destruct (a +:+ b) eqn:E; [|done].
    by destruct a, b.
Qed.

Lemma mkdtemp_plain (n : nat) : plain_dir (mkdtemp n).
Proof.
  unfold mkdtemp.
  pose proof (uint_no_sep (Nat.to_uint n)) as Hd.
  set (d := NilEmpty.string_of_uint (Nat.to_uint n)) in *.
  repeat split.
  - done.
  - destruct d as [|c d'] eqn:E; [done |].
    change ("/tmp/tmp" +:+ String c d') with ("/tmp/tm" +:+ "p" +:+ String c d').
    apply endswith_app_no; [by rewrite sapp_cons, sapp_nil_l | done].
  - change ("/tmp/tmp" +:+ d) with ("/tmp" +:+ "/" +:+ "tmp" +:+ d).
    rewrite basename_app_sep, basename_no_sep; [done |].
    by rewrite contains_app, Hd.
Qed.

End dirname_facts.

(* ===================================================================== *)
(** ** The matcher on the two patterns *)
(* ===================================================================== *)

Section matcher_facts.

Import re.

Lemma strip_prefix_app (l s : string) : strip_prefix l (l +:+ s) = Some s.
Proof.
  induction l as [|x l IH]; [done |].
  rewrite sapp_cons. simpl. by rewrite Ascii.eqb_refl.
Qed.

Lemma exec_lit (l s : string) pos g k :
  exec (Lit l) pos (l +:+ s) g k = k (pos + String.length l)%nat s g.
Proof. simpl. by rewrite strip_prefix_app. Qed.

(** The longest run is taken when the continuation accepts it. *)
Lemma repeat_greedy_run {A : Type} (cs : cset) (m r : string) :
  forall (min pos : nat) (k : nat -> string -> option A) (x : A),
    all_chars (cset_mem cs) m = true ->
    (min <= String.length m)%nat ->
    stops cs r ->
    k (pos + String.length m)%nat r = Some x ->
    repeat_greedy cs min pos (m +:+ r) k = Some x.
Proof.
  induction m as [|c m IH]; intros min pos k x Hall Hmin Hstop Hk.
  - rewrite sapp_nil_l. simpl in Hmin, Hk. rewrite Nat.add_0_r in Hk.
    assert (min = 0%nat) as -> by lia.
    destruct r as [|c r]; simpl; [done |].
    simpl in Hstop. by rewrite Hstop.
  - rewrite sapp_cons. simpl in Hall. apply andb_true_iff in Hall as [Hc Hall].
    simpl. rewrite Hc.
    rewrite (IH (Nat.pred min) (S pos) k x); [done | done | simpl in Hmin; lia | done |].
    simpl in Hk. by replace (S pos + String.length m)%nat
      with (pos + S (String.length m))%nat by lia.
Qed.

(** A repetition in front of a continuation that never fails. *)
Lemma repeat_greedy_last {A : Type} (cs : cset) (Q : A -> Prop) (s : string) :
  forall (min pos : nat) (k : nat -> string -> option A),
    (forall pos' s', exists x, k pos' s' = Some x /\ Q x) ->
    (min <= 1)%nat ->
    (min = 1%nat -> exists c s', s = String c s' /\ cset_mem cs c = true) ->
    exists x, repeat_greedy cs min pos s k = Some x /\ Q x.
Proof.
  induction s as [|c s IH]; intros min pos k Hk Hmin Hs.
  - simpl. destruct min as [|min]; [apply Hk |].
    destruct Hs as (? & ? & ? & ?); [lia | done].
  - simpl. destruct (cset_mem cs c) eqn:Hc.
    + destruct (IH (Nat.pred min) (S pos) k Hk) as (x & -> & Hx); [lia | lia |].
      by exists x.
    + destruct min as [|min]; [apply Hk |].
      destruct Hs as (? & ? & [= <- <-] & ?); [lia | congruence].
Qed.

Lemma exec_group_lit (name l s : string) pos g k :
  exec (Group name (Lit l)) pos (l +:+ s) g k
  = k (pos + String.length l)%nat s (<[name := l]> g).
Proof.
  cbn [exec]. rewrite strip_prefix_app.
  replace (pos + String.length l - pos)%nat with (String.length l + 0)%nat by lia.
  rewrite take_app_plus. simpl. by rewrite sapp_nil_r.
Qed.

Lemma exec_group_repeat (name : string) (cs : cset) (min : nat) (m r : string)
      pos g k x :
  all_chars (cset_mem cs) m = true ->
  (min <= String.length m)%nat ->
  stops cs r ->
  k (pos + String.length m)%nat r (<[name := m]> g) = Some x ->
  exec (Group name (Repeat cs min)) pos (m +:+ r) g k = Some x.
Proof.
  intros Hall Hmin Hstop Hk. cbn [exec].
  apply repeat_greedy_run; try done.
  replace (pos + String.length m - pos)%nat with (String.length m + 0)%nat by lia.
  rewrite take_app_plus. simpl. by rewrite sapp_nil_r.
Qed.

Lemma exec_group_repeat_last (name : string) (cs : cset) (c : ascii) (rest : string)
      pos g :
  cset_mem cs c = true ->
  exists txt, exec (Group name (Repeat cs 1)) pos (String c rest) g
                   (fun _ _ g' => Some g')
              = Some (<[name := txt]> g).
Proof.
  intros Hc. cbn [exec].
  destruct (repeat_greedy_last cs (fun x => exists txt, x = <[name := txt]> g)
              (String c rest) 1 pos
              (fun pos' _ => Some (<[name := str.take (pos' - pos) (String c rest)]> g)))
    as (x & Hx & txt & ->); [by eauto | lia | by eauto |].
  by exists txt.
Qed.

Lemma digit_mem (c : ascii) : cset_mem (CRange "0" "9") c = isdigit c.
Proof. reflexivity. Qed.

Lemma name_mem (c : ascii) : cset_mem (CNot (CChar "_")) c = not_underscore c.
Proof. reflexivity. Qed.

Lemma all_chars_ext (p q : ascii -> bool) (s : string) :
  (forall c, p c = q c) -> all_chars p s = all_chars q s.
Proof. intros H. induction s as [|c s IH]; [done |]. simpl. by rewrite H, IH. Qed.

Lemma nonempty_length (s : string) : s <> "" -> (1 <= String.length s)%nat.
Proof. destruct s; [done | simpl; lia]. Qed.

Lemma exec_seq (r1 r2 : regex) pos s g k :
  exec (Seq r1 r2) pos s g k
  = exec r1 pos s g (fun pos' s' g' => exec r2 pos' s' g' k).
Proof. reflexivity. Qed.

Lemma exec_start s g k : exec Start 0 s g k = k 0%nat s g.
Proof. reflexivity. Qed.

Lemma not_lf (c : ascii) : c <> LF -> cset_mem CDot c = true.
Proof. intros H. simpl. by apply negb_true_iff, Ascii.eqb_neq. Qed.

Lemma stops_underscore_digit (s : string) : stops (CRange "0" "9") ("_" +:+ s).
Proof. reflexivity. Qed.

Lemma stops_underscore_name (s : string) : stops (CNot (CChar "_")) ("_" +:+ s).
Proof. reflexivity. Qed.

(** The student pattern on a base name of the individual grammar. *)
Lemma match_student (basename digits : string) :
  individual_grammar basename digits ->
  exists m, match_ pattern_student basename = Some m
            /\ group m "type" = "h" /\ group m "number" = digits.
Proof.
  intros (fn & ln & c & rest & -> & Hd0 & Hd & Hf0 & Hf & Hl0 & Hl & Hc).
  destruct (exec_group_repeat_last "filename" CDot c rest
              (0 + String.length "h" + String.length digits + String.length "_"
               + String.length fn + String.length "_" + String.length ln
               + String.length "_")%nat
              (<["lastname" := ln]> (<["firstname" := fn]>
                 (<["number" := digits]> (<["type" := "h"]> ∅))))
              (not_lf c Hc))
    as (txt & Hlast).
  eexists. split; [|split].
  - unfold match_, pattern_student. cbn [seq].
    rewrite exec_seq, exec_start, exec_seq, exec_group_lit, exec_seq.
    apply exec_group_repeat;
      [done | by apply nonempty_length | apply stops_underscore_digit |].
    rewrite exec_seq, exec_lit, exec_seq.
    apply exec_group_repeat;
      [done | by apply nonempty_length | apply stops_underscore_name |].
    rewrite exec_seq, exec_lit, exec_seq.
    apply exec_group_repeat;
      [done | by apply nonempty_length | apply stops_underscore_name |].
    rewrite exec_seq, exec_lit.
    exact Hlast.
  - unfold group. by rewrite !lookup_insert_ne, lookup_insert_eq by done.
  - unfold group. by rewrite !lookup_insert_ne, lookup_insert_eq by done.
Qed.

Lemma exec_group_alt_l (name l1 l2 s : string) pos g k x :
  k (pos + String.length l1)%nat s (<[name := l1]> g) = Some x ->
  exec (Group name (Alt (Lit l1) (Lit l2))) pos (l1 +:+ s) g k = Some x.
Proof.
  intros Hk. cbn [exec]. rewrite strip_prefix_app.
  replace (pos + String.length l1 - pos)%nat with (String.length l1 + 0)%nat by lia.
  rewrite take_app_plus. simpl str.take. by rewrite sapp_nil_r, Hk.
Qed.

Lemma exec_group_alt_r (name l1 l2 s : string) pos g k x :
  strip_prefix l1 (l2 +:+ s) = None ->
  k (pos + String.length l2)%nat s (<[name := l2]> g) = Some x ->
  exec (Group name (Alt (Lit l1) (Lit l2))) pos (l2 +:+ s) g k = Some x.
Proof.
  intros Hno Hk. cbn [exec]. rewrite Hno, strip_prefix_app.
  replace (pos + String.length l2 - pos)%nat with (String.length l2 + 0)%nat by lia.
  rewrite take_app_plus. simpl str.take. by rewrite sapp_nil_r, Hk.
Qed.

Lemma exec_maybe_lit (l s : string) pos g k x :
  k (pos + String.length l)%nat s g = Some x ->
  exec (Maybe (Lit l)) pos (l +:+ s) g k = Some x.
Proof. intros Hk. cbn [exec]. by rewrite strip_prefix_app, Hk. Qed.

(** The student pattern does not match a base name of the group grammar. *)
Lemma match_student_group (basename digits : string) :
  group_grammar basename digits -> match_ pattern_student basename = None.
Proof.
  intros (p & fn & ln & c & rest & -> & [-> | ->] & _); reflexivity.
Qed.

(** The group pattern on a base name of the group grammar. *)
Lemma match_group (basename digits : string) :
  group_grammar basename digits ->
  exists m, match_ pattern_group basename = Some m
            /\ group m "type" <> "h" /\ group m "number" = digits.
Proof.
  intros (p & fn & ln & c & rest & -> & Hp & Hd0 & Hd & Hf & Hl & Hc).
  destruct (exec_group_repeat_last "filename" CDot c rest
              (0 + String.length p + String.length " " + String.length digits
               + String.length "_" + String.length fn + String.length "_"
               + String.length ln + String.length "_")%nat
              (<["lastname" := ln]> (<["firstname" := fn]>
                 (<["number" := digits]> (<["type" := p]> ∅))))
              (not_lf c Hc))
    as (txt & Hlast).
  eexists. split; [|split].
  - unfold match_, pattern_group. cbn [seq].
    rewrite exec_seq, exec_start, exec_seq.
    assert (Hrest :
      exec (seq [Lit " "; Group "number" (Repeat (CRange "0" "9") 1); Lit "_";
                 Group "firstname" (Repeat (CNot (CChar "_")) 0);
                 Maybe (Lit "_");
                 Group "lastname" (Repeat (CNot (CChar "_")) 0);
                 Lit "_"; Group "filename" (Repeat CDot 1)])
           (0 + String.length p)
           (" " +:+ digits +:+ "_" +:+ fn +:+ "_" +:+ ln +:+ "_" +:+ String c rest)
           (<["type" := p]> ∅) (fun _ _ g => Some g)
      = Some (<["filename" := txt]> (<["lastname" := ln]> (<["firstname" := fn]>
                 (<["number" := digits]> (<["type" := p]> ∅)))))).
    { cbn [seq]. rewrite exec_seq, exec_lit, exec_seq.
      apply exec_group_repeat;
        [done | by apply nonempty_length | apply stops_underscore_digit |].
      rewrite exec_seq, exec_lit, exec_seq.
      apply exec_group_repeat;
        [done | lia | apply stops_underscore_name |].
      rewrite exec_seq. apply exec_maybe_lit. rewrite exec_seq.
      apply exec_group_repeat;
        [done | lia | apply stops_underscore_name |].
      rewrite exec_seq, exec_lit. exact Hlast. }
    destruct Hp as [-> | ->].
    + apply exec_group_alt_l. exact Hrest.
    + apply exec_group_alt_r; [reflexivity | exact Hrest].
  - unfold group. rewrite !lookup_insert_ne, lookup_insert_eq by done.
    by destruct Hp as [-> | ->].
  - unfold group. by rewrite !lookup_insert_ne, lookup_insert_eq by done.
Qed.

(** What the test of [collect] answers on the two grammars. *)
Lemma match_either_student (basename digits : string) :
  individual_grammar basename digits ->
  exists m, match_either Re_init basename = ({| last_match := Some m |}, true)
            /\ group m "type" = "h" /\ group m "number" = digits.
Proof.
  intros (m & Hm & Ht & Hn)%match_student. exists m.
  unfold match_either, Re_match. by rewrite Hm.
Qed.

Lemma match_either_group (basename digits : string) :
  group_grammar basename digits ->
  exists m, match_either Re_init basename = ({| last_match := Some m |}, true)
            /\ group m "type" <> "h" /\ group m "number" = digits.
Proof.
  intros H. destruct (match_group _ _ H) as (m & Hm & Ht & Hn). exists m.
  unfold match_either, Re_match. by rewrite (match_student_group _ _ H), Hm.
Qed.

End matcher_facts.

(* ===================================================================== *)
(** ** The equations of [collect] *)
(* ===================================================================== *)

Section collect_equations.

Import os_path.

Lemma match_either_true (b : string) (gre : Re) :
  match_either Re_init b = (gre, true) ->
  exists m, gre = {| last_match := Some m |}.
Proof.
  unfold match_either, Re_match.
  destruct (re.match_ pattern_student b) as [m|]; [intros [= <-]; by exists m |].
  destruct (re.match_ pattern_group b) as [m|]; [intros [= <-]; by exists m | done].
Qed.

Lemma matched_true (b : string) :
  matched b = true ->
  exists m, match_either Re_init b = ({| last_match := Some m |}, true).
Proof.
  unfold matched. destruct (match_either Re_init b) as [gre r] eqn:E.
  simpl. intros ->. destruct (match_either_true _ _ E) as [m ->]. by exists m.
Qed.

Lemma matched_false (b : string) :
  matched b = false -> exists gre, match_either Re_init b = (gre, false).
Proof.
  unfold matched. destruct (match_either Re_init b) as [gre r].
  simpl. intros ->. by exists gre.
Qed.

(** The matched branch. *)
Lemma collect_matched inputfile e target assignment notebook_filename n m :
  match_either Re_init (basename inputfile) = ({| last_match := Some m |}, true) ->
  collect inputfile e target assignment notebook_filename n =
  let submission := classify m target assignment in
  let '(r, n', evs) :=
    extract_files inputfile e target submission notebook_filename n in
  (match r with Ok _ => Ok [submission] | Raise x => Raise x end, n',
   Makedirs (dir submission)
   :: Log INFO (type submission +:+ " submission found: " +:+ basename inputfile)
   :: evs).
Proof.
  intros Hm. destruct e; cbn [collect]; destruct (splitext inputfile);
    rewrite Hm; cbn [last_match];
    destruct (extract_files _ _ _ _ _ _) as [[[?|?] ?] ?]; done.
Qed.

(** The unmatched branches. *)
Lemma collect_unmatched inputfile e target assignment notebook_filename n :
  matched (basename inputfile) = false ->
  collect inputfile e target assignment notebook_filename n =
  if String.eqb (ext inputfile) ".ipynb" then
    (Ok [], n, [Log FATAL ("Unmatched notebook found in " +:+ inputfile)])
  else if String.eqb (ext inputfile) ".zip" || String.eqb (ext inputfile) ".7z" then
    let tmpdir := mkdtemp n in
    let '(r, n', evs) :=
      match extract_zip inputfile e tmpdir with
      | (Raise x, evs0) => (Raise x, S n, evs0)
      | (Ok _, evs0) =>
          let '(r, n', evs1) :=
            for_members
              (fun f e' n' => collect f e' target assignment notebook_filename n')
              tmpdir (members_of e) (S n) in
          (r, n', evs0 ++ evs1)
      end in
    (r, n',
     Mkdtemp tmpdir
     :: Log INFO ("Extracting " +:+ inputfile +:+ " to " +:+ tmpdir)
     :: evs ++ [Rmtree tmpdir])
  else
    (Raise NotImplementedError, n,
     [Log FATAL ("Don't know what to do with file: " +:+ inputfile)]).
Proof.
  intros [gre Hm]%matched_false. unfold ext.
  destruct e; cbn [collect]; unfold extract_zip;
    destruct (splitext inputfile) as [filename x]; rewrite Hm; cbn [snd];
    destruct (String.eqb x ".ipynb"); try done;
    destruct (String.eqb x ".zip"); cbn [orb]; try done;
    destruct (String.eqb x ".7z"); try done.
Qed.

End collect_equations.

(* ===================================================================== *)
(** ** Classification of a matched base name *)
(* ===================================================================== *)

Section classification.

Import os_path.

Lemma startswith_digits (digits : string) :
  all_chars isdigit digits = true -> str.startswith digits "/" = false.
Proof.
  destruct digits as [|c d]; [done |].
  simpl. intros [Hc _]%andb_true_iff. rewrite andb_true_r.
  destruct (Ascii.eqb_spec "/" c) as [<-|]; [done | done].
Qed.

Lemma digits_no_sep (digits : string) :
  all_chars isdigit digits = true -> str.contains sep digits = false.
Proof.
  induction digits as [|c d IH]; [done |].
  simpl. intros [Hc Hd]%andb_true_iff. rewrite (IH Hd), orb_false_r.
  destruct (Ascii.eqb_spec c sep) as [->|]; [done | done].
Qed.

(** The target directory of a submission, written out, for a target root
    without a trailing separator and a relative assignment name. *)
Lemma join_identity_dir (target key assignment : string) :
  target <> "" -> str.endswith target sep = false ->
  key <> "" -> str.startswith key "/" = false -> str.contains sep key = false ->
  str.startswith assignment "/" = false ->
  join target [key; assignment] = target +:+ "/" +:+ key +:+ "/" +:+ assignment.
Proof.
  intros Ht He Hk Hks Hkc Ha. unfold join. cbn [fold_left]. unfold join_step.
  rewrite Hks, He, Ha. destruct target as [|c t]; [done |]. cbn [str.truthy negb orb].
  assert (Hne : str.truthy (String c t +:+ "/" +:+ key) = true) by done.
  rewrite Hne. cbn [negb orb].
  rewrite <- (sapp_assoc (String c t) "/" key).
  rewrite (endswith_app_no (String c t +:+ "/") key Hkc Hk).
  by rewrite !sapp_assoc.
Qed.

Lemma group_key_plain (digits : string) :
  all_chars isdigit digits = true ->
  "group" +:+ digits <> ""
  /\ str.startswith ("group" +:+ digits) "/" = false
  /\ str.contains sep ("group" +:+ digits) = false.
Proof.
  intros Hd. split; [|split].
  - change ("group" +:+ digits) with (String "g" ("roup" +:+ digits)). discriminate.
  - reflexivity.
  - by rewrite contains_app, (digits_no_sep _ Hd).
Qed.

(** C1.  A base name of the individual grammar is classified as a student
    submission whose number is the digit string as it stands, and the
    directory made for it is [join target [digits; assignment]], that is
    target/digits/assignment: [collect] makes that directory, logs the
    submission, runs [extract_files] on the input and, unless that raises,
    returns this one submission. *)
Theorem collect_individual
        (inputfile : string) (e : entry) (target assignment notebook_filename : string)
        (n : nat) (digits : string) :
  individual_grammar (basename inputfile) digits ->
  let submission :=
    {| type := "student"; number := digits;
       dir := join target [digits; assignment] |} in
  collect inputfile e target assignment notebook_filename n =
    (let '(r, n', evs) :=
       extract_files inputfile e target submission notebook_filename n in
     (match r with Ok _ => Ok [submission] | Raise x => Raise x end, n',
      Makedirs (join target [digits; assignment])
      :: Log INFO ("student submission found: " +:+ basename inputfile)
      :: evs))
  /\ (target <> "" -> str.endswith target sep = false ->
      str.startswith assignment "/" = false ->
      dir submission = target +:+ "/" +:+ digits +:+ "/" +:+ assignment).
Proof.
  intros Hg submission. split.
  - destruct (match_either_student _ _ Hg) as (m & Hm & Ht & Hn).
    rewrite (collect_matched _ _ _ _ _ _ _ Hm).
    unfold classify. rewrite Ht, Hn. done.
  - intros Ht He Ha. destruct Hg as (fn & ln & c & rest & _ & Hd0 & Hd & _).
    apply join_identity_dir; try done.
    + by apply startswith_digits.
    + by apply digits_no_sep.
Qed.

Lemma collect_individual_witness :
  individual_grammar (basename "in/h0042_Jane_Doe_hw3.ipynb") "0042"
  /\ fst (fst (collect "in/h0042_Jane_Doe_hw3.ipynb" (File "nb") "submitted" "hw3"
                        "hw3.ipynb" 0))
     = Ok [ {| type := "student"; number := "0042"; dir := "submitted/0042/hw3" |} ].
Proof.
  assert (H : individual_grammar (basename "in/h0042_Jane_Doe_hw3.ipynb") "0042").
  { exists "Jane", "Doe", "h"%char, "w3.ipynb". repeat split; done. }
  split; [exact H |].
  destruct (collect_individual "in/h0042_Jane_Doe_hw3.ipynb" (File "nb") "submitted"
              "hw3" "hw3.ipynb" 0 "0042" H) as [-> _].
  reflexivity.
Defined.

(** C5.  A base name of the group grammar, with or without the two names,
    is classified as a group submission whose number is the word group
    followed by the digit string; the directory made for it is
    [join target ["group" ++ digits; assignment]]. *)
Theorem collect_group
        (inputfile : string) (e : entry) (target assignment notebook_filename : string)
        (n : nat) (digits : string) :
  group_grammar (basename inputfile) digits ->
  let submission :=
    {| type := "group"; number := "group" +:+ digits;
       dir := join target ["group" +:+ digits; assignment] |} in
  collect inputfile e target assignment notebook_filename n =
    (let '(r, n', evs) :=
       extract_files inputfile e target submission notebook_filename n in
     (match r with Ok _ => Ok [submission] | Raise x => Raise x end, n',
      Makedirs (join target ["group" +:+ digits; assignment])
      :: Log INFO ("group submission found: " +:+ basename inputfile)
      :: evs))
  /\ (target <> "" -> str.endswith target sep = false ->
      str.startswith assignment "/" = false ->
      dir submission = target +:+ "/" +:+ "group" +:+ digits +:+ "/" +:+ assignment).
Proof.
  intros Hg submission. split.
  - destruct (match_either_group _ _ Hg) as (m & Hm & Ht & Hn).
    rewrite (collect_matched _ _ _ _ _ _ _ Hm).
    unfold classify. apply String.eqb_neq in Ht. rewrite Ht, Hn. done.
  - intros Ht He Ha. destruct Hg as (p & fn & ln & c & rest & _ & _ & Hd0 & Hd & _).
    destruct (group_key_plain _ Hd) as (H1 & H2 & H3).
    rewrite <- (sapp_assoc "group" digits). by apply join_identity_dir.
Qed.

Lemma collect_group_witness :
  group_grammar (basename "Gruppe 7___hw3.ipynb") "7"
  /\ fst (fst (collect "Gruppe 7___hw3.ipynb" (File "nb") "submitted" "hw3"
                        "hw3.ipynb" 0))
     = Ok [ {| type := "group"; number := "group7"; dir := "submitted/group7/hw3" |} ].
Proof.
  assert (H : group_grammar (basename "Gruppe 7___hw3.ipynb") "7").
  { exists "Gruppe", "", "", "h"%char, "w3.ipynb". repeat split; by auto. }
  split; [exact H |].
  destruct (collect_group "Gruppe 7___hw3.ipynb" (File "nb") "submitted"
              "hw3" "hw3.ipynb" 0 "7" H) as [-> _].
  reflexivity.
Defined.

End classification.

(* ===================================================================== *)
(** ** The tree that is kept *)
(* ===================================================================== *)

Section tree_facts.

Lemma apply_writes_app (a b : list (string * entry)) (fs : gmap string entry) :
  apply_writes (a ++ b) fs = apply_writes b (apply_writes a fs).
Proof. unfold apply_writes. apply fold_left_app. Qed.

Lemma last_write_app (k : string) (a b : list (string * entry)) :
  last_write k (a ++ b) =
  match last_write k b with
  | Some e => Some e
  | None => last_write k a
  end.
Proof.
  induction a as [|w a IH]; simpl.
  - by destruct (last_write k b).
  - rewrite IH. by destruct (last_write k b).
Qed.

(** After a list of writes a path holds what was written there last, and
    what it held before if nothing was. *)
Lemma lookup_apply_writes (ws : list (string * entry)) :
  forall (fs : gmap string entry) (k : string),
    apply_writes ws fs !! k =
    match last_write k ws with
    | Some e => Some e
    | None => fs !! k
    end.
Proof.
  induction ws as [|w ws IH]; intros fs k; [done |].
  change (apply_writes (w :: ws) fs) with (apply_writes ws (<[fst w := snd w]> fs)).
  rewrite IH. simpl. destruct (last_write k ws); [done |].
  destruct (String.eqb_spec (fst w) k) as [->|Hne].
  - by rewrite lookup_insert_eq.
  - by rewrite lookup_insert_ne.
Qed.



Lemma last_write_put (p : string) (e : entry) : last_write p (put p e) = Some e.
Proof.
  unfold put. rewrite last_write_app. simpl. by rewrite String.eqb_refl.
Qed.

Lemma writes_app (a b : list event) : writes (a ++ b) = writes a ++ writes b.
Proof. unfold writes. apply flat_map_app. Qed.

Lemma writes_cons (ev : event) (evs : list event) :
  writes (ev :: evs) = writes_of ev ++ writes evs.
Proof. reflexivity. Qed.

End tree_facts.

(* ===================================================================== *)
(** ** A matched input with an extension that is not supported *)
(* ===================================================================== *)

Section unsupported.

Import os_path.

Lemma supported_false (x : string) :
  supported x = false ->
  String.eqb x ".ipynb" = false /\ String.eqb x ".zip" = false
  /\ String.eqb x ".7z" = false.
Proof.
  unfold supported. intros [[H1 H2]%orb_false_elim H3]%orb_false_elim. done.
Qed.

Lemma extract_files_unsupported inputfile e target submission notebook_filename n :
  supported (ext inputfile) = false ->
  extract_files inputfile e target submission notebook_filename n
  = (Raise NotImplementedError, S n, [Mkdtemp (mkdtemp n); Rmtree (mkdtemp n)]).
Proof.
  intros (H1 & H2 & H3)%supported_false. unfold extract_files. unfold ext in *.
  destruct (splitext inputfile) as [filename x]. simpl in *.
  by rewrite H1, H2, H3.
Qed.

(** C10.  A matched input whose extension is none of .ipynb, .zip and .7z:
    [collect] makes the target directory, logs the submission, and then
    [extract_files] raises [NotImplementedError] inside its scratch
    directory; no submission is returned, and the directory that was made
    is still there afterwards. *)
Theorem collect_matched_unsupported
        (inputfile : string) (e : entry) (target assignment notebook_filename : string)
        (n : nat) :
  matched (basename inputfile) = true ->
  supported (ext inputfile) = false ->
  exists submission,
    dir submission = join target [number submission; assignment]
    /\ collect inputfile e target assignment notebook_filename n
       = (Raise NotImplementedError, S n,
          [Makedirs (dir submission);
           Log INFO (type submission +:+ " submission found: " +:+ basename inputfile);
           Mkdtemp (mkdtemp n); Rmtree (mkdtemp n)])
    /\ forall fs : gmap string entry,
         run_events (snd (collect inputfile e target assignment notebook_filename n)) fs
         !! dir submission = Some Dir.
Proof.
  intros [m Hm]%matched_true Hx.
  exists (classify m target assignment).
  assert (Hc : collect inputfile e target assignment notebook_filename n
       = (Raise NotImplementedError, S n,
          [Makedirs (dir (classify m target assignment));
           Log INFO (type (classify m target assignment) +:+ " submission found: "
                          +:+ basename inputfile);
           Mkdtemp (mkdtemp n); Rmtree (mkdtemp n)])).
  { rewrite (collect_matched _ _ _ _ _ _ _ Hm). cbv zeta.
    by rewrite (extract_files_unsupported _ _ _ _ _ _ Hx). }
  split; [|split].
  - unfold classify. by destruct (String.eqb _ _).
  - exact Hc.
  - intros fs. rewrite Hc. cbn [snd]. unfold run_events.
    rewrite lookup_apply_writes.
    unfold writes. cbn [flat_map writes_of]. rewrite !app_nil_r.
    by rewrite last_write_put.
Qed.

Lemma collect_matched_unsupported_witness :
  matched (basename "h42_Jane_Doe_hw3.pdf") = true
  /\ supported (ext "h42_Jane_Doe_hw3.pdf") = false
  /\ fst (fst (collect "h42_Jane_Doe_hw3.pdf" (File "pdf") "submitted" "hw3"
                       "hw3.ipynb" 0)) = Raise NotImplementedError
  /\ run_events (snd (collect "h42_Jane_Doe_hw3.pdf" (File "pdf") "submitted" "hw3"
                              "hw3.ipynb" 0)) ∅ !! "submitted/42/hw3" = Some Dir.
Proof.
  assert (H1 : matched (basename "h42_Jane_Doe_hw3.pdf") = true) by reflexivity.
  assert (H2 : supported (ext "h42_Jane_Doe_hw3.pdf") = false) by reflexivity.
  split; [exact H1 | split; [exact H2 |]].
  destruct (collect_matched_unsupported "h42_Jane_Doe_hw3.pdf" (File "pdf") "submitted"
              "hw3" "hw3.ipynb" 0 H1 H2) as (s & Hd & Hc & Hfs).
  split.
  - by rewrite Hc.
  - vm_compute. reflexivity.
Defined.

End unsupported.

(* ===================================================================== *)
(** ** The loop of [extract_files] *)
(* ===================================================================== *)

Section placer.

Import os_path.

Lemma loop_cons (f : located) (files unpacked : list located)
      (submission_dir notebook_filename : string) (notebook : option string) :
  extract_files_loop (f :: files) unpacked submission_dir notebook_filename notebook =
  let continue_ notebook' evs :=
    let '(r, evs') := extract_files_loop files unpacked submission_dir
                                         notebook_filename notebook' in
    (r, Log DEBUG ("> " +:+ path f) :: evs ++ evs') in
  if is_notebook f then
    if not_ notebook then
      if isdir (content f) then
        (Raise IsADirectoryError,
         [Log DEBUG ("> " +:+ path f); Log DEBUG ("notebook found: " +:+ path f)])
      else
        continue_ (Some (path f))
                  [Log DEBUG ("notebook found: " +:+ path f);
                   Copyfile (path f) (join submission_dir [notebook_filename])
                            (content f)]
    else
      continue_ notebook
                [Log DEBUG ("notebook found: " +:+ path f);
                 Log FATAL multiple_notebooks]
  else if is_datadir f then
    continue_ notebook
              [Log DEBUG "Data dir found";
               Copytree (path f) (join submission_dir ["data"])
                        (tree_of (member f) unpacked)]
  else continue_ notebook [].
Proof.
  destruct f as [p item e]. unfold is_datadir, is_notebook, ext.
  cbn [extract_files_loop path member content].
  destruct (splitext p) as [fname fext]. cbn [snd].
  destruct (String.eqb fext ".ipynb"); [done |].
  cbn [negb andb]. done.
Qed.

Lemma ext_empty : ext "" = "".
Proof. reflexivity. Qed.

Lemma notebook_truthy (f : located) : is_notebook f = true -> not_ (Some (path f)) = false.
Proof.
  unfold is_notebook. destruct (path f) as [|c p] eqn:E; [by rewrite ext_empty | done].
Qed.

Lemma fatals_app a b : fatals (a ++ b) = fatals a ++ fatals b.
Proof. apply omap_app. Qed.
Lemma copyfiles_app a b : copyfiles (a ++ b) = copyfiles a ++ copyfiles b.
Proof. apply omap_app. Qed.
Lemma copytrees_app a b : copytrees (a ++ b) = copytrees a ++ copytrees b.
Proof. apply omap_app. Qed.
Lemma visited_app a b : visited (a ++ b) = visited a ++ visited b.
Proof. apply omap_app. Qed.

Lemma visited_visit (p : string) (evs : list event) :
  visited (Log DEBUG ("> " +:+ p) :: evs) = p :: visited evs.
Proof.
  unfold visited. cbn [omap]. unfold mbind, option_bind.
  change (re.strip_prefix "> " ("> " +:+ p)) with (Some p). done.
Qed.

Lemma copyfiles_step p evs0 evs :
  copyfiles (Log DEBUG ("> " +:+ p) :: evs0 ++ evs) = copyfiles evs0 ++ copyfiles evs.
Proof. apply copyfiles_app. Qed.
Lemma fatals_step p evs0 evs :
  fatals (Log DEBUG ("> " +:+ p) :: evs0 ++ evs) = fatals evs0 ++ fatals evs.
Proof. apply fatals_app. Qed.
Lemma copytrees_step p evs0 evs :
  copytrees (Log DEBUG ("> " +:+ p) :: evs0 ++ evs) = copytrees evs0 ++ copytrees evs.
Proof. apply copytrees_app. Qed.
Lemma visited_step p evs0 evs :
  visited (Log DEBUG ("> " +:+ p) :: evs0 ++ evs) = p :: visited evs0 ++ visited evs.
Proof. by rewrite visited_visit, visited_app. Qed.

Lemma notebooks_cons (f : located) (files : list located) :
  notebooks (f :: files) = if is_notebook f then f :: notebooks files else notebooks files.
Proof. reflexivity. Qed.

Lemma datadirs_cons (f : located) (files : list located) :
  datadirs (f :: files) = if is_datadir f then f :: datadirs files else datadirs files.
Proof. reflexivity. Qed.

Lemma merges_cons (d : string) (f : located) (files : list located) :
  merges d (f :: files) =
  if is_datadir f then (path f, join d ["data"]) :: merges d files else merges d files.
Proof. unfold merges. rewrite datadirs_cons. by destruct (is_datadir f). Qed.

Lemma datadir_not_notebook (f : located) : is_notebook f = true -> is_datadir f = false.
Proof. unfold is_datadir. by intros ->. Qed.

(** Once a notebook has been found, every further notebook is reported
    and none is copied; the loop goes through all the files. *)
Lemma loop_found (unpacked : list located) (d nb : string) (notebook : option string)
      (files : list located) :
  not_ notebook = false ->
  exists evs,
    extract_files_loop files unpacked d nb notebook = (Ok notebook, evs)
    /\ copyfiles evs = []
    /\ fatals evs = repeat multiple_notebooks (length (notebooks files))
    /\ copytrees evs = merges d files
    /\ visited evs = map path files.
Proof.
  intros Hnb. induction files as [|f files IH]; [by exists [] |].
  destruct IH as (evs & Hl & H1 & H2 & H3 & H4).
  rewrite loop_cons, notebooks_cons, merges_cons. cbv zeta. rewrite Hnb, Hl.
  destruct (is_notebook f) eqn:Hn; [rewrite (datadir_not_notebook _ Hn) |
                                     destruct (is_datadir f)];
    eexists; (split; [reflexivity |]);
    rewrite copyfiles_step, fatals_step, copytrees_step, visited_step,
            H1, H2, H3, H4;
    repeat split; reflexivity.
Qed.

(** Without a notebook among the files nothing is copied and nothing is
    reported by the loop. *)
Lemma loop_none (unpacked : list located) (d nb : string) (notebook : option string)
      (files : list located) :
  notebooks files = [] ->
  exists evs,
    extract_files_loop files unpacked d nb notebook = (Ok notebook, evs)
    /\ copyfiles evs = []
    /\ fatals evs = []
    /\ copytrees evs = merges d files
    /\ visited evs = map path files.
Proof.
  induction files as [|f files IH]; [by exists [] |].
  rewrite notebooks_cons. destruct (is_notebook f) eqn:Hn; [done |].
  intros (evs & Hl & H1 & H2 & H3 & H4)%IH.
  rewrite loop_cons, merges_cons. cbv zeta. rewrite Hn, Hl.
  destruct (is_datadir f);
    eexists; (split; [reflexivity |]);
    rewrite copyfiles_step, fatals_step, copytrees_step, visited_step,
            H1, H2, H3, H4;
    repeat split; reflexivity.
Qed.

Lemma notebooks_app (a b : list located) : notebooks (a ++ b) = notebooks a ++ notebooks b.
Proof. apply List.filter_app. Qed.

Lemma merges_app (d : string) (a b : list located) :
  merges d (a ++ b) = merges d a ++ merges d b.
Proof. unfold merges, datadirs. by rewrite List.filter_app, map_app. Qed.

(** The first notebook is copied to the canonical name, every later one
    is reported, and the loop goes through all the files. *)
Lemma loop_first (unpacked : list located) (d nb : string)
      (pre : list located) (first : located) (rest : list located) :
  notebooks pre = [] -> is_notebook first = true -> isdir (content first) = false ->
  exists evs,
    extract_files_loop (pre ++ first :: rest) unpacked d nb None
    = (Ok (Some (path first)), evs)
    /\ copyfiles evs = [(path first, join d [nb], content first)]
    /\ fatals evs = repeat multiple_notebooks (length (notebooks rest))
    /\ copytrees evs = merges d (pre ++ first :: rest)
    /\ visited evs = map path (pre ++ first :: rest).
Proof.
  intros Hpre Hf He. induction pre as [|f pre IH].
  - destruct (loop_found unpacked d nb (Some (path first)) rest
                (notebook_truthy _ Hf)) as (evs & Hl & H1 & H2 & H3 & H4).
    rewrite app_nil_l, loop_cons, merges_cons. cbv zeta.
    rewrite Hf, He, Hl, (datadir_not_notebook _ Hf). cbn [not_].
    eexists; (split; [reflexivity |]).
    rewrite copyfiles_step, fatals_step, copytrees_step, visited_step,
            H1, H2, H3, H4.
    repeat split; reflexivity.
  - rewrite notebooks_cons in Hpre. destruct (is_notebook f) eqn:Hn; [done |].
    destruct (IH Hpre) as (evs & Hl & H1 & H2 & H3 & H4).
    rewrite <- app_comm_cons, loop_cons, merges_cons. cbv zeta. rewrite Hn, Hl.
    destruct (is_datadir f);
      eexists; (split; [reflexivity |]);
      rewrite copyfiles_step, fatals_step, copytrees_step, visited_step,
              H1, H2, H3, H4;
      repeat split; reflexivity.
Qed.

(** A list of files has no notebook, or a first one. *)
Lemma first_notebook (files : list located) :
  notebooks files = []
  \/ exists pre first rest,
       files = pre ++ first :: rest /\ notebooks pre = [] /\ is_notebook first = true.
Proof.
  induction files as [|f files IH]; [by left |].
  rewrite notebooks_cons. destruct (is_notebook f) eqn:Hn.
  - right. by exists [], f, files.
  - destruct IH as [H | (pre & first & rest & -> & Hp & Hf)]; [by left |].
    right. exists (f :: pre), first, rest. rewrite notebooks_cons, Hn. done.
Qed.

(** [extract_files] in terms of the list of files it builds. *)
Lemma extract_files_eq inputfile e target submission notebook_filename n :
  extract_files inputfile e target submission notebook_filename n =
  let tmpdir := mkdtemp n in
  let evs0 := unpack_events inputfile e tmpdir in
  match files_of inputfile e tmpdir with
  | Raise x => (Raise x, S n, Mkdtemp tmpdir :: evs0 ++ [Rmtree tmpdir])
  | Ok files =>
      match extract_files_loop files files (dir submission) notebook_filename None with
      | (Raise x, evs1) =>
          (Raise x, S n, Mkdtemp tmpdir :: (evs0 ++ evs1) ++ [Rmtree tmpdir])
      | (Ok notebook, evs1) =>
          (Ok (map path files), S n,
           Mkdtemp tmpdir
           :: (evs0 ++ evs1 ++ (if not_ notebook then [Log FATAL no_notebook] else []))
           ++ [Rmtree tmpdir])
      end
  end.
Proof.
  unfold extract_files, files_of, unpack_events, ext.
  destruct (splitext inputfile) as [filename x]. cbn [snd]. cbv zeta.
  destruct (String.eqb x ".ipynb").
  - by destruct (extract_files_loop _ _ _ _ _) as [[?|?] ?].
  - destruct (String.eqb x ".zip" || String.eqb x ".7z"); [|done].
    destruct (extract_zip _ _ _) as [[files|?] evs0]; [|done].
    cbn [fst snd].
    by destruct (extract_files_loop _ _ _ _ _) as [[?|?] ?].
Qed.

(** While the list of files is built only [extract] calls are made. *)
Lemma unpack_events_quiet inputfile e tmpdir :
  copyfiles (unpack_events inputfile e tmpdir) = []
  /\ fatals (unpack_events inputfile e tmpdir) = []
  /\ copytrees (unpack_events inputfile e tmpdir) = []
  /\ visited (unpack_events inputfile e tmpdir) = []
  /\ writes (unpack_events inputfile e tmpdir) = [].
Proof.
  unfold unpack_events. destruct (String.eqb (ext inputfile) ".ipynb"); [done |].
  destruct (_ || _); [|done].
  unfold extract_zip. destruct (splitext inputfile) as [filename x].
  assert (H : forall items : list string,
             let evs := map (fun item => Extract inputfile item tmpdir) items in
             copyfiles evs = [] /\ fatals evs = [] /\ copytrees evs = []
             /\ visited evs = [] /\ writes evs = []).
  { induction items as [|i items IH]; [done |]. apply IH. }
  destruct (String.eqb x ".zip"); [destruct e; try done; apply H |].
  destruct (String.eqb x ".7z"); [destruct e; try done; apply H | done].
Qed.

End placer.

(* ===================================================================== *)
(** ** What [extract_files] places *)
(* ===================================================================== *)

Section placement.

Import os_path.

Lemma copyfiles_frame t evs :
  copyfiles (Mkdtemp t :: evs ++ [Rmtree t]) = copyfiles evs.
Proof.
  change (Mkdtemp t :: evs ++ [Rmtree t]) with ([Mkdtemp t] ++ evs ++ [Rmtree t]).
  rewrite !copyfiles_app. simpl. by rewrite app_nil_r.
Qed.
Lemma fatals_frame t evs :
  fatals (Mkdtemp t :: evs ++ [Rmtree t]) = fatals evs.
Proof.
  change (Mkdtemp t :: evs ++ [Rmtree t]) with ([Mkdtemp t] ++ evs ++ [Rmtree t]).
  rewrite !fatals_app. simpl. by rewrite app_nil_r.
Qed.
Lemma copytrees_frame t evs :
  copytrees (Mkdtemp t :: evs ++ [Rmtree t]) = copytrees evs.
Proof.
  change (Mkdtemp t :: evs ++ [Rmtree t]) with ([Mkdtemp t] ++ evs ++ [Rmtree t]).
  rewrite !copytrees_app. simpl. by rewrite app_nil_r.
Qed.
Lemma visited_frame t evs :
  visited (Mkdtemp t :: evs ++ [Rmtree t]) = visited evs.
Proof.
  change (Mkdtemp t :: evs ++ [Rmtree t]) with ([Mkdtemp t] ++ evs ++ [Rmtree t]).
  rewrite !visited_app. simpl. by rewrite app_nil_r.
Qed.

(** C4.  Two or more notebooks among the files of one submission, the
    first of them a file and not a directory: the first one in listing
    order, and only that one, is copied to the
    canonical name in the submission directory; every later notebook is
    reported as fatal; and the loop still goes through every file (each is
    visited, each data directory is merged) and [extract_files] returns. *)
Theorem extract_files_multiple_notebooks
        (inputfile : string) (e : entry) (target : string) (submission : submission)
        (notebook_filename : string) (n : nat)
        (pre : list located) (first : located) (rest : list located) :
  files_of inputfile e (mkdtemp n) = Ok (pre ++ first :: rest) ->
  notebooks pre = [] -> is_notebook first = true -> isdir (content first) = false ->
  notebooks rest <> [] ->
  exists evs,
    extract_files inputfile e target submission notebook_filename n
    = (Ok (map path (pre ++ first :: rest)), S n, evs)
    /\ copyfiles evs
       = [(path first, join (dir submission) [notebook_filename], content first)]
    /\ fatals evs = repeat multiple_notebooks (length (notebooks rest))
    /\ fatals evs <> []
    /\ visited evs = map path (pre ++ first :: rest)
    /\ copytrees evs = merges (dir submission) (pre ++ first :: rest).
Proof.
  intros Hfiles Hpre Hf He Hrest.
  destruct (loop_first (pre ++ first :: rest) (dir submission) notebook_filename
              pre first rest Hpre Hf He) as (evs & Hl & H1 & H2 & H3 & H4).
  destruct (unpack_events_quiet inputfile e (mkdtemp n)) as (Q1 & Q2 & Q3 & Q4 & _).
  rewrite extract_files_eq. cbv zeta. rewrite Hfiles, Hl, (notebook_truthy _ Hf).
  eexists. split; [reflexivity |].
  rewrite copyfiles_frame, fatals_frame, visited_frame, copytrees_frame.
  rewrite !copyfiles_app, !fatals_app, !visited_app, !copytrees_app.
  rewrite Q1, Q2, Q3, Q4, H1, H2, H3, H4. cbn [app]. rewrite !app_nil_r.
  repeat split; try reflexivity.
  destruct (notebooks rest); [done | discriminate].
Qed.

Lemma extract_files_multiple_notebooks_witness :
  exists evs,
    extract_files "h1_a_b_hw.zip"
                  (ZipFile [("a.ipynb", File "1"); ("data/", Dir); ("b.ipynb", File "2")])
                  "submitted"
                  {| type := "student"; number := "1"; dir := "submitted/1/hw" |}
                  "hw.ipynb" 0
    = (Ok ["/tmp/tmp0/a.ipynb"; "/tmp/tmp0/data/"; "/tmp/tmp0/b.ipynb"], 1%nat, evs)
    /\ copyfiles evs = [("/tmp/tmp0/a.ipynb", "submitted/1/hw/hw.ipynb", File "1")]
    /\ fatals evs = [multiple_notebooks]
    /\ copytrees evs = [("/tmp/tmp0/data/", "submitted/1/hw/data")].
Proof.
  destruct (extract_files_multiple_notebooks
              "h1_a_b_hw.zip"
              (ZipFile [("a.ipynb", File "1"); ("data/", Dir); ("b.ipynb", File "2")])
              "submitted"
              {| type := "student"; number := "1"; dir := "submitted/1/hw" |}
              "hw.ipynb" 0
              [] (Located "/tmp/tmp0/a.ipynb" "a.ipynb" (File "1"))
              [Located "/tmp/tmp0/data/" "data/" Dir;
               Located "/tmp/tmp0/b.ipynb" "b.ipynb" (File "2")])
    as (evs & H & H1 & H2 & _ & _ & H4);
    [reflexivity | reflexivity | reflexivity | reflexivity | discriminate |].
  exists evs. repeat split; assumption.
Defined.

(** C9.  No notebook among the files of a submission: the loop goes
    through every file and merges every data directory into the data
    directory of the submission, and only then, as the last thing before
    the scratch directory is removed, the missing notebook is reported as
    fatal; [extract_files] returns. *)
Theorem extract_files_no_notebook
        (inputfile : string) (e : entry) (target : string) (submission : submission)
        (notebook_filename : string) (n : nat) (files : list located) :
  files_of inputfile e (mkdtemp n) = Ok files ->
  notebooks files = [] ->
  exists evs,
    extract_files inputfile e target submission notebook_filename n
    = (Ok (map path files), S n,
       evs ++ [Log FATAL no_notebook; Rmtree (mkdtemp n)])
    /\ fatals evs = []
    /\ copyfiles evs = []
    /\ visited evs = map path files
    /\ copytrees evs = merges (dir submission) files.
Proof.
  intros Hfiles Hnone.
  destruct (loop_none files (dir submission) notebook_filename None files Hnone)
    as (evs & Hl & H1 & H2 & H3 & H4).
  destruct (unpack_events_quiet inputfile e (mkdtemp n)) as (Q1 & Q2 & Q3 & Q4 & _).
  rewrite extract_files_eq. cbv zeta. rewrite Hfiles, Hl. cbn [not_].
  exists (Mkdtemp (mkdtemp n) :: unpack_events inputfile e (mkdtemp n) ++ evs).
  split.
  - f_equal. cbn [app]. f_equal. by rewrite <- !app_assoc.
  - change (Mkdtemp (mkdtemp n) :: unpack_events inputfile e (mkdtemp n) ++ evs)
      with ([Mkdtemp (mkdtemp n)] ++ unpack_events inputfile e (mkdtemp n) ++ evs).
    rewrite !copyfiles_app, !fatals_app, !visited_app, !copytrees_app.
    rewrite Q1, Q2, Q3, Q4, H1, H2, H3, H4. done.
Qed.

Lemma extract_files_no_notebook_witness :
  exists evs,
    extract_files "Gruppe 7__Meier_hw3.zip"
                  (ZipFile [("readme.txt", File "r"); ("data/", Dir);
                            ("data/input.csv", File "csv")])
                  "submitted"
                  {| type := "group"; number := "group7"; dir := "submitted/group7/hw3" |}
                  "hw3.ipynb" 0
    = (Ok ["/tmp/tmp0/readme.txt"; "/tmp/tmp0/data/"; "/tmp/tmp0/data/input.csv"],
       1%nat, evs ++ [Log FATAL no_notebook; Rmtree "/tmp/tmp0"])
    /\ copytrees evs = [("/tmp/tmp0/data/", "submitted/group7/hw3/data")]
    /\ run_events evs ∅ !! "submitted/group7/hw3/data/input.csv" = Some (File "csv").
Proof.
  destruct (extract_files_no_notebook
              "Gruppe 7__Meier_hw3.zip"
              (ZipFile [("readme.txt", File "r"); ("data/", Dir);
                        ("data/input.csv", File "csv")])
              "submitted"
              {| type := "group"; number := "group7"; dir := "submitted/group7/hw3" |}
              "hw3.ipynb" 0
              [Located "/tmp/tmp0/readme.txt" "readme.txt" (File "r");
               Located "/tmp/tmp0/data/" "data/" Dir;
               Located "/tmp/tmp0/data/input.csv" "data/input.csv" (File "csv")])
    as (evs & H & _ & _ & _ & H4); [reflexivity | reflexivity |].
  exists evs. split; [exact H | split; [exact H4 |]].
  assert (Hev :
    snd (extract_files "Gruppe 7__Meier_hw3.zip"
           (ZipFile [("readme.txt", File "r"); ("data/", Dir);
                     ("data/input.csv", File "csv")])
           "submitted"
           {| type := "group"; number := "group7"; dir := "submitted/group7/hw3" |}
           "hw3.ipynb" 0)
    = [Mkdtemp "/tmp/tmp0";
       Extract "Gruppe 7__Meier_hw3.zip" "readme.txt" "/tmp/tmp0";
       Extract "Gruppe 7__Meier_hw3.zip" "data/" "/tmp/tmp0";
       Extract "Gruppe 7__Meier_hw3.zip" "data/input.csv" "/tmp/tmp0";
       Log DEBUG "> /tmp/tmp0/readme.txt"; Log DEBUG "> /tmp/tmp0/data/";
       Log DEBUG "Data dir found";
       Copytree "/tmp/tmp0/data/" "submitted/group7/hw3/data"
                [("input.csv", File "csv")];
       Log DEBUG "> /tmp/tmp0/data/input.csv"]
      ++ [Log FATAL no_notebook; Rmtree "/tmp/tmp0"]) by reflexivity.
  rewrite H in Hev. cbn [snd] in Hev. apply app_inv_tail in Hev. subst evs.
  vm_compute. reflexivity.
Defined.

(** A directory in the place of the first notebook stops the loop. *)
Lemma loop_raise (unpacked : list located) (d nb : string)
      (pre : list located) (first : located) (rest : list located) :
  notebooks pre = [] -> is_notebook first = true -> isdir (content first) = true ->
  exists evs,
    extract_files_loop (pre ++ first :: rest) unpacked d nb None
    = (Raise IsADirectoryError, evs)
    /\ copyfiles evs = []
    /\ fatals evs = []
    /\ copytrees evs = merges d pre.
Proof.
  intros Hpre Hf He. induction pre as [|f pre IH].
  - rewrite app_nil_l, loop_cons. cbv zeta. rewrite Hf, He. cbn [not_].
    eexists. split; [reflexivity |]. repeat split; reflexivity.
  - rewrite notebooks_cons in Hpre. destruct (is_notebook f) eqn:Hn; [done |].
    destruct (IH Hpre) as (evs & Hl & H1 & H2 & H3).
    rewrite <- app_comm_cons, loop_cons, merges_cons. cbv zeta. rewrite Hn, Hl.
    destruct (is_datadir f);
      eexists; (split; [reflexivity |]);
      rewrite copyfiles_step, fatals_step, copytrees_step, H1, H2, H3;
      repeat split; reflexivity.
Qed.

Lemma merges_target (d : string) (files : list located) :
  Forall (fun t => snd t = join d ["data"]) (merges d files).
Proof.
  unfold merges. induction (datadirs files) as [|f l IH]; constructor; done.
Qed.

(** C6, as the code has it.  Whatever the files of a submission are,
    [extract_files] copies at most one notebook, and that to the
    canonical name, and merges every data directory into the one data
    directory of the submission.  It returns unless the first notebook is
    a directory.  When it returns, the fatal reports are determined by the
    notebooks alone: one for no notebook, one for every notebook after
    the first; the number of data directories is not reported. *)
Theorem extract_files_placement
        (inputfile : string) (e : entry) (target : string) (submission : submission)
        (notebook_filename : string) (n : nat) (files : list located) :
  files_of inputfile e (mkdtemp n) = Ok files ->
  exists r evs,
    extract_files inputfile e target submission notebook_filename n = (r, S n, evs)
    /\ length (copyfiles evs) <= 1
    /\ Forall (fun c => snd (fst c) = join (dir submission) [notebook_filename])
              (copyfiles evs)
    /\ Forall (fun t => snd t = join (dir submission) ["data"]) (copytrees evs)
    /\ (r = Ok (map path files) \/ r = Raise IsADirectoryError)
    /\ (r = Ok (map path files) ->
        copytrees evs = merges (dir submission) files
        /\ fatals evs = match notebooks files with
                        | [] => [no_notebook]
                        | _ :: more => repeat multiple_notebooks (length more)
                        end).
Proof.
  intros Hfiles.
  destruct (unpack_events_quiet inputfile e (mkdtemp n)) as (Q1 & Q2 & Q3 & Q4 & _).
  rewrite extract_files_eq. cbv zeta. rewrite Hfiles.
  destruct (first_notebook files) as [Hnone | (pre & first & rest & -> & Hpre & Hf)].
  - destruct (loop_none files (dir submission) notebook_filename None files Hnone)
      as (evs & Hl & H1 & H2 & H3 & H4).
    rewrite Hl. cbn [not_]. do 2 eexists. split; [reflexivity |].
    rewrite copyfiles_frame, fatals_frame, copytrees_frame.
    rewrite !copyfiles_app, !fatals_app, !copytrees_app.
    rewrite Q1, Q2, Q3, H1, H2, H3, Hnone. cbn [app]. rewrite !app_nil_r.
    repeat split; try done;
      first [ apply merges_target | by left | by right | by repeat constructor
            | cbn; lia ].
  - destruct (isdir (content first)) eqn:He.
    + destruct (loop_raise (pre ++ first :: rest) (dir submission) notebook_filename
                  pre first rest Hpre Hf He) as (evs & Hl & H1 & H2 & H3).
      rewrite Hl. do 2 eexists. split; [reflexivity |].
      rewrite copyfiles_frame, copytrees_frame.
      rewrite !copyfiles_app, !copytrees_app.
      rewrite Q1, Q3, H1, H3. cbn [app].
      repeat split; try done;
      first [ apply merges_target | by left | by right | by repeat constructor
            | cbn; lia ].
    + destruct (loop_first (pre ++ first :: rest) (dir submission) notebook_filename
                  pre first rest Hpre Hf He) as (evs & Hl & H1 & H2 & H3 & H4).
      rewrite Hl, (notebook_truthy _ Hf). do 2 eexists. split; [reflexivity |].
      rewrite copyfiles_frame, fatals_frame, copytrees_frame.
      rewrite !copyfiles_app, !fatals_app, !copytrees_app.
      rewrite Q1, Q2, Q3, H1, H2, H3. cbn [app]. rewrite !app_nil_r.
      rewrite notebooks_app, Hpre, notebooks_cons, Hf. cbn [app].
      repeat split; try done;
      first [ apply merges_target | by left | by right | by repeat constructor
            | cbn; lia ].
Qed.

Lemma extract_files_placement_witness :
  exists evs,
    extract_files "h1_a_b_hw.zip"
                  (ZipFile [("a.ipynb", File "1"); ("x/data/", Dir); ("y/data/", Dir)])
                  "submitted"
                  {| type := "student"; number := "1"; dir := "submitted/1/hw" |}
                  "hw.ipynb" 0
    = (Ok ["/tmp/tmp0/a.ipynb"; "/tmp/tmp0/x/data/"; "/tmp/tmp0/y/data/"], 1%nat, evs)
    /\ length (copyfiles evs) <= 1
    /\ copytrees evs = [("/tmp/tmp0/x/data/", "submitted/1/hw/data");
                        ("/tmp/tmp0/y/data/", "submitted/1/hw/data")]
    /\ fatals evs = [].
Proof.
  destruct (extract_files_placement
              "h1_a_b_hw.zip"
              (ZipFile [("a.ipynb", File "1"); ("x/data/", Dir); ("y/data/", Dir)])
              "submitted"
              {| type := "student"; number := "1"; dir := "submitted/1/hw" |}
              "hw.ipynb" 0
              [Located "/tmp/tmp0/a.ipynb" "a.ipynb" (File "1");
               Located "/tmp/tmp0/x/data/" "x/data/" Dir;
               Located "/tmp/tmp0/y/data/" "y/data/" Dir] eq_refl)
    as (r & evs & H & H1 & _ & _ & _ & H5).
  assert (Hr : r = Ok ["/tmp/tmp0/a.ipynb"; "/tmp/tmp0/x/data/"; "/tmp/tmp0/y/data/"]).
  { apply (f_equal (fun o => fst (fst o))) in H. cbn [fst] in H. rewrite <- H.
    reflexivity. }
  destruct (H5 Hr) as [H6 H7]. subst r.
  exists evs. repeat split; assumption.
Defined.

(** C6, counterexample.  A submission with one notebook and two data
    directories: both directories are merged into the same data
    directory, [extract_files] returns, and nothing is reported as fatal,
    so the second data directory is not flagged. *)
Example two_data_directories_not_flagged :
  let '(r, _, evs) :=
    extract_files "h1_a_b_hw.zip"
                  (ZipFile [("a.ipynb", File "1");
                            ("x/data/", Dir); ("x/data/in.csv", File "x");
                            ("y/data/", Dir); ("y/data/in.csv", File "y")])
                  "submitted"
                  {| type := "student"; number := "1"; dir := "submitted/1/hw" |}
                  "hw.ipynb" 0 in
  r = Ok ["/tmp/tmp0/a.ipynb"; "/tmp/tmp0/x/data/"; "/tmp/tmp0/x/data/in.csv";
          "/tmp/tmp0/y/data/"; "/tmp/tmp0/y/data/in.csv"]
  /\ length (datadirs [Located "/tmp/tmp0/a.ipynb" "a.ipynb" (File "1");
                       Located "/tmp/tmp0/x/data/" "x/data/" Dir;
                       Located "/tmp/tmp0/x/data/in.csv" "x/data/in.csv" (File "x");
                       Located "/tmp/tmp0/y/data/" "y/data/" Dir;
                       Located "/tmp/tmp0/y/data/in.csv" "y/data/in.csv" (File "y")]) = 2
  /\ copytrees evs = [("/tmp/tmp0/x/data/", "submitted/1/hw/data");
                      ("/tmp/tmp0/y/data/", "submitted/1/hw/data")]
  /\ fatals evs = []
  /\ run_events evs ∅ !! "submitted/1/hw/data/in.csv" = Some (File "y").
Proof. vm_compute. repeat split; reflexivity. Qed.

End placement.

(* ===================================================================== *)
(** ** What [filter] drops *)
(* ===================================================================== *)

Section filtering.

Import os_path.

Lemma basename_cons (x : ascii) (s : string) :
  basename (String x s) =
  if str.contains sep s then basename s
  else if Ascii.eqb x sep then s else String x s.
Proof.
  unfold basename, str.slice_from. cbn [str.rfind].
  destruct (str.contains sep s) eqn:Hc.
  - pose proof (rfind_some _ _ Hc) as H.
    destruct (Z.leb_spec 0 (str.rfind sep s)); [|lia].
    replace (Z.to_nat (str.rfind sep s + 1 + 1))
      with (S (Z.to_nat (str.rfind sep s + 1))) by lia.
    done.
  - rewrite (rfind_none _ _ Hc). change (0 <=? -1)%Z with false. cbv iota.
    by destruct (Ascii.eqb x sep).
Qed.

Lemma split_no_sep (s : string) : str.contains sep s = false -> segments s = [s].
Proof.
  unfold segments. induction s as [|x s IH]; [done |].
  simpl. intros [Hx Hs]%orb_false_elim. by rewrite Hx, (IH Hs).
Qed.

Lemma split_sep (s : string) :
  str.contains sep s = true -> exists h t1 t, segments s = h :: t1 :: t.
Proof.
  unfold segments. induction s as [|x s IH]; [done |].
  simpl. destruct (Ascii.eqb x sep) eqn:Hx.
  - intros _. destruct (split sep s) as [|h t] eqn:E.
    + by destruct s; simpl in E; [|destruct (Ascii.eqb _ _); [|destruct (split sep s)]].
    + by exists "", h, t.
  - simpl. intros (h & t1 & t & ->)%IH. by exists (String x h), t1, t.
Qed.

(** The last segment of a path is its base name. *)
Lemma last_segment (p : string) : List.last (segments p) "" = basename p.
Proof.
  induction p as [|x p IH]; [done |].
  rewrite basename_cons. destruct (str.contains sep p) eqn:Hc.
  - destruct (split_sep _ Hc) as (h & t1 & t & E).
    rewrite <- IH. unfold segments in *. cbn [split]. rewrite E.
    by destruct (Ascii.eqb x sep).
  - pose proof (split_no_sep _ Hc) as E. unfold segments in *. cbn [split].
    rewrite E. by destruct (Ascii.eqb x sep).
Qed.

Lemma startswith_nil (s : string) : str.startswith s "" = true.
Proof. by destruct s. Qed.

(** The first segment of a path is hidden exactly when the path starts
    with a dot. *)
Lemma first_segment_hidden (p : string) :
  hidden (hd "" (segments p)) = str.startswith p ".".
Proof.
  destruct p as [|x p]; [done |].
  unfold segments. cbn [split]. destruct (Ascii.eqb x sep) eqn:Hx.
  - apply Ascii.eqb_eq in Hx as ->. done.
  - destruct (split sep p); unfold hidden; simpl; by rewrite !andb_true_r.
Qed.

Lemma keep_segments (i : string) :
  keep i = true <->
  str.startswith i "__MACOSX/" = false
  /\ hidden (hd "" (segments i)) = false
  /\ hidden (List.last (segments i) "") = false.
Proof.
  rewrite first_segment_hidden, last_segment. unfold keep, hidden.
  rewrite !andb_true_iff, !negb_true_iff. tauto.
Qed.

Lemma filter_members_names (members : list (string * entry)) :
  map fst (filter_members members) = filter (namelist members).
Proof.
  unfold filter_members, filter, namelist.
  induction members as [|m ms IH]; [done |].
  simpl. destruct (keep (fst m)); simpl; by rewrite IH.
Qed.

(** C2, as the code has it.  The members that [extract_zip] unpacks are,
    in listing order, those that [filter] keeps, and [filter] keeps a
    member exactly when its path does not start with the macOS resource
    prefix and neither its first segment nor its last segment (the base
    name) starts with a dot.  Segments in between are not looked at. *)
Theorem extract_zip_filter
        (inputfile : string) (e : entry) (target : string) (files : list located) :
  fst (extract_zip inputfile e target) = Ok files ->
  map member files = filter (namelist (members_of e))
  /\ snd (extract_zip inputfile e target)
     = map (fun item => Extract inputfile item target) (map member files)
  /\ forall i : string,
       In i (map member files) <->
       In i (namelist (members_of e))
       /\ str.startswith i "__MACOSX/" = false
       /\ hidden (hd "" (segments i)) = false
       /\ hidden (List.last (segments i) "") = false.
Proof.
  intros H.
  assert (Hm : map member files = filter (namelist (members_of e))
               /\ snd (extract_zip inputfile e target)
                  = map (fun item => Extract inputfile item target)
                        (filter (namelist (members_of e)))).
  { unfold extract_zip in *. destruct (splitext inputfile) as [filename x].
    destruct (String.eqb x ".zip").
    - destruct e; try done. cbn [fst snd members_of] in *.
      injection H as <-. rewrite map_map. cbn [member].
      by rewrite <- filter_members_names.
    - destruct (String.eqb x ".7z"); [|done].
      destruct e; try done. cbn [fst snd members_of] in *.
      injection H as <-. rewrite map_map. cbn [member].
      by rewrite <- filter_members_names. }
  destruct Hm as [Hm Hev]. split; [exact Hm | split].
  - by rewrite Hm.
  - intros i. rewrite Hm. unfold filter. rewrite filter_In, keep_segments. tauto.
Qed.

Lemma extract_zip_filter_witness :
  map member
      [Located "/tmp/tmp0/sol.ipynb" "sol.ipynb" (File "nb");
       Located "/tmp/tmp0/a/.b/c" "a/.b/c" (File "c")]
  = filter (namelist (members_of
      (ZipFile [("__MACOSX/sol.ipynb", File "r"); ("sol.ipynb", File "nb");
                (".git/config", File "g"); ("data/.DS_Store", File "d");
                ("a/.b/c", File "c")]))).
Proof.
  apply (extract_zip_filter "in.zip"
           (ZipFile [("__MACOSX/sol.ipynb", File "r"); ("sol.ipynb", File "nb");
                     (".git/config", File "g"); ("data/.DS_Store", File "d");
                     ("a/.b/c", File "c")])
           "/tmp/tmp0").
  reflexivity.
Defined.

(** C2, counterexample.  The member a/.b/c has a segment that starts
    with a dot, yet [filter] keeps it and [extract_zip] unpacks it. *)
Example hidden_middle_segment_kept :
  filter ["a/.b/c"] = ["a/.b/c"]
  /\ In ".b" (segments "a/.b/c")
  /\ hidden ".b" = true
  /\ snd (extract_zip "in.zip" (ZipFile [("a/.b/c", File "c")]) "/tmp/tmp0")
     = [Extract "in.zip" "a/.b/c" "/tmp/tmp0"].
Proof. repeat split; try reflexivity. right. left. reflexivity. Qed.

End filtering.

(* ===================================================================== *)
(** ** Failing members of an archive *)
(* ===================================================================== *)

Section failing_members.

Import os_path.

Context (target assignment notebook_filename : string).

#[local] Abbreviation collect_ := (collect_in target assignment notebook_filename).




(** [collect] on an archive whose own name matches neither pattern. *)
Lemma collect_archive (inputfile : string) (members : list (string * entry)) (n : nat) :
  matched (basename inputfile) = false ->
  ext inputfile = ".zip" \/ ext inputfile = ".7z" ->
  collect_ inputfile (archive_of (ext inputfile) members) n =
  let tmpdir := mkdtemp n in
  let '(r, n', evs1) := for_members collect_ tmpdir members (S n) in
  (r, n',
   Mkdtemp tmpdir
   :: Log INFO ("Extracting " +:+ inputfile +:+ " to " +:+ tmpdir)
   :: (map (fun item => Extract inputfile item tmpdir) (filter (namelist members))
       ++ evs1)
   ++ [Rmtree tmpdir]).
Proof.
  intros Hm Hx. unfold collect_in at 1. rewrite (collect_unmatched _ _ _ _ _ _ Hm).
  change (fun f e' n' => collect f e' target assignment notebook_filename n')
    with collect_.
  unfold extract_zip, archive_of. unfold ext in *.
  destruct (splitext inputfile) as [filename x]. cbn [snd] in *.
  destruct Hx as [-> | ->]; cbn [String.eqb Ascii.eqb Bool.eqb orb members_of];
    cbv zeta; by destruct (for_members _ _ _ _) as [[? ?] ?].
Qed.


End failing_members.

Section failing_members_examples.




End failing_members_examples.

(* ===================================================================== *)
(** ** The scratch directories do not matter *)
(* ===================================================================== *)

Section independence.

Import os_path.

(** Induction on what lies at a path, members of an archive included. *)
Lemma entry_members_ind (P : entry -> Prop) :
  (forall c, P (File c)) ->
  P Dir ->
  (forall members, Forall (fun m => P (snd m)) members -> P (ZipFile members)) ->
  (forall members, Forall (fun m => P (snd m)) members -> P (SevenZipFile members)) ->
  forall e, P e.
Proof.
  intros HF HD HZ H7.
  refine (fix IH (e : entry) : P e :=
            match e with
            | File c => HF c
            | Dir => HD
            | ZipFile ms =>
                HZ ms ((fix go (ms : list (string * entry))
                          : Forall (fun m => P (snd m)) ms :=
                          match ms with
                          | [] => List.Forall_nil _
                          | m :: ms' => List.Forall_cons _ m ms' (IH (snd m)) (go ms')
                          end) ms)
            | SevenZipFile ms =>
                H7 ms ((fix go (ms : list (string * entry))
                          : Forall (fun m => P (snd m)) ms :=
                          match ms with
                          | [] => List.Forall_nil _
                          | m :: ms' => List.Forall_cons _ m ms' (IH (snd m)) (go ms')
                          end) ms)
            end).
Qed.

Lemma is_notebook_unpacked (t : string) (m : string * entry) :
  is_notebook (unpacked_to t m) = String.eqb (ext (fst m)) ".ipynb".
Proof. unfold is_notebook, unpacked_to. cbn [path]. by rewrite ext_join. Qed.

Lemma is_datadir_unpacked (t : string) (m : string * entry) :
  plain_dir t ->
  is_datadir (unpacked_to t m)
  = negb (String.eqb (ext (fst m)) ".ipynb") && isdir (snd m)
    && String.eqb (basename (dirname (fst m))) "data".
Proof.
  intros Ht. unfold is_datadir. rewrite is_notebook_unpacked.
  unfold unpacked_to. cbn [path content]. by rewrite data_parent_join.
Qed.

Lemma tree_of_cons (d : string) (u : located) (l : list located) :
  tree_of d (u :: l) =
  match re.strip_prefix (str.rstrip sep d +:+ "/") (member u) with
  | Some (String _ _ as rel) => (rel, content u) :: tree_of d l
  | _ => tree_of d l
  end.
Proof.
  unfold tree_of. simpl.
  by destruct (re.strip_prefix _ _) as [[|? ?]|].
Qed.

Lemma tree_of_unpacked (d t t' : string) (all : list (string * entry)) :
  tree_of d (map (unpacked_to t) all) = tree_of d (map (unpacked_to t') all).
Proof.
  induction all as [|m all IH]; [done |].
  change (tree_of d (unpacked_to t m :: map (unpacked_to t) all)
          = tree_of d (unpacked_to t' m :: map (unpacked_to t') all)).
  rewrite !tree_of_cons, IH. done.
Qed.

(** The loop of [extract_files] on the same members in two scratch
    directories: the same writes, the same failure, and a notebook found
    in the one run is found in the other. *)
Lemma loop_indep (t t' d nb : string) (all : list (string * entry)) :
  plain_dir t -> plain_dir t' ->
  forall (ms : list (string * entry)) (notebook notebook' : option string),
    not_ notebook = not_ notebook' ->
    let o := extract_files_loop (map (unpacked_to t) ms) (map (unpacked_to t) all)
                                d nb notebook in
    let o' := extract_files_loop (map (unpacked_to t') ms) (map (unpacked_to t') all)
                                 d nb notebook' in
    writes (snd o) = writes (snd o')
    /\ match fst o, fst o' with
       | Ok k, Ok k' => not_ k = not_ k'
       | Raise x, Raise x' => x = x'
       | _, _ => False
       end.
Proof.
  intros Ht Ht'. induction ms as [|m ms IH]; intros notebook notebook' Hnb; [done |].
  cbn [map]. cbv zeta. rewrite !loop_cons. cbv zeta.
  rewrite !is_notebook_unpacked, !(is_datadir_unpacked _ _ Ht),
          !(is_datadir_unpacked _ _ Ht'), <- Hnb.
  change (content (unpacked_to t m)) with (snd m).
  change (content (unpacked_to t' m)) with (snd m).
  change (member (unpacked_to t m)) with (fst m).
  change (member (unpacked_to t' m)) with (fst m).
  rewrite (tree_of_unpacked (fst m) t t').
  pose proof (IH notebook notebook' Hnb) as IHsame.
  destruct (String.eqb (ext (fst m)) ".ipynb") eqn:Hx.
  - destruct (not_ notebook) eqn:Hn.
    + destruct (isdir (snd m)); [done |].
      assert (Hk : not_ (Some (path (unpacked_to t m)))
                   = not_ (Some (path (unpacked_to t' m)))).
      { rewrite !notebook_truthy; [done | |]; by rewrite is_notebook_unpacked. }
      clear IHsame. destruct (IH _ _ Hk) as [Hw Hr]. cbv zeta in Hw, Hr.
      destruct (extract_files_loop (map (unpacked_to t) ms) _ _ _ _) as [r evs].
      destruct (extract_files_loop (map (unpacked_to t') ms) _ _ _ _) as [r' evs'].
      cbn [fst snd] in *. split; [|exact Hr].
      rewrite !writes_cons, !writes_app. cbn [writes writes_of flat_map app].
      by rewrite Hw.
    + destruct IHsame as [Hw Hr]. cbv zeta in Hw, Hr.
      destruct (extract_files_loop (map (unpacked_to t) ms) _ _ _ _) as [r evs].
      destruct (extract_files_loop (map (unpacked_to t') ms) _ _ _ _) as [r' evs'].
      cbn [fst snd] in *. split; [|exact Hr].
      rewrite !writes_cons, !writes_app. cbn [writes writes_of flat_map app].
      by rewrite Hw.
  - destruct IHsame as [Hw Hr]. cbv zeta in Hw, Hr.
    destruct (extract_files_loop (map (unpacked_to t) ms) _ _ _ _) as [r evs].
    destruct (extract_files_loop (map (unpacked_to t') ms) _ _ _ _) as [r' evs'].
    cbn [fst snd negb andb] in *.
    destruct (isdir (snd m) && String.eqb (basename (dirname (fst m))) "data");
      cbn [fst snd]; (split; [|exact Hr]);
      rewrite !writes_cons, !writes_app; cbn [writes writes_of flat_map app];
      by rewrite Hw.
Qed.

(** The list of files of [extract_files] is the input itself, or the
    members that were unpacked, or an exception, in a way that depends on
    the input only through its extension. *)
Lemma files_of_cases (p : string) (e : entry) (t : string) :
  (String.eqb (ext p) ".ipynb" = true /\ files_of p e t = Ok [Located p p e])
  \/ (String.eqb (ext p) ".ipynb" = false
      /\ exists ms, forall p' t',
           ext p' = ext p -> files_of p' e t' = Ok (map (unpacked_to t') ms))
  \/ (String.eqb (ext p) ".ipynb" = false
      /\ exists x, forall p' t', ext p' = ext p -> files_of p' e t' = Raise x).
Proof.
  unfold files_of. destruct (String.eqb (ext p) ".ipynb") eqn:Hn; [by left |].
  right.
  assert (Hz : forall p' t', ext p' = ext p ->
               fst (extract_zip p' e t') =
               if String.eqb (ext p) ".zip" then
                 match e with
                 | ZipFile ms => Ok (map (unpacked_to t') (filter_members ms))
                 | Dir => Raise IsADirectoryError
                 | _ => Raise BadZipFile
                 end
               else if String.eqb (ext p) ".7z" then
                 match e with
                 | SevenZipFile ms => Ok (map (unpacked_to t') (filter_members ms))
                 | Dir => Raise IsADirectoryError
                 | _ => Raise Bad7zFile
                 end
               else Raise NotImplementedError).
  { intros p' t' Hx. rewrite <- Hx. unfold extract_zip, ext.
    destruct (splitext p') as [filename x]. cbn [snd].
    destruct (String.eqb x ".zip"); [by destruct e |].
    destruct (String.eqb x ".7z"); [by destruct e | done]. }
  destruct (String.eqb (ext p) ".zip") eqn:H1.
  - destruct e as [c| |ms|ms].
    + right. split; [done |]. exists BadZipFile. intros p' t' Hx.
      by rewrite Hx, Hn, H1, (Hz p' t' Hx).
    + right. split; [done |]. exists IsADirectoryError. intros p' t' Hx.
      by rewrite Hx, Hn, H1, (Hz p' t' Hx).
    + left. split; [done |]. exists (filter_members ms). intros p' t' Hx.
      by rewrite Hx, Hn, H1, (Hz p' t' Hx).
    + right. split; [done |]. exists BadZipFile. intros p' t' Hx.
      by rewrite Hx, Hn, H1, (Hz p' t' Hx).
  - destruct (String.eqb (ext p) ".7z") eqn:H2.
    + destruct e as [c| |ms|ms].
      * right. split; [done |]. exists Bad7zFile. intros p' t' Hx.
        by rewrite Hx, Hn, H1, H2, (Hz p' t' Hx).
      * right. split; [done |]. exists IsADirectoryError. intros p' t' Hx.
        by rewrite Hx, Hn, H1, H2, (Hz p' t' Hx).
      * right. split; [done |]. exists Bad7zFile. intros p' t' Hx.
        by rewrite Hx, Hn, H1, H2, (Hz p' t' Hx).
      * left. split; [done |]. exists (filter_members ms). intros p' t' Hx.
        by rewrite Hx, Hn, H1, H2, (Hz p' t' Hx).
    + right. split; [done |]. exists NotImplementedError. intros p' t' Hx.
      by rewrite Hx, Hn, H1, H2.
Qed.

Lemma writes_frame (t : string) (evs : list event) :
  writes (Mkdtemp t :: evs ++ [Rmtree t]) = writes evs.
Proof.
  rewrite writes_cons, writes_app. cbn. by rewrite app_nil_r.
Qed.

(** [extract_files] on the same entry under two names with the same
    extension, in two scratch directories: the same failure and the same
    writes. *)
Lemma extract_files_indep (p p' : string) (e : entry) (target : string)
      (submission : submission) (nb : string) (n n' : nat) :
  ext p = ext p' ->
  failure (fst (fst (extract_files p e target submission nb n)))
  = failure (fst (fst (extract_files p' e target submission nb n')))
  /\ writes (snd (extract_files p e target submission nb n))
     = writes (snd (extract_files p' e target submission nb n')).
Proof.
  intros Hx. rewrite !extract_files_eq. cbv zeta.
  destruct (unpack_events_quiet p e (mkdtemp n)) as (_ & _ & _ & _ & Q).
  destruct (unpack_events_quiet p' e (mkdtemp n')) as (_ & _ & _ & _ & Q').
  destruct (files_of_cases p e (mkdtemp n))
    as [[Hn Hf] | [(Hn & ms & Hf) | (Hn & x & Hf)]].
  - assert (Hf' : files_of p' e (mkdtemp n') = Ok [Located p' p' e])
      by (unfold files_of; by rewrite <- Hx, Hn).
    assert (N : is_notebook (Located p p e) = true) by exact Hn.
    assert (N' : is_notebook (Located p' p' e) = true)
      by (unfold is_notebook; cbn [path]; by rewrite <- Hx).
    rewrite Hf, Hf'. rewrite !loop_cons. cbv zeta.
    rewrite N, N'. cbn [path content not_ extract_files_loop].
    destruct (isdir e).
    + cbn [fst snd failure]. split; [done |].
      rewrite !writes_frame, !writes_app, Q, Q'. done.
    + pose proof (notebook_truthy _ N) as K. pose proof (notebook_truthy _ N') as K'.
      cbn [path] in K, K'. rewrite K, K'.
      cbn [fst snd failure]. split; [done |].
      rewrite !writes_frame, !writes_app, Q, Q'. done.
  - rewrite (Hf p (mkdtemp n) eq_refl), (Hf p' (mkdtemp n') (eq_sym Hx)).
    destruct (loop_indep (mkdtemp n) (mkdtemp n') (dir submission) nb ms
                (mkdtemp_plain n) (mkdtemp_plain n') ms None None eq_refl)
      as [Hw Hr].
    cbv zeta in Hw, Hr.
    destruct (extract_files_loop (map (unpacked_to (mkdtemp n)) ms) _ _ _ _)
      as [[k|y] evs];
      destruct (extract_files_loop (map (unpacked_to (mkdtemp n')) ms) _ _ _ _)
      as [[k'|y'] evs']; cbn [fst snd] in *; try done.
    + split; [done |].
      rewrite !writes_frame, !writes_app, Q, Q', Hw, Hr.
      by destruct (not_ k').
    + subst y'. split; [done |].
      by rewrite !writes_frame, !writes_app, Q, Q', Hw.
  - rewrite (Hf p (mkdtemp n) eq_refl), (Hf p' (mkdtemp n') (eq_sym Hx)).
    cbn [fst snd]. split; [done |].
    by rewrite !writes_frame, Q, Q'.
Qed.

End independence.

(* ===================================================================== *)
(** ** [collect] does not depend on where its input lies *)
(* ===================================================================== *)

Section collect_independence.

Import os_path.

Context (target assignment notebook_filename : string).

#[local] Abbreviation collect_ := (collect_in target assignment notebook_filename).

#[local] Abbreviation independent :=
  (path_independent target assignment notebook_filename).

Lemma kept_eq {A : Type} (o o' : outcome A) :
  kept o = kept o' <-> fst (fst o) = fst (fst o') /\ writes (snd o) = writes (snd o').
Proof. unfold kept. split; [by intros [= -> ->] | by intros [-> ->]]. Qed.

Lemma for_members_indep (t t' : string) (members : list (string * entry)) :
  Forall (fun m => independent (snd m)) members ->
  forall n n' : nat,
    kept (for_members collect_ t members n) = kept (for_members collect_ t' members n').
Proof.
  induction 1 as [|m ms Hm _ IH]; intros n n'; [done |].
  cbn [for_members]. destruct (keep (fst m)); [|apply IH].
  pose proof (Hm (join t [fst m]) (join t' [fst m]) n n') as H.
  rewrite !basename_join, !ext_join in H. specialize (H eq_refl eq_refl).
  apply kept_eq in H as [Hr Hw].
  destruct (collect_ (join t [fst m]) (snd m) n) as [[r k] evs].
  destruct (collect_ (join t' [fst m]) (snd m) n') as [[r' k'] evs'].
  cbn [fst snd] in Hr, Hw. subst r'.
  destruct r as [subs|x]; [|by apply kept_eq].
  specialize (IH k k'). apply kept_eq in IH as [Hr2 Hw2].
  destruct (for_members collect_ t ms k) as [[r2 k2] evs2].
  destruct (for_members collect_ t' ms k') as [[r2' k2'] evs2'].
  cbn [fst snd] in Hr2, Hw2. subst r2'.
  destruct r2; apply kept_eq; cbn [fst snd]; by rewrite !writes_app, Hw, Hw2.
Qed.

Lemma extract_events_quiet (inputfile : string) (e : entry) (t : string) :
  writes (snd (extract_zip inputfile e t)) = [].
Proof.
  unfold extract_zip. destruct (splitext inputfile) as [filename x].
  assert (H : forall items : list string,
             writes (map (fun item => Extract inputfile item t) items) = []).
  { induction items as [|i items IH]; [done | apply IH]. }
  destruct (String.eqb x ".zip"); [destruct e; try done; apply H |].
  destruct (String.eqb x ".7z"); [destruct e; try done; apply H | done].
Qed.

Lemma extract_zip_indep (p p' : string) (e : entry) (t t' : string) :
  ext p = ext p' ->
  failure (fst (extract_zip p e t)) = failure (fst (extract_zip p' e t')).
Proof.
  unfold ext, extract_zip.
  destruct (splitext p) as [f x], (splitext p') as [f' x']. cbn [snd].
  intros <-. destruct (String.eqb x ".zip"); [by destruct e |].
  destruct (String.eqb x ".7z"); [by destruct e | done].
Qed.

Lemma collect_indep_step (e : entry) :
  Forall (fun m => independent (snd m)) (members_of e) ->
  independent e.
Proof.
  intros HF p p' n n' Hb Hx. unfold collect_in.
  destruct (matched (basename p)) eqn:Hm.
  - destruct (matched_true _ Hm) as [m Hme].
    rewrite (collect_matched p e _ _ _ n m Hme).
    rewrite Hb in Hme. rewrite (collect_matched p' e _ _ _ n' m Hme).
    cbv zeta.
    destruct (extract_files_indep p p' e target (classify m target assignment)
                notebook_filename n n' Hx) as [Hfail Hw].
    destruct (extract_files p e _ _ _ n) as [[r k] evs].
    destruct (extract_files p' e _ _ _ n') as [[r' k'] evs'].
    cbn [fst snd] in Hfail, Hw. apply kept_eq. cbn [fst snd]. split.
    + destruct r, r'; simpl in Hfail; congruence.
    + by rewrite !writes_cons, Hw, Hb.
  - rewrite (collect_unmatched p e _ _ _ n Hm).
    rewrite Hb in Hm. rewrite (collect_unmatched p' e _ _ _ n' Hm).
    rewrite <- Hx.
    destruct (String.eqb (ext p) ".ipynb"); [done |].
    destruct (String.eqb (ext p) ".zip" || String.eqb (ext p) ".7z"); [|done].
    cbv zeta.
    pose proof (extract_zip_indep p p' e (mkdtemp n) (mkdtemp n') Hx) as Hz.
    pose proof (extract_events_quiet p e (mkdtemp n)) as Q.
    pose proof (extract_events_quiet p' e (mkdtemp n')) as Q'.
    destruct (extract_zip p e (mkdtemp n)) as [[files|x] evs0];
      destruct (extract_zip p' e (mkdtemp n')) as [[files'|x'] evs0'];
      cbn [fst snd failure] in *; try done.
    + change (fun f e' n0 => collect f e' target assignment notebook_filename n0)
        with collect_.
      pose proof (for_members_indep (mkdtemp n) (mkdtemp n') (members_of e) HF
                    (S n) (S n')) as H.
      apply kept_eq in H as [Hr Hw].
      destruct (for_members collect_ (mkdtemp n) (members_of e) (S n))
        as [[r k] evs].
      destruct (for_members collect_ (mkdtemp n') (members_of e) (S n'))
        as [[r' k'] evs'].
      cbn [fst snd] in *. apply kept_eq. cbn [fst snd]. split; [done |].
      rewrite !writes_cons, !writes_app, Q, Q', Hw. done.
    + injection Hz as <-. apply kept_eq. cbn [fst snd]. split; [done |].
      rewrite !writes_cons, !writes_app, Q, Q'. done.
Qed.

(** [collect] depends on the path of its input only through its base
    name and its extension, and not on the scratch directories. *)
Lemma collect_indep (e : entry) : independent e.
Proof.
  induction e as [c| |ms IH|ms IH] using entry_members_ind;
    apply collect_indep_step; cbn [members_of]; by try constructor.
Qed.

End collect_independence.

(* ===================================================================== *)
(** ** Nested archives and repeated runs *)
(* ===================================================================== *)

Section nesting_and_reruns.

Import os_path.

(** C7.  An archive whose own name matches neither pattern and which
    holds two submissions B and C that [filter] keeps, each with a
    matching name and each collected successfully when given on its own,
    under any path with the same base name: collecting the archive
    returns the submission of B followed by the submission of C, the same
    two as the two separate calls, and writes to the tree what those two
    calls write. *)
Theorem collect_nested
        (target assignment notebook_filename : string)
        (inputfile : string) (n : nat)
        (itemB : string) (eB : entry) (itemC : string) (eC : entry)
        (pB pC : string) (nB nC : nat) (sB sC : list submission) :
  matched (basename inputfile) = false ->
  ext inputfile = ".zip" \/ ext inputfile = ".7z" ->
  keep itemB = true -> keep itemC = true ->
  basename pB = basename itemB -> ext pB = ext itemB ->
  basename pC = basename itemC -> ext pC = ext itemC ->
  matched (basename pB) = true -> matched (basename pC) = true ->
  fst (fst (collect pB eB target assignment notebook_filename nB)) = Ok sB ->
  fst (fst (collect pC eC target assignment notebook_filename nC)) = Ok sC ->
  (exists b c, sB = [b] /\ sC = [c])
  /\ kept (collect inputfile
                   (archive_of (ext inputfile) [(itemB, eB); (itemC, eC)])
                   target assignment notebook_filename n)
     = (Ok (sB ++ sC),
        writes (snd (collect pB eB target assignment notebook_filename nB))
        ++ writes (snd (collect pC eC target assignment notebook_filename nC))).
Proof.
  intros Hm Hx HkB HkC HbB HxB HbC HxC HmB HmC HB HC. split.
  - destruct (matched_true _ HmB) as [mB HeB], (matched_true _ HmC) as [mC HeC].
    rewrite (collect_matched _ _ _ _ _ _ _ HeB) in HB.
    rewrite (collect_matched _ _ _ _ _ _ _ HeC) in HC.
    cbv zeta in HB, HC.
    destruct (extract_files pB _ _ _ _ _) as [[[?|?] ?] ?]; [|done].
    destruct (extract_files pC _ _ _ _ _) as [[[?|?] ?] ?]; [|done].
    cbn [fst] in HB, HC. injection HB as <-. injection HC as <-. by eauto.
  - change (collect inputfile (archive_of (ext inputfile) [(itemB, eB); (itemC, eC)])
                    target assignment notebook_filename n)
      with (collect_in target assignment notebook_filename inputfile
              (archive_of (ext inputfile) [(itemB, eB); (itemC, eC)]) n).
    rewrite (collect_archive _ _ _ _ _ _ Hm Hx). cbv zeta.
    cbn [for_members fst snd]. rewrite HkB, HkC.
    pose proof (collect_indep target assignment notebook_filename eB
                  (join (mkdtemp n) [itemB]) pB (S n) nB) as IB.
    rewrite basename_join, ext_join in IB. specialize (IB (eq_sym HbB) (eq_sym HxB)).
    apply kept_eq in IB as [IB1 IB2]. unfold collect_in in IB1, IB2.
    rewrite HB in IB1.
    unfold collect_in at 1.
    destruct (collect (join (mkdtemp n) [itemB]) eB _ _ _ (S n)) as [[rB kB] evB].
    cbn [fst snd] in IB1, IB2. subst rB.
    pose proof (collect_indep target assignment notebook_filename eC
                  (join (mkdtemp n) [itemC]) pC kB nC) as IC.
    rewrite basename_join, ext_join in IC. specialize (IC (eq_sym HbC) (eq_sym HxC)).
    apply kept_eq in IC as [IC1 IC2]. unfold collect_in in IC1, IC2.
    rewrite HC in IC1.
    unfold collect_in at 1.
    destruct (collect (join (mkdtemp n) [itemC]) eC _ _ _ kB) as [[rC kC] evC].
    cbn [fst snd] in IC1, IC2. subst rC.
    unfold kept. cbn [fst snd]. rewrite app_nil_r. f_equal.
    assert (Hq : forall items,
               writes (map (fun i => Extract inputfile i (mkdtemp n)) items) = []).
    { intros items. induction items as [|i items IH]; [done | apply IH]. }
    rewrite !writes_cons. cbn [writes_of app].
    rewrite !writes_app, Hq, IB2, IC2. cbn. by rewrite !app_nil_r.
Qed.

Lemma collect_nested_witness :
  kept (collect "batch.zip"
                (ZipFile [("h1_a_b_hw.zip", ZipFile [("sol.ipynb", File "1")]);
                          ("Group 2_c_d_hw.ipynb", File "2")])
                "submitted" "hw" "hw.ipynb" 0)
  = (Ok ([ {| type := "student"; number := "1"; dir := "submitted/1/hw" |} ]
         ++ [ {| type := "group"; number := "group2"; dir := "submitted/group2/hw" |} ]),
     writes (snd (collect "in/h1_a_b_hw.zip" (ZipFile [("sol.ipynb", File "1")])
                          "submitted" "hw" "hw.ipynb" 0))
     ++ writes (snd (collect "in/Group 2_c_d_hw.ipynb" (File "2")
                             "submitted" "hw" "hw.ipynb" 0))).
Proof.
  apply (collect_nested "submitted" "hw" "hw.ipynb" "batch.zip" 0
           "h1_a_b_hw.zip" (ZipFile [("sol.ipynb", File "1")])
           "Group 2_c_d_hw.ipynb" (File "2")
           "in/h1_a_b_hw.zip" "in/Group 2_c_d_hw.ipynb" 0 0);
    (reflexivity || (left; reflexivity)).
Defined.



End nesting_and_reruns.

(* ===================================================================== *)
(** ** More on [filter] and [extract_zip] *)
(* ===================================================================== *)

Section filter_more.

Import os_path.

Lemma keep_filter (items : list string) :
List.filter keep (List.filter keep items) = List.filter keep items.
Proof.
induction items as [|i items IH]; [done |].
simpl. destruct (keep i) eqn:Hk; [|done].
simpl. by rewrite Hk, IH.
Qed.

(** X1.  Filtering a list that was filtered already drops nothing more, and
  filtering two lists one after the other is filtering each. *)
Theorem filter_idempotent (items more : list string) :
filter (filter items) = filter items
/\ filter (items ++ more) = filter items ++ filter more.
Proof.
unfold filter. split; [apply keep_filter | apply List.filter_app].
Qed.

(** X2.  A name that ends in a separator, as a directory is listed in a zip
  archive, has an empty base name: it is dropped only for what its path
  starts with, so a hidden directory below the top level is kept. *)
Theorem keep_directory_name (p : string) :
keep (p +:+ "/")
= negb (str.startswith (p +:+ "/") "__MACOSX/")
  && negb (str.startswith (p +:+ "/") ".").
Proof.
unfold keep.
replace (basename (p +:+ "/")) with "".
- by rewrite andb_true_r.
- rewrite <- (sapp_nil_r (p +:+ "/")), sapp_assoc. by rewrite basename_app_sep.
Qed.

(** X3.  Where [extract_zip] says a member lies: below the target for a
  relative name, but at the name itself for a name that starts with a
  separator, which [os.path.join] does not put below the target.  One
  [extract] call is made per path returned. *)
Theorem extract_zip_paths
      (inputfile : string) (e : entry) (target : string) (files : list located) :
fst (extract_zip inputfile e target) = Ok files ->
target <> "" -> str.endswith target sep = false ->
Forall (fun f => path f = if str.startswith (member f) "/" then member f
                          else target +:+ "/" +:+ member f) files
/\ length (snd (extract_zip inputfile e target)) = length files.
Proof.
intros H Ht He.
assert (Hj : forall item, join target [item]
             = if str.startswith item "/" then item else target +:+ "/" +:+ item).
{ intros item. unfold join. cbn [fold_left]. unfold join_step.
  destruct (str.startswith item "/"); [done |].
  rewrite He. destruct target; [by destruct Ht | by simpl]. }
assert (Hu : forall ms,
           Forall (fun f => path f = if str.startswith (member f) "/" then member f
                                     else target +:+ "/" +:+ member f)
                  (map (fun m => Located (join target [fst m]) (fst m) (snd m)) ms)).
{ induction ms as [|m ms IH]; constructor; [apply Hj | apply IH]. }
assert (Hl : forall ms,
           length (map (fun item => Extract inputfile item target)
                       (filter (namelist ms)))
           = length (map (fun m => Located (join target [fst m]) (fst m) (snd m))
                         (filter_members ms))).
{ intros ms. by rewrite !length_map, <- filter_members_names, length_map. }
unfold extract_zip in *. destruct (splitext inputfile) as [filename x].
destruct (String.eqb x ".zip").
- destruct e; try done. cbn [fst snd] in *. injection H as <-. by split.
- destruct (String.eqb x ".7z"); [|done].
  destruct e; try done. cbn [fst snd] in *. injection H as <-. by split.
Qed.

Lemma extract_zip_paths_witness :
Forall (fun f => path f = if str.startswith (member f) "/" then member f
                          else "/tmp/tmp0" +:+ "/" +:+ member f)
       [Located "/tmp/tmp0/sol.ipynb" "sol.ipynb" (File "1");
        Located "/etc/passwd" "/etc/passwd" (File "2")]
/\ length (snd (extract_zip "in.zip"
                  (ZipFile [("sol.ipynb", File "1"); ("/etc/passwd", File "2")])
                  "/tmp/tmp0")) = 2.
Proof.
apply (extract_zip_paths "in.zip"
         (ZipFile [("sol.ipynb", File "1"); ("/etc/passwd", File "2")])
         "/tmp/tmp0"); [reflexivity | discriminate | reflexivity].
Defined.

End filter_more.

(* ===================================================================== *)
(** ** Which unpacked directories are merged *)
(* ===================================================================== *)

Section data_directories.

Import os_path.

Lemma dirname_below (p name : string) :
p <> "" -> str.endswith p sep = false -> str.contains sep name = false ->
dirname (p +:+ "/" +:+ name) = p.
Proof.
intros Hp He Hn. rewrite (dirname_split _ _ Hn).
destruct (all_chars is_sep p) eqn:Ha.
- by rewrite (all_sep_endswith _ Ha Hp) in He.
- by apply rstrip_no_trail.
Qed.

(** X4.  The test of [extract_files] for a data directory looks at the name of
  the directory above the member, and that name does not depend on the
  scratch directory.  So a directory listed below some p, or listed as p
  with a trailing separator, is merged exactly when the last component
  of p is data; a directory listed by a bare name (data itself, as an
  archive that lists directories without a trailing separator has it)
  is never merged. *)
Theorem datadir_rule (n : nat) :
(forall item e,
    is_datadir (unpacked_to (mkdtemp n) (item, e))
    = negb (String.eqb (ext item) ".ipynb") && isdir e
      && String.eqb (basename (dirname item)) "data")
/\ (forall p name,
       p <> "" -> str.endswith p sep = false -> str.contains sep name = false ->
       is_datadir (unpacked_to (mkdtemp n) (p +:+ "/" +:+ name, Dir))
       = negb (String.eqb (ext name) ".ipynb") && String.eqb (basename p) "data")
/\ (forall name,
       str.contains sep name = false ->
       is_datadir (unpacked_to (mkdtemp n) (name, Dir)) = false).
Proof.
split; [|split].
- intros item e. apply (is_datadir_unpacked (mkdtemp n) (item, e) (mkdtemp_plain n)).
- intros p name Hp He Hn.
  rewrite (is_datadir_unpacked (mkdtemp n) _ (mkdtemp_plain n)). cbn [fst snd isdir].
  by rewrite ext_app_sep, (dirname_below _ _ Hp He Hn), andb_true_r.
- intros name Hn.
  rewrite (is_datadir_unpacked (mkdtemp n) _ (mkdtemp_plain n)). cbn [fst snd isdir].
  rewrite (dirname_no_sep _ Hn). by rewrite andb_false_r.
Qed.

Lemma datadir_rule_witness :
is_datadir (unpacked_to (mkdtemp 3) ("hw/data" +:+ "/" +:+ "", Dir)) = true
/\ is_datadir (unpacked_to (mkdtemp 3) ("data" +:+ "/" +:+ "plots", Dir)) = true
/\ is_datadir (unpacked_to (mkdtemp 3) ("data", Dir)) = false.
Proof.
destruct (datadir_rule 3) as (_ & H2 & H3).
split; [|split].
- rewrite (H2 "hw/data" ""); [reflexivity | discriminate | reflexivity | reflexivity].
- rewrite (H2 "data" "plots"); [reflexivity | discriminate | reflexivity | reflexivity].
- apply H3. reflexivity.
Defined.

End data_directories.

(* ===================================================================== *)
(** ** What the two patterns match *)
(* ===================================================================== *)

Section pattern_languages.

Import re.

Lemma strip_prefix_inv (l s s' : string) :
strip_prefix l s = Some s' -> s = l +:+ s'.
Proof.
revert s. induction l as [|a l IH]; intros s; [by intros [= ->] |].
destruct s as [|b s]; [done |]. simpl.
destruct (Ascii.eqb_spec a b) as [->|]; [|done].
intros H. by rewrite (IH _ H).
Qed.

(** Whatever run a repetition settles on, it is a run of the set, long
  enough, and the continuation accepted what follows it. *)
Lemma repeat_greedy_inv {A : Type} (cs : cset) (s : string) :
forall (min pos : nat) (k : nat -> string -> option A) (x : A),
  repeat_greedy cs min pos s k = Some x ->
  exists m r, s = m +:+ r /\ all_chars (cset_mem cs) m = true
              /\ (min <= String.length m)%nat
              /\ k (pos + String.length m)%nat r = Some x.
Proof.
induction s as [|c s IH]; intros min pos k x H.
- simpl in H. destruct min; [|done].
  exists "", "". rewrite Nat.add_0_r. by repeat split.
- assert (Hstop : match min with O => k pos (String c s) | S _ => None end = Some x ->
                  exists m r, String c s = m +:+ r /\ all_chars (cset_mem cs) m = true
                              /\ (min <= String.length m)%nat
                              /\ k (pos + String.length m)%nat r = Some x).
  { destruct min; [|done]. intros Hk.
    exists "", (String c s). rewrite Nat.add_0_r. by repeat split. }
  simpl in H. destruct (cset_mem cs c) eqn:Hc; [|by apply Hstop].
  destruct (repeat_greedy cs (Nat.pred min) (S pos) s k) as [y|] eqn:Hr;
    [|by apply Hstop].
  injection H as ->.
  destruct (IH _ _ _ _ Hr) as (m & r & -> & Hall & Hmin & Hk).
  exists (String c m), r. rewrite sapp_cons. simpl. rewrite Hc, Hall.
  repeat split; [lia |].
  by replace (pos + S (String.length m))%nat with (S pos + String.length m)%nat by lia.
Qed.

(** A repetition succeeds as soon as the continuation accepts what follows
  some run that is long enough. *)
Lemma repeat_greedy_complete {A : Type} (cs : cset) (m r : string) :
forall (min pos : nat) (k : nat -> string -> option A),
  all_chars (cset_mem cs) m = true ->
  (min <= String.length m)%nat ->
  is_Some (k (pos + String.length m)%nat r) ->
  is_Some (repeat_greedy cs min pos (m +:+ r) k).
Proof.
induction m as [|c m IH]; intros min pos k Hall Hmin Hk.
- rewrite sapp_nil_l. simpl in Hmin, Hk. rewrite Nat.add_0_r in Hk.
  assert (min = 0%nat) as -> by lia.
  destruct r as [|c r]; simpl; [done |].
  destruct (cset_mem cs c); [|done].
  by destruct (repeat_greedy cs 0 (S pos) r k).
- rewrite sapp_cons. simpl in Hall. apply andb_true_iff in Hall as [Hc Hall].
  simpl. rewrite Hc.
  destruct (IH (Nat.pred min) (S pos) k Hall) as [y ->]; [simpl in Hmin; lia | | done].
  simpl in Hk.
  by replace (S pos + String.length m)%nat with (pos + S (String.length m))%nat by lia.
Qed.

Lemma take_length_app (pos : nat) (m r : string) :
str.take (pos + String.length m - pos) (m +:+ r) = m.
Proof.
replace (pos + String.length m - pos)%nat with (String.length m + 0)%nat by lia.
rewrite take_app_plus. simpl. apply sapp_nil_r.
Qed.

Lemma exec_lit_inv (l s : string) pos g k x :
exec (Lit l) pos s g k = Some x ->
exists s', s = l +:+ s' /\ k (pos + String.length l)%nat s' g = Some x.
Proof.
simpl. destruct (strip_prefix l s) as [s'|] eqn:E; [|done].
intros H. exists s'. by rewrite (strip_prefix_inv _ _ _ E).
Qed.

Lemma exec_group_lit_inv (name l s : string) pos g k x :
exec (Group name (Lit l)) pos s g k = Some x ->
exists s', s = l +:+ s' /\ k (pos + String.length l)%nat s' (<[name := l]> g) = Some x.
Proof.
cbn [exec]. destruct (strip_prefix l s) as [s'|] eqn:E; [|done].
apply strip_prefix_inv in E as ->. rewrite take_length_app.
intros H. by exists s'.
Qed.

Lemma exec_group_repeat_inv (name : string) (cs : cset) (min : nat) (s : string)
    pos g k x :
exec (Group name (Repeat cs min)) pos s g k = Some x ->
exists m r, s = m +:+ r /\ all_chars (cset_mem cs) m = true
            /\ (min <= String.length m)%nat
            /\ k (pos + String.length m)%nat r (<[name := m]> g) = Some x.
Proof.
cbn [exec]. intros (m & r & -> & Hall & Hmin & Hk)%repeat_greedy_inv.
rewrite take_length_app in Hk. by exists m, r.
Qed.

Lemma exec_group_repeat_complete (name : string) (cs : cset) (min : nat) (m r : string)
    pos g k :
all_chars (cset_mem cs) m = true ->
(min <= String.length m)%nat ->
is_Some (k (pos + String.length m)%nat r (<[name := m]> g)) ->
is_Some (exec (Group name (Repeat cs min)) pos (m +:+ r) g k).
Proof.
intros Hall Hmin Hk. cbn [exec]. apply repeat_greedy_complete; try done.
by rewrite take_length_app.
Qed.

Lemma exec_group_alt_inv (name l1 l2 s : string) pos g k x :
exec (Group name (Alt (Lit l1) (Lit l2))) pos s g k = Some x ->
exists l s', (l = l1 \/ l = l2) /\ s = l +:+ s'
             /\ k (pos + String.length l)%nat s' (<[name := l]> g) = Some x.
Proof.
cbn [exec].
destruct (strip_prefix l1 s) as [s1|] eqn:E1.
- apply strip_prefix_inv in E1 as ->. rewrite take_length_app.
  destruct (k _ s1 _) as [y|] eqn:Hk.
  + intros [= <-]. exists l1, s1. by eauto.
  + destruct (strip_prefix l2 (l1 +:+ s1)) as [s2|] eqn:E2; [|done].
    apply strip_prefix_inv in E2. rewrite E2, take_length_app.
    intros H. exists l2, s2. by eauto.
- destruct (strip_prefix l2 s) as [s2|] eqn:E2; [|done].
  apply strip_prefix_inv in E2 as ->. rewrite take_length_app.
  intros H. exists l2, s2. by eauto.
Qed.

Lemma exec_maybe_lit_inv (l s : string) pos g k x :
exec (Maybe (Lit l)) pos s g k = Some x ->
exists u s', (u = "" \/ u = l) /\ s = u +:+ s'
             /\ k (pos + String.length u)%nat s' g = Some x.
Proof.
cbn [exec]. destruct (strip_prefix l s) as [s'|] eqn:E.
- apply strip_prefix_inv in E as ->.
  destruct (k (pos + String.length l)%nat s' g) as [y|] eqn:Hk.
  + intros [= <-]. exists l, s'. by eauto.
  + intros H. exists "", (l +:+ s'). rewrite Nat.add_0_r. by eauto.
- intros H. exists "", s. rewrite Nat.add_0_r. by eauto.
Qed.

Lemma exec_maybe_skip (r : regex) (s : string) pos g k :
is_Some (k pos s g) -> is_Some (exec (Maybe r) pos s g k).
Proof. intros H. cbn [exec]. by destruct (exec r pos s g k). Qed.

Lemma exec_maybe_take (r : regex) (s : string) pos g k :
is_Some (exec r pos s g k) -> is_Some (exec (Maybe r) pos s g k).
Proof. intros [x H]. cbn [exec]. by rewrite H. Qed.

Lemma length_nonempty (s : string) : (1 <= String.length s)%nat -> s <> "".
Proof. destruct s; simpl; [lia | done]. Qed.

Lemma dot_first (m : string) :
all_chars (cset_mem CDot) m = true -> (1 <= String.length m)%nat ->
exists c m', m = String c m' /\ c <> LF.
Proof.
destruct m as [|c m]; [simpl; lia |].
simpl. intros [Hc _]%andb_true_iff _. exists c, m. split; [done |].
apply negb_true_iff in Hc. by apply Ascii.eqb_neq.
Qed.

(** What a match of the student pattern says about the base name. *)
Lemma match_student_inv (basename : string) (m : gmap string string) :
match_ pattern_student basename = Some m ->
individual_grammar basename (group m "number") /\ group m "type" = "h".
Proof.
unfold match_, pattern_student. cbn [seq].
rewrite exec_seq, exec_start, exec_seq.
intros (s1 & -> & H)%exec_group_lit_inv. rewrite exec_seq in H.
apply exec_group_repeat_inv in H as (d & s2 & -> & Hd & Hd1 & H).
rewrite exec_seq in H. apply exec_lit_inv in H as (s3 & -> & H).
rewrite exec_seq in H.
apply exec_group_repeat_inv in H as (fn & s4 & -> & Hf & Hf1 & H).
rewrite exec_seq in H. apply exec_lit_inv in H as (s5 & -> & H).
rewrite exec_seq in H.
apply exec_group_repeat_inv in H as (ln & s6 & -> & Hl & Hl1 & H).
rewrite exec_seq in H. apply exec_lit_inv in H as (s7 & -> & H).
apply exec_group_repeat_inv in H as (fl & s8 & -> & Hfl & Hfl1 & [= <-]).
destruct (dot_first _ Hfl Hfl1) as (c & fl' & -> & Hc).
assert (Hn : group (<["filename" := String c fl']> (<["lastname" := ln]>
               (<["firstname" := fn]> (<["number" := d]> (<["type" := "h"]> ∅)))))
               "number" = d)
  by (unfold group; by rewrite !lookup_insert_ne, lookup_insert_eq by done).
split.
- rewrite Hn. exists fn, ln, c, (fl' +:+ s8).
  rewrite sapp_cons. repeat split; try done; by apply length_nonempty.
- unfold group. by rewrite !lookup_insert_ne, lookup_insert_eq by done.
Qed.

(** What a match of the group pattern says about the base name. *)
Lemma match_group_inv (basename : string) (m : gmap string string) :
match_ pattern_group basename = Some m ->
group_language basename (group m "number")
/\ (group m "type" = "Gruppe" \/ group m "type" = "Group").
Proof.
unfold match_, pattern_group. cbn [seq].
rewrite exec_seq, exec_start, exec_seq.
intros (p & s1 & Hp & -> & H)%exec_group_alt_inv. rewrite exec_seq in H.
apply exec_lit_inv in H as (s1' & -> & H). rewrite exec_seq in H.
apply exec_group_repeat_inv in H as (d & s2 & -> & Hd & Hd1 & H).
rewrite exec_seq in H. apply exec_lit_inv in H as (s3 & -> & H).
rewrite exec_seq in H.
apply exec_group_repeat_inv in H as (fn & s4 & -> & Hf & _ & H).
rewrite exec_seq in H. apply exec_maybe_lit_inv in H as (u & s5 & Hu & -> & H).
rewrite exec_seq in H.
apply exec_group_repeat_inv in H as (ln & s6 & -> & Hl & _ & H).
rewrite exec_seq in H. apply exec_lit_inv in H as (s7 & -> & H).
apply exec_group_repeat_inv in H as (fl & s8 & -> & Hfl & Hfl1 & [= <-]).
destruct (dot_first _ Hfl Hfl1) as (c & fl' & -> & Hc).
assert (Hn : group (<["filename" := String c fl']> (<["lastname" := ln]>
               (<["firstname" := fn]> (<["number" := d]> (<["type" := p]> ∅)))))
               "number" = d)
  by (unfold group; by rewrite !lookup_insert_ne, lookup_insert_eq by done).
split.
- rewrite Hn. exists p, fn, u, ln, c, (fl' +:+ s8).
  rewrite sapp_cons. repeat split; try done; by apply length_nonempty.
- unfold group. by rewrite !lookup_insert_ne, lookup_insert_eq by done.
Qed.


Lemma exec_group_alt_complete (name l1 l2 l s : string) pos g k :
strip_prefix l1 (l2 +:+ s) = None ->
l = l1 \/ l = l2 ->
is_Some (k (pos + String.length l)%nat s (<[name := l]> g)) ->
is_Some (exec (Group name (Alt (Lit l1) (Lit l2))) pos (l +:+ s) g k).
Proof.
intros Hno [-> | ->] [x Hk].
- exists x. by apply exec_group_alt_l.
- exists x. by apply exec_group_alt_r.
Qed.

(** The group pattern finds a match on every base name of its language. *)
Lemma match_group_complete (basename digits : string) :
group_language basename digits -> is_Some (match_ pattern_group basename).
Proof.
intros (p & fn & u & ln & c & rest & -> & Hp & Hd0 & Hd & Hf & Hu & Hl & Hc).
unfold match_, pattern_group. cbn [seq].
rewrite exec_seq, exec_start, exec_seq.
assert (Hrest : forall g,
  is_Some (exec (seq [Lit " "; Group "number" (Repeat (CRange "0" "9") 1); Lit "_";
             Group "firstname" (Repeat (CNot (CChar "_")) 0);
             Maybe (Lit "_");
             Group "lastname" (Repeat (CNot (CChar "_")) 0);
             Lit "_"; Group "filename" (Repeat CDot 1)])
       (0 + String.length p)
       (" " +:+ digits +:+ "_" +:+ fn +:+ u +:+ ln +:+ "_" +:+ String c rest)
       g (fun _ _ g => Some g))).
{ intros g. cbn [seq]. rewrite exec_seq, exec_lit, exec_seq.
  apply exec_group_repeat_complete; [done | by apply nonempty_length |].
  rewrite exec_seq, exec_lit, exec_seq.
  assert (Hlast : forall pos g',
    is_Some (exec (Seq (Lit "_") (Group "filename" (Repeat CDot 1))) pos
                  ("_" +:+ String c rest) g' (fun _ _ g => Some g))).
  { intros pos g'. rewrite exec_seq, exec_lit.
    change (String c rest) with (String c "" +:+ rest).
    apply exec_group_repeat_complete; [|simpl; lia | done].
    cbn [all_chars]. by rewrite (not_lf c Hc). }
  destruct Hu as [-> | ->].
  - rewrite sapp_nil_l, <- sapp_assoc.
    apply exec_group_repeat_complete; [rewrite all_chars_app; apply andb_true_iff; by split | lia |].
    rewrite exec_seq. apply exec_maybe_skip. rewrite exec_seq.
    rewrite <- (sapp_nil_l ("_" +:+ String c rest)) at 1.
    apply exec_group_repeat_complete; [done | simpl; lia |]. apply Hlast.
  - apply exec_group_repeat_complete; [done | lia |].
    rewrite exec_seq. apply exec_maybe_take. rewrite exec_lit, exec_seq.
    apply exec_group_repeat_complete; [done | lia |]. apply Hlast. }
apply exec_group_alt_complete; [reflexivity | done | apply Hrest].
Qed.

End pattern_languages.

Section pattern_theorems.

Import re.

Lemma digits_run_unique (d d' x x' : string) :
all_chars isdigit d = true -> all_chars isdigit d' = true ->
d +:+ "_" +:+ x = d' +:+ "_" +:+ x' -> d = d'.
Proof.
revert d'. induction d as [|a d IH]; intros [|a' d'] Hd Hd'; try done.
- rewrite sapp_nil_l, !sapp_cons. intros [= <- _].
  by simpl in Hd'.
- rewrite sapp_nil_l, !sapp_cons. intros [= -> _].
  by simpl in Hd.
- rewrite !sapp_cons. intros [= -> H].
  simpl in Hd, Hd'. apply andb_true_iff in Hd as [_ Hd], Hd' as [_ Hd'].
  by rewrite (IH d' Hd Hd' H).
Qed.

Lemma individual_digits_unique (b d d' : string) :
individual_grammar b d -> individual_grammar b d' -> d = d'.
Proof.
intros (fn & ln & c & rest & -> & _ & Hd & _)
       (fn' & ln' & c' & rest' & E & _ & Hd' & _).
rewrite !sapp_cons, !sapp_nil_l in E. injection E as E.
by apply (digits_run_unique _ _ _ _ Hd Hd' E).
Qed.

Lemma group_digits_unique (b d d' : string) :
group_language b d -> group_language b d' -> d = d'.
Proof.
intros (p & fn & u & ln & c & rest & -> & Hp & _ & Hd & _)
       (p' & fn' & u' & ln' & c' & rest' & E & Hp' & _ & Hd' & _).
destruct Hp as [-> | ->], Hp' as [-> | ->];
  rewrite !sapp_cons, !sapp_nil_l in E; try discriminate E;
  injection E as E; by apply (digits_run_unique _ _ _ _ Hd Hd' E).
Qed.

(** X5.  The student pattern matches exactly the base names of the form
  h, digits, underscore, first name, underscore, last name, underscore
  and a rest that starts with a character other than a line feed; the
  group called number is then the run of digits, and the group called
  type is the letter h. *)
Theorem student_pattern_language (basename digits : string) :
(exists m, match_ pattern_student basename = Some m
           /\ group m "type" = "h" /\ group m "number" = digits)
<-> individual_grammar basename digits.
Proof.
split.
- intros (m & Hm & _ & <-). by apply match_student_inv.
- apply match_student.
Qed.

(** X6.  The group pattern matches exactly the base names that start with
  Gruppe or Group, a space, digits and an underscore, followed by one or
  two names without underscores, an underscore, and a rest that starts
  with a character other than a line feed; the group called number is
  then the run of digits and the group called type the first word. *)
Theorem group_pattern_language (basename digits : string) :
(exists m, match_ pattern_group basename = Some m
           /\ (group m "type" = "Gruppe" \/ group m "type" = "Group")
           /\ group m "number" = digits)
<-> group_language basename digits.
Proof.
split.
- intros (m & Hm & _ & <-). by apply match_group_inv.
- intros H. destruct (match_group_complete _ _ H) as [m Hm].
  exists m. destruct (match_group_inv _ _ Hm) as [Hg Ht].
  repeat split; [done | done |]. by apply (group_digits_unique basename).
Qed.

(** X7.  No base name matches both patterns: the two branches of the test
  in collect never compete. *)
Theorem patterns_disjoint (basename : string) :
match_ pattern_student basename = None \/ match_ pattern_group basename = None.
Proof.
destruct (match_ pattern_student basename) as [m|] eqn:Hs; [|by left].
destruct (match_ pattern_group basename) as [m'|] eqn:Hg; [|by right].
apply match_student_inv in Hs as [(fn & ln & c & rest & -> & _) _].
apply match_group_inv in Hg as [(p & fn' & u & ln' & c' & rest' & E & [-> | ->] & _) _];
  rewrite !sapp_cons in E; discriminate E.
Qed.

End pattern_theorems.

Section pattern_witnesses.

Import re.

Lemma student_pattern_language_witness :
exists m, match_ pattern_student "h0123_Ada_Lovelace_hw1.zip" = Some m
          /\ group m "type" = "h" /\ group m "number" = "0123".
Proof.
apply (proj2 (student_pattern_language "h0123_Ada_Lovelace_hw1.zip" "0123")).
exists "Ada", "Lovelace", "h"%char, "w1.zip".
repeat split; done.
Defined.

Lemma group_pattern_language_witness :
exists m, match_ pattern_group "Group 7_Meier_hw1.zip" = Some m
          /\ (group m "type" = "Gruppe" \/ group m "type" = "Group")
          /\ group m "number" = "7".
Proof.
apply (proj2 (group_pattern_language "Group 7_Meier_hw1.zip" "7")).
exists "Group", "Meier", "", "", "h"%char, "w1.zip".
repeat split; try done. by right. by left.
Defined.

End pattern_witnesses.

(* ===================================================================== *)
(** ** An induction principle for [collect] *)
(* ===================================================================== *)

Section collect_invariant.

Import os_path.

Context (target assignment notebook_filename : string).

#[local] Abbreviation collect_ := (collect_in target assignment notebook_filename).

Variable P : nat -> outcome (list submission) -> Prop.

Hypothesis P_matched : forall p e n m,
    match_either Re_init (basename p) = ({| last_match := Some m |}, true) ->
    P n (collect_ p e n).
Hypothesis P_notebook : forall p n,
    P n (Ok [], n, [Log FATAL ("Unmatched notebook found in " +:+ p)]).
Hypothesis P_unsupported : forall p n,
    P n (Raise NotImplementedError, n,
         [Log FATAL ("Don't know what to do with file: " +:+ p)]).
Hypothesis P_nil : forall n, P n (Ok [], n, []).
Hypothesis P_seq : forall n subs n1 evs1 r n2 evs2,
    P n (Ok subs, n1, evs1) -> P n1 (r, n2, evs2) ->
    P n (match r with Ok subs' => Ok (subs ++ subs') | Raise x => Raise x end,
         n2, evs1 ++ evs2).
Hypothesis P_scratch : forall p items n r n' evs,
    P (S n) (r, n', evs) ->
    P n (r, n',
         Mkdtemp (mkdtemp n)
         :: Log INFO ("Extracting " +:+ p +:+ " to " +:+ mkdtemp n)
         :: (map (fun item => Extract p item (mkdtemp n)) items ++ evs)
         ++ [Rmtree (mkdtemp n)]).
Hypothesis P_broken : forall p e n x,
    fst (extract_zip p e (mkdtemp n)) = Raise x ->
    P n (Raise x, S n,
         [Mkdtemp (mkdtemp n);
          Log INFO ("Extracting " +:+ p +:+ " to " +:+ mkdtemp n);
          Rmtree (mkdtemp n)]).

Lemma for_members_invariant (t : string) (members : list (string * entry)) :
  Forall (fun m => forall p n, P n (collect_ p (snd m) n)) members ->
  forall n, P n (for_members collect_ t members n).
Proof.
  induction 1 as [|m ms Hm _ IH]; intros n; [apply P_nil |].
  cbn [for_members]. destruct (keep (fst m)); [|apply IH].
  pose proof (Hm (join t [fst m]) n) as H1.
  destruct (collect_ (join t [fst m]) (snd m) n) as [[[subs|x] n1] evs1]; [|done].
  pose proof (IH n1) as H2.
  destruct (for_members collect_ t ms n1) as [[r n2] evs2].
  pose proof (P_seq _ _ _ _ _ _ _ H1 H2) as H3.
  by destruct r.
Qed.

Lemma extract_zip_cases (p : string) (e : entry) (t : string) :
  (exists x, extract_zip p e t = (Raise x, []))
  \/ (exists files, extract_zip p e t
                    = (Ok files, map (fun item => Extract p item t)
                                     (filter (namelist (members_of e))))).
Proof.
  unfold extract_zip. destruct (splitext p) as [f x].
  destruct (String.eqb x ".zip"); [destruct e; eauto |].
  destruct (String.eqb x ".7z"); [destruct e; eauto | eauto].
Qed.

Lemma collect_invariant (e : entry) : forall p n, P n (collect_ p e n).
Proof.
  induction e as [c | | members IH | members IH] using entry_members_ind;
    intros p n;
    (destruct (matched (basename p)) eqn:Hm;
     [destruct (matched_true _ Hm) as [m Hme]; by apply (P_matched p _ n m) |]);
    unfold collect_in; rewrite (collect_unmatched _ _ _ _ _ _ Hm);
    (destruct (String.eqb (ext p) ".ipynb"); [apply P_notebook |]);
    (destruct (String.eqb (ext p) ".zip" || String.eqb (ext p) ".7z");
     [|apply P_unsupported]); cbv zeta.
  all: match goal with
       | |- context [extract_zip ?q ?e ?t] =>
           let Hx := fresh "Hx" in
           destruct (extract_zip_cases q e t) as [[x Hx] | [files ->]];
           [rewrite Hx; apply (P_broken q e); by rewrite Hx |]
       end.
  all: match goal with
       | |- context [for_members ?f ?t ?ms ?k] =>
           assert (H : P k (for_members collect_ t ms k));
           [apply for_members_invariant; try apply IH; try apply Forall_nil_2 |];
           change f with collect_;
           destruct (for_members collect_ t ms k) as [[r n'] evs];
           by apply P_scratch
       end.
Qed.

End collect_invariant.

(* ===================================================================== *)
(** ** The events of [extract_files], and the disciplines they follow *)
(* ===================================================================== *)

Section disciplines.

Import os_path.

Lemma loop_inner (t d nb : string) (unpacked files : list located) :
  forall notebook,
    Forall (inner t d nb) (snd (extract_files_loop files unpacked d nb notebook)).
Proof.
  induction files as [|f files IH]; intros notebook; [by constructor |].
  rewrite loop_cons. cbv beta zeta.
  pose proof (IH notebook) as H1. pose proof (IH (Some (path f))) as H2.
  destruct (extract_files_loop files unpacked d nb notebook) as [r1 evs1].
  destruct (extract_files_loop files unpacked d nb (Some (path f))) as [r2 evs2].
  cbn [snd] in *.
  destruct (is_notebook f); [destruct (not_ notebook); [destruct (isdir (content f))|] |
                             destruct (is_datadir f)];
    cbn [snd app]; repeat (apply Forall_cons; split; [done |]);
    first [done | by constructor].
Qed.

Lemma unpack_inner (p : string) (e : entry) (t d nb : string) :
  Forall (inner t d nb) (unpack_events p e t).
Proof.
  unfold unpack_events. destruct (String.eqb (ext p) ".ipynb"); [by constructor |].
  destruct (_ || _); [|by constructor].
  destruct (extract_zip_cases p e t) as [[x ->] | [files ->]]; [by constructor |].
  cbn [snd]. by apply Forall_map, Forall_true.
Qed.

(** [extract_files] creates its scratch directory, works inside it, and
    removes it, whatever its result is. *)
Lemma extract_files_shape p e target (s : submission) nb n :
  exists r body,
    extract_files p e target s nb n
    = (r, S n, Mkdtemp (mkdtemp n) :: body ++ [Rmtree (mkdtemp n)])
    /\ Forall (inner (mkdtemp n) (dir s) nb) body.
Proof.
  rewrite extract_files_eq. cbv zeta.
  pose proof (unpack_inner p e (mkdtemp n) (dir s) nb) as H0.
  destruct (files_of p e (mkdtemp n)) as [files|x]; [|by eauto].
  pose proof (loop_inner (mkdtemp n) (dir s) nb files files None) as H1.
  destruct (extract_files_loop files files (dir s) nb None) as [[notebook|x] evs1];
    cbn [snd] in H1.
  - eexists _, _. split; [done |].
    apply Forall_app; split; [done |]. apply Forall_app; split; [done |].
    destruct (not_ notebook); by repeat constructor.
  - eexists _, _. split; [done |]. by apply Forall_app.
Qed.

Lemma makedirs_app (a b : list event) : makedirs (a ++ b) = makedirs a ++ makedirs b.
Proof. apply omap_app. Qed.

Lemma makedirs_inner (t d nb : string) (evs : list event) :
  Forall (inner t d nb) evs -> makedirs evs = [].
Proof.
  induction 1 as [|ev evs Hev _ IH]; [done |]. by destruct ev.
Qed.

Lemma makedirs_extract (p t : string) (items : list string) :
  makedirs (map (fun item => Extract p item t) items) = [].
Proof. induction items as [|i items IH]; [done | apply IH]. Qed.

Lemma scratch_app (a b : list event) :
  forall open, scratch (a ++ b) open = scratch a open ≫= scratch b.
Proof.
  induction a as [|ev a IH]; intros open; [done |].
  destruct ev as [lvl msg | q | q | q | ar it t | src dst c | src dst tr];
    cbn [app scratch]; try apply IH.
  - destruct open as [|d' open]; [done |]. destruct (String.eqb q d'); [apply IH | done].
  - destruct open as [|d' open]; [done |]. destruct (String.eqb t d'); [apply IH | done].
Qed.

Lemma scratch_inner (t d nb : string) (evs : list event) (open : list string) :
  Forall (inner t d nb) evs -> scratch evs (t :: open) = Some (t :: open).
Proof.
  induction 1 as [|ev evs Hev _ IH]; [done |].
  destruct ev; try done. simpl in Hev. subst. cbn [scratch]. by rewrite String.eqb_refl.
Qed.

Lemma scratch_extract (p t : string) (items : list string) (open : list string) :
  scratch (map (fun item => Extract p item t) items) (t :: open) = Some (t :: open).
Proof.
  induction items as [|i items IH]; [done |]. cbn [map scratch].
  by rewrite String.eqb_refl.
Qed.

Lemma placed_app (nb : string) (a b : list event) :
  forall current, placed nb (a ++ b) current = placed nb a current ≫= placed nb b.
Proof.
  induction a as [|ev a IH]; intros current; [done |].
  destruct ev as [lvl msg | q | q | q | ar it t | src dst c | src dst tr];
    cbn [app placed]; try apply IH.
  - destruct current as [d|]; [|done]. destruct (String.eqb dst _); [apply IH | done].
  - destruct current as [d|]; [|done]. destruct (String.eqb dst _); [apply IH | done].
Qed.

Lemma placed_inner (t d nb : string) (evs : list event) :
  Forall (inner t d nb) evs -> placed nb evs (Some d) = Some (Some d).
Proof.
  induction 1 as [|ev evs Hev _ IH]; [done |].
  destruct ev; try done; simpl in Hev; subst; cbn [placed];
    by rewrite String.eqb_refl.
Qed.

Lemma placed_extract (nb p t : string) (items : list string) current :
  placed nb (map (fun item => Extract p item t) items) current = Some current.
Proof. induction items as [|i items IH]; [done | apply IH]. Qed.

Lemma match_either_inv (b : string) (m : gmap string string) :
  match_either Re_init b = ({| last_match := Some m |}, true) ->
  re.match_ pattern_student b = Some m \/ re.match_ pattern_group b = Some m.
Proof.
  unfold match_either, Re_match.
  destruct (re.match_ pattern_student b) as [m1|]; [intros [= <-]; by left |].
  destruct (re.match_ pattern_group b) as [m2|]; [intros [= <-]; by right | done].
Qed.

(** The dictionary that the matched branch builds is well formed. *)
Lemma classify_well_formed (b target assignment : string) (m : gmap string string) :
  match_either Re_init b = ({| last_match := Some m |}, true) ->
  well_formed target assignment (classify m target assignment).
Proof.
  intros [H | H]%match_either_inv.
  - apply match_student_inv in H as [(fn & ln & c & rest & _ & Hd0 & Hd & _) Ht].
    unfold classify. rewrite Ht. cbn [String.eqb Ascii.eqb]. split; [done |].
    left. by repeat split.
  - apply match_group_inv in H
      as [(p & fn & u & ln & c & rest & _ & _ & Hd0 & Hd & _) Ht].
    unfold classify.
    assert (String.eqb (re.group m "type") "h" = false) as ->
        by (by destruct Ht as [-> | ->]).
    split; [done |]. right. split; [done |]. by exists (re.group m "number").
Qed.

End disciplines.

(* ===================================================================== *)
(** ** What every run of [collect] keeps to *)
(* ===================================================================== *)

Section collect_disciplines.

Import os_path.

Context (target assignment notebook_filename : string).

#[local] Abbreviation collect_ := (collect_in target assignment notebook_filename).

Lemma collect_submissions (e : entry) (p : string) (n : nat) :
  forall subs,
    fst (fst (collect_ p e n)) = Ok subs ->
    Forall (well_formed target assignment) subs
    /\ makedirs (snd (collect_ p e n)) = map dir subs.
Proof.
  revert p n.
  apply (collect_invariant target assignment notebook_filename
           (fun _ o => forall subs, fst (fst o) = Ok subs ->
              Forall (well_formed target assignment) subs
              /\ makedirs (snd o) = map dir subs)).
  - intros p e0 n m Hm subs. unfold collect_in.
    rewrite (collect_matched _ _ _ _ _ _ _ Hm). cbv zeta.
    destruct (extract_files_shape p e0 target (classify m target assignment)
                notebook_filename n) as (r & body & -> & Hb).
    cbn [fst snd]. destruct r as [files|x]; [|done]. intros [= <-]. split.
    + apply Forall_singleton. by apply (classify_well_formed (basename p)).
    + cbn [makedirs omap list_omap]. fold (makedirs (body ++ [Rmtree (mkdtemp n)])).
      by rewrite makedirs_app, (makedirs_inner _ _ _ _ Hb).
  - by intros p n subs [= <-].
  - done.
  - by intros n subs [= <-].
  - intros n subs n1 evs1 r n2 evs2 H1 H2 subs'. cbn [fst snd] in *.
    destruct r as [subs2|x]; [|done]. intros [= <-].
    destruct (H1 subs eq_refl) as [W1 M1], (H2 subs2 eq_refl) as [W2 M2].
    split; [by apply Forall_app |]. by rewrite makedirs_app, map_app, M1, M2.
  - intros p items n r n' evs H subs. cbn [fst snd] in *. intros Hr.
    destruct (H subs Hr) as [W M]. split; [done |].
    cbn [makedirs omap list_omap].
    fold (makedirs ((map (fun item => Extract p item (mkdtemp n)) items ++ evs)
                      ++ [Rmtree (mkdtemp n)])).
    by rewrite !makedirs_app, makedirs_extract, M, app_nil_r.
  - done.
Qed.

(** X8.  Every submission that [collect] returns, from however deep in nested
    archives, is a student under a non-empty run of digits or a group
    under the word group and such a run, and its directory is the
    assignment directory below that key in the course directory. *)
Theorem collect_well_formed (inputfile : string) (e : entry) (n : nat)
        (subs : list submission) :
  fst (fst (collect inputfile e target assignment notebook_filename n)) = Ok subs ->
  Forall (well_formed target assignment) subs.
Proof. intros H. by apply (collect_submissions e inputfile n subs). Qed.

(** X9.  When [collect] returns, the directories it has created with
    [os.makedirs] are the directories of the submissions it returns, one
    call for each submission and in the same order. *)
Theorem collect_makedirs (inputfile : string) (e : entry) (n : nat)
        (subs : list submission) :
  fst (fst (collect inputfile e target assignment notebook_filename n)) = Ok subs ->
  makedirs (snd (collect inputfile e target assignment notebook_filename n))
  = map dir subs.
Proof. intros H. by apply (collect_submissions e inputfile n subs). Qed.

(** X10.  On every exit path of [collect], exceptions included, each scratch
    directory that was created has been removed again, the innermost
    first, and archives were unpacked into the innermost scratch
    directory only: started with any list of open scratch directories,
    the run ends with the same list. *)
Theorem collect_scratch_discipline (inputfile : string) (e : entry) (n : nat)
        (open : list string) :
  scratch (snd (collect inputfile e target assignment notebook_filename n)) open
  = Some open.
Proof.
  revert inputfile n open.
  apply (collect_invariant target assignment notebook_filename
           (fun _ o => forall open, scratch (snd o) open = Some open)).
  - intros p e0 n m Hm open. unfold collect_in.
    rewrite (collect_matched _ _ _ _ _ _ _ Hm). cbv zeta.
    destruct (extract_files_shape p e0 target (classify m target assignment)
                notebook_filename n) as (r & body & -> & Hb).
    cbn [fst snd scratch]. rewrite scratch_app, (scratch_inner _ _ _ _ _ Hb).
    simpl. by rewrite String.eqb_refl.
  - done.
  - done.
  - done.
  - intros n subs n1 evs1 r n2 evs2 H1 H2 open. cbn [fst snd] in *.
    rewrite scratch_app, H1. apply H2.
  - intros p items n r n' evs H open. cbn [fst snd scratch] in *.
    rewrite !scratch_app, scratch_extract. simpl. rewrite H. simpl.
    by rewrite String.eqb_refl.
  - intros p e0 n x _ open. cbn [snd scratch]. by rewrite String.eqb_refl.
Qed.

(** X11.  Whatever [collect] copies, it copies into the directory of the
    submission it has just created: a notebook to the name of the
    assignment's notebook there, a directory to [data] there, and
    nothing before a submission directory exists. *)
Theorem collect_placed (inputfile : string) (e : entry) (n : nat) :
  is_Some (placed notebook_filename
             (snd (collect inputfile e target assignment notebook_filename n)) None).
Proof.
  revert inputfile n.
  enough (H : forall p n current,
             is_Some (placed notebook_filename (snd (collect_ p e n)) current))
    by (intros p n; apply H).
  apply (collect_invariant target assignment notebook_filename
           (fun _ o => forall current,
              is_Some (placed notebook_filename (snd o) current))).
  - intros p e0 n m Hm current. unfold collect_in.
    rewrite (collect_matched _ _ _ _ _ _ _ Hm). cbv zeta.
    destruct (extract_files_shape p e0 target (classify m target assignment)
                notebook_filename n) as (r & body & -> & Hb).
    cbn [fst snd placed]. by rewrite placed_app, (placed_inner _ _ _ _ Hb).
  - done.
  - done.
  - done.
  - intros n subs n1 evs1 r n2 evs2 H1 H2 current. cbn [fst snd] in *.
    rewrite placed_app. destruct (H1 current) as [c1 ->]. apply H2.
  - intros p items n r n' evs H current. cbn [fst snd placed] in *.
    rewrite !placed_app, placed_extract. simpl.
    destruct (H current) as [c1 ->]. done.
  - done.
Qed.

End collect_disciplines.

Section collect_disciplines_witnesses.

Lemma collect_well_formed_witness :
  Forall (well_formed "submitted" "hw")
         [ {| type := "student"; number := "1"; dir := "submitted/1/hw" |};
           {| type := "group"; number := "group2"; dir := "submitted/group2/hw" |} ].
Proof.
  apply (collect_well_formed "submitted" "hw" "hw.ipynb" "batch.zip"
           (ZipFile [("h1_a_b_hw.zip", ZipFile [("sol.ipynb", File "1")]);
                     ("Group 2_c_d_hw.ipynb", File "2")]) 0).
  reflexivity.
Defined.

Lemma collect_makedirs_witness :
  makedirs (snd (collect "batch.zip"
                   (ZipFile [("h1_a_b_hw.zip", ZipFile [("sol.ipynb", File "1")]);
                             ("Group 2_c_d_hw.ipynb", File "2")])
                   "submitted" "hw" "hw.ipynb" 0))
  = map dir
        [ {| type := "student"; number := "1"; dir := "submitted/1/hw" |};
          {| type := "group"; number := "group2"; dir := "submitted/group2/hw" |} ].
Proof.
  apply (collect_makedirs "submitted" "hw" "hw.ipynb" "batch.zip"
           (ZipFile [("h1_a_b_hw.zip", ZipFile [("sol.ipynb", File "1")]);
                     ("Group 2_c_d_hw.ipynb", File "2")]) 0).
  reflexivity.
Defined.

End collect_disciplines_witnesses.

(* ===================================================================== *)
(** ** What [collect] can raise, and archives as lists of inputs *)
(* ===================================================================== *)

Section collect_exceptions.

Import os_path.

Context (target assignment notebook_filename : string).

#[local] Abbreviation collect_ := (collect_in target assignment notebook_filename).





Lemma writes_extract (p t : string) (items : list string) :
  writes (map (fun item => Extract p item t) items) = [].
Proof. induction items as [|i items IH]; [done | apply IH]. Qed.

Lemma for_members_direct (t : string) (members : list (string * entry)) :
  forall n,
    kept (for_members collect_ t members n)
    = direct target assignment notebook_filename members.
Proof.
  induction members as [|m ms IH]; intros n; [done |].
  cbn [for_members direct]. destruct (keep (fst m)); [|apply IH].
  pose proof (collect_indep target assignment notebook_filename (snd m)
                (join t [fst m]) (fst m) n 0) as H.
  rewrite basename_join, ext_join in H. specialize (H eq_refl eq_refl).
  change (collect (fst m) (snd m) target assignment notebook_filename 0)
    with (collect_ (fst m) (snd m) 0).
  rewrite <- H. unfold kept at 2.
  destruct (collect_ (join t [fst m]) (snd m) n)
    as [[[subs|x] n1] evs1]; cbn [fst snd]; [|done].
  rewrite <- (IH n1).
  destruct (for_members collect_ t ms n1) as [[r n2] evs2].
  unfold kept. destruct r; cbn [fst snd]; by rewrite writes_app.
Qed.

(** X13.  Collecting an archive whose own name matches neither pattern is
    collecting its members one by one, each under its own name as if it
    had been given as an input of its own: the same result, up to and
    including the first member that raises, and the same writes to the
    tree.  The scratch directory the members are unpacked to leaves no
    trace. *)
Theorem collect_flatten (inputfile : string) (members : list (string * entry))
        (n : nat) :
  matched (basename inputfile) = false ->
  ext inputfile = ".zip" \/ ext inputfile = ".7z" ->
  kept (collect inputfile (archive_of (ext inputfile) members)
                target assignment notebook_filename n)
  = direct target assignment notebook_filename members.
Proof.
  intros Hm Hx.
  pose proof (collect_archive target assignment notebook_filename
                inputfile members n Hm Hx) as H.
  unfold collect_in at 1 in H. rewrite H. cbv zeta.
  rewrite <- (for_members_direct (mkdtemp n) members (S n)).
  destruct (for_members collect_ (mkdtemp n) members (S n)) as [[r n'] evs].
  unfold kept. cbn [fst snd]. f_equal.
  rewrite !writes_cons. cbn [writes_of app].
  rewrite !writes_app, writes_extract. cbn [app].
  change (writes [Rmtree (mkdtemp n)]) with (@nil (string * entry)).
  by rewrite app_nil_r.
Qed.

End collect_exceptions.

Section collect_exceptions_witnesses.


Lemma collect_flatten_witness :
  kept (collect "batch.7z"
                (archive_of (ext "batch.7z")
                   [("h1_a_b_hw.zip", ZipFile [("sol.ipynb", File "1")]);
                    (".hidden", File "x");
                    ("Group 2_c_hw.ipynb", File "2");
                    ("notes.txt", File "3");
                    ("h3_e_f_hw.ipynb", File "4")])
                "submitted" "hw" "hw.ipynb" 5)
  = direct "submitted" "hw" "hw.ipynb"
           [("h1_a_b_hw.zip", ZipFile [("sol.ipynb", File "1")]);
            (".hidden", File "x");
            ("Group 2_c_hw.ipynb", File "2");
            ("notes.txt", File "3");
            ("h3_e_f_hw.ipynb", File "4")].
Proof.
  apply (collect_flatten "submitted" "hw" "hw.ipynb" "batch.7z"); [reflexivity |].
  right. reflexivity.
Defined.

End collect_exceptions_witnesses.

(* ===================================================================== *)
(** ** A notebook handed in as it is *)
(* ===================================================================== *)

Section bare_notebook.

Import os_path.

Context (target assignment notebook_filename : string).


End bare_notebook.

Section bare_notebook_witness.


End bare_notebook_witness.

(* ===================================================================== *)
(** ** The name of the notebook, and the feedback that is looked for *)
(* ===================================================================== *)

Section notebook_name.

Import os_path.

Lemma take_drop (i : nat) (s : string) : str.take i s +:+ str.drop i s = s.
Proof.
  revert s. induction i as [|i IH]; intros [|c s]; try done.
  cbn [str.take str.drop]. by rewrite sapp_cons, IH.
Qed.

Lemma length_take (i : nat) (s : string) :
  (i <= String.length s)%nat -> String.length (str.take i s) = i.
Proof.
  revert s. induction i as [|i IH]; intros [|c s]; simpl; try done; try lia.
  intros H. rewrite IH; lia.
Qed.

Lemma length_drop (i : nat) (s : string) :
  String.length (str.drop i s) = (String.length s - i)%nat.
Proof. revert s. induction i as [|i IH]; intros [|c s]; simpl; try done. Qed.

(** The scan over the leading dots of a file name. *)
Lemma scan_name (b t : string) :
  forall pre,
    splitext_scan (pre +:+ b +:+ t) (String.length pre) (String.length b)
    = negb (all_chars is_dot b).
Proof.
  induction b as [|c b IH]; intros pre; [done |].
  cbn [String.length splitext_scan all_chars].
  rewrite <- (Nat.add_0_r (String.length pre)) at 1. rewrite get_app_plus.
  rewrite sapp_cons. cbn [String.get]. unfold is_dot.
  destruct (Ascii.eqb c extsep); [|done]. cbn [negb andb].
  specialize (IH (pre +:+ String c "")).
  rewrite slength_app, sapp_assoc in IH. cbn [String.length] in IH.
  rewrite sapp_cons, sapp_nil_l in IH.
  by replace (String.length pre + 1)%nat with (S (String.length pre)) in IH by lia.
Qed.

(** Splitting the name that [get_notebook_name] builds. *)
Lemma splitext_ipynb (name : string) :
  splitext (name +:+ ".ipynb")
  = if all_chars is_dot (basename name) then (name +:+ ".ipynb", "")
    else (name, ".ipynb").
Proof.
  unfold splitext, basename.
  rewrite (rfind_app sep name), (rfind_app extsep name).
  change (str.rfind sep ".ipynb") with (-1)%Z.
  change (str.rfind extsep ".ipynb") with 0%Z.
  change (0 <=? -1)%Z with false. change (0 <=? 0)%Z with true. cbv iota.
  pose proof (rfind_ge sep name) as Hge. pose proof (rfind_lt sep name) as Hlt.
  set (rs := str.rfind sep name) in *.
  assert ((rs <? Z.of_nat (String.length name) + 0)%Z = true) as ->
      by (apply Z.ltb_lt; lia).
  cbn [andb]. unfold str.slice_from.
  set (i := Z.to_nat (rs + 1)).
  assert (Hi : (i <= String.length name)%nat) by (unfold i; lia).
  replace (Z.to_nat (Z.of_nat (String.length name) + 0 - (rs + 1)))
    with (String.length (str.drop i name))
    by (rewrite length_drop; unfold i; lia).
  pose proof (scan_name (str.drop i name) ".ipynb" (str.take i name)) as E.
  rewrite (length_take i name Hi), <- sapp_assoc, take_drop in E. rewrite E.
  destruct (all_chars is_dot (str.drop i name)); [done |]. cbn [negb].
  unfold str.slice_to.
  replace (Z.to_nat (Z.of_nat (String.length name) + 0))
    with (String.length name) by lia.
  by rewrite take_app, drop_app.
Qed.

(** X15.  The notebook name that [get_notebook_name] returns is the name of
    the first source notebook with the extension of notebooks appended,
    and [collect_feedback] goes back from it to look for that name with
    the extension of web pages, below the feedback directory of the
    student and the assignment.  Both hold for a name whose last
    component has a character other than a dot; for a last component of
    dots only (the empty one included) the appended extension is not an
    extension, and the feedback is looked for under the whole file
    name. *)
Theorem notebook_feedback_name
        (get_notebooks : string -> list (gmap string string))
        (assignment student f : string) (evs : list event) :
  get_notebook_name get_notebooks assignment = (inr f, evs) ->
  exists notebook more name,
    get_notebooks assignment = notebook :: more
    /\ notebook !! "name" = Some name
    /\ f = name +:+ ".ipynb" /\ evs = []
    /\ ext f = (if all_chars is_dot (basename name) then "" else ".ipynb")
    /\ feedback_html assignment student f
       = join "feedback"
              [student; assignment;
               (if all_chars is_dot (basename name) then f else name) +:+ ".html"].
Proof.
  unfold get_notebook_name.
  destruct (get_notebooks assignment) as [|notebook more]; [done |].
  destruct (notebook !! "name") as [name|] eqn:Hn; [|done].
  intros [= <- <-]. exists notebook, more, name.
  repeat split; try done; unfold ext, feedback_html; rewrite splitext_ipynb;
    by destruct (all_chars is_dot (basename name)).
Qed.

End notebook_name.

Section notebook_name_witness.

Lemma notebook_feedback_name_witness :
  exists notebook more name,
    (fun _ : string => [{[ "name" := "week1/hw" ]} : gmap string string; ∅]) "hw"
    = notebook :: more
    /\ notebook !! "name" = Some name
    /\ "week1/hw.ipynb" = name +:+ ".ipynb" /\ @nil event = []
    /\ ext "week1/hw.ipynb"
       = (if all_chars is_dot (os_path.basename name) then "" else ".ipynb")
    /\ feedback_html "hw" "s1" "week1/hw.ipynb"
       = os_path.join "feedback"
           ["s1"; "hw";
            (if all_chars is_dot (os_path.basename name) then "week1/hw.ipynb"
             else name) +:+ ".html"].
Proof.
  apply (notebook_feedback_name
           (fun _ => [{[ "name" := "week1/hw" ]} : gmap string string; ∅])
           "hw" "s1" "week1/hw.ipynb" []).
  reflexivity.
Defined.

End notebook_name_witness.

(* ===================================================================== *)
(** ** The loops of [main] *)
(* ===================================================================== *)

Section main_loops.

Context (submissiondir assignment notebook_filename : string).

#[local] Abbreviation main_collect_ inputfiles n :=
  (main_collect inputfiles submissiondir assignment notebook_filename n).

Lemma main_collect_app (a b : list (string * entry)) :
  forall n,
    main_collect_ (a ++ b) n =
    match main_collect_ a n with
    | (Ok _, n1, evs1) =>
        let '(r, n2, evs2) := main_collect_ b n1 in (r, n2, evs1 ++ evs2)
    | (Raise x, n1, evs1) => (Raise x, n1, evs1)
    end.
Proof.
  induction a as [|[p e] a IH]; intros n.
  - cbn [app main_collect]. by destruct (main_collect_ b n) as [[r n2] evs2].
  - rewrite <- app_comm_cons. cbn [main_collect].
    destruct (collect p e submissiondir assignment notebook_filename n)
      as [[[subs|x] n1] evs1]; [|done].
    rewrite IH.
    destruct (main_collect_ a n1) as [[[u|x] n2] evs2]; [|done].
    destruct (main_collect_ b n2) as [[r n3] evs3].
    by rewrite <- app_assoc.
Qed.

(** X16.  For an input on which [collect] returns, [main] logs one line after
    the events of [collect] and goes on with the next input.  The line
    is told by the directories that [collect] has created for that
    input: their number is the number that is logged, and the fatal
    line that no submissions were found is logged exactly when none was
    created.  The submissions themselves are not kept. *)
Theorem main_collect_found
        (before after : list (string * entry)) (inputfile : string) (e : entry)
        (n n1 n2 : nat) (evs1 evs2 : list event) (submissions : list submission) :
  main_collect_ before n = (Ok tt, n1, evs1) ->
  collect inputfile e submissiondir assignment notebook_filename n1
  = (Ok submissions, n2, evs2) ->
  exists r n3 evs3,
    main_collect_ after n2 = (r, n3, evs3)
    /\ main_collect_ (before ++ (inputfile, e) :: after) n
       = (r, n3,
          evs1 ++ evs2
          ++ match makedirs evs2 with
             | [] => Log FATAL "No submissions found."
             | dirs => Log INFO ("Found " +:+ decimal (length dirs) +:+ " submissions")
             end :: evs3).
Proof.
  intros Hb Hc. rewrite main_collect_app, Hb. cbn [main_collect]. rewrite Hc.
  destruct (main_collect_ after n2) as [[r n3] evs3]. exists r, n3, evs3.
  split; [done |].
  destruct (collect_submissions submissiondir assignment notebook_filename
              e inputfile n1 submissions) as [_ Hm];
    [unfold collect_in; by rewrite Hc |].
  unfold collect_in in Hm. rewrite Hc in Hm. cbn [snd] in Hm. rewrite Hm.
  destruct submissions as [|s subs]; [done |].
  cbn [map]. by rewrite <- (length_map dir (s :: subs)).
Qed.

(** X17.  An input on which [collect] raises ends the program there: nothing
    is logged for it after the events of [collect], and the inputs that
    follow it are not looked at. *)
Theorem main_collect_abort
        (before after : list (string * entry)) (inputfile : string) (e : entry)
        (n n1 n2 : nat) (evs1 evs2 : list event) (x : exn) :
  main_collect_ before n = (Ok tt, n1, evs1) ->
  collect inputfile e submissiondir assignment notebook_filename n1
  = (Raise x, n2, evs2) ->
  main_collect_ (before ++ (inputfile, e) :: after) n = (Raise x, n2, evs1 ++ evs2).
Proof.
  intros Hb Hc. rewrite main_collect_app, Hb. cbn [main_collect]. by rewrite Hc.
Qed.

End main_loops.

Section feedback_loops.

Context {world X : Type}.
Context (exists_ : world -> string -> bool).
Context (copy : world -> string -> string -> world * option X).
Context (api_generate_feedback : world -> string -> string -> bool -> world * option X).
Context (api_release_feedback : world -> string -> string -> world * option X).
Context (assignment output notebook_filename : string).

#[local] Abbreviation generate_ w student :=
  (generate_feedback world X api_generate_feedback api_release_feedback
                     w assignment student true).
#[local] Abbreviation collect_feedback_ w student :=
  (collect_feedback world X exists_ copy w assignment student output
                    notebook_filename).
#[local] Abbreviation loop_ students reports w :=
  (feedback_loop world X exists_ copy api_generate_feedback api_release_feedback
                 students assignment output notebook_filename reports w).
#[local] Abbreviation line_ student :=
  (Log INFO ("Collecting feedback from: "
             +:+ feedback_html assignment student notebook_filename)).

Lemma collect_feedback_cases (w : world) (student : string) :
  (exists_ w (feedback_html assignment student notebook_filename) = false
   /\ collect_feedback_ w student = (w, inr None, []))
  \/ (exists_ w (feedback_html assignment student notebook_filename) = true
      /\ exists w1, (collect_feedback_ w student = (w1, inr (Some 1%Z), [line_ student])
                     \/ exists x, collect_feedback_ w student = (w1, inl x, [line_ student]))).
Proof.
  unfold collect_feedback.
  destruct (exists_ w _); [right | by left]. split; [done |].
  destruct (copy w _ _) as [w1 [x|]]; exists w1; [right; by exists x | by left].
Qed.

Lemma feedback_loop_count (students : list string) :
  forall reports w w' reports' evs,
    loop_ students reports w = (w', inr reports', evs) ->
    reports' = (reports + Z.of_nat (length students))%Z
    /\ evs = map (fun student => line_ student) students.
Proof.
  induction students as [|s students IH]; intros reports w w' reports' evs.
  - cbn [feedback_loop]. intros [= <- <- <-]. split; [simpl; lia | done].
  - cbn [feedback_loop]. destruct (generate_ w s) as [w1 [x|]]; [done |].
    destruct (collect_feedback_cases w1 s) as [[_ ->] | [_ (w2 & [-> | [x ->]])]];
      [done | | done].
    destruct (loop_ students (reports + 1)%Z w2) as [[w3 r] evs'] eqn:Hl.
    intros [= <- -> <-]. destruct (IH _ _ _ _ _ Hl) as [-> ->].
    split; [cbn [length]; lia | done].
Qed.

Lemma feedback_loop_app (a b : list string) :
  forall reports w,
    loop_ (a ++ b) reports w =
    match loop_ a reports w with
    | (w1, inr reports1, evs1) =>
        let '(w2, r, evs2) := loop_ b reports1 w1 in (w2, r, evs1 ++ evs2)
    | (w1, inl c, evs1) => (w1, inl c, evs1)
    end.
Proof.
  induction a as [|s a IH]; intros reports w.
  - cbn [app feedback_loop]. by destruct (loop_ b reports w) as [[w2 r] evs2].
  - rewrite <- app_comm_cons. cbn [feedback_loop].
    destruct (generate_ w s) as [w1 [x|]]; [done |].
    destruct (collect_feedback_ w1 s) as [[w2 [x|[k|]]] evs]; [done | | done].
    rewrite IH.
    destruct (loop_ a (reports + k)%Z w2) as [[w3 [c|reports1]] evs1]; [done |].
    destruct (loop_ b reports1 w3) as [[w4 r] evs2]. by rewrite <- app_assoc.
Qed.

(** X18.  When the end of [main] gets to its last line, the count it reports
    is the number of the autograded students, whatever the environment
    did: feedback was collected for every one of them, in order. *)
Theorem report_count (autograded : list string) (w w' : world) (evs : list event) :
  report world X exists_ copy api_generate_feedback api_release_feedback
         autograded assignment output notebook_filename w = (w', inr tt, evs) ->
  evs = map (fun student => line_ student) autograded
        ++ [Log INFO (decimal_int (Z.of_nat (length autograded))
                      +:+ " reports written to " +:+ output)].
Proof.
  unfold report.
  destruct (loop_ autograded 0%Z w) as [[w1 [c|reports]] evs1] eqn:Hl; [done |].
  intros [= <- <-]. by destruct (feedback_loop_count _ _ _ _ _ _ Hl) as [-> ->].
Qed.

(** X19.  A student for whom no feedback page exists after the feedback was
    generated ends the program with a [TypeError]: [collect_feedback]
    returns nothing there, and nothing cannot be added to the count.
    The students after that one get no feedback generated, and the
    count is not reported. *)
Theorem feedback_missing (done_ rest : list string) (student : string)
        (reports reports1 : Z) (w w1 w2 : world) (evs1 : list event) :
  loop_ done_ reports w = (w1, inr reports1, evs1) ->
  generate_ w1 student = (w2, None) ->
  exists_ w2 (feedback_html assignment student notebook_filename) = false ->
  loop_ (done_ ++ student :: rest) reports w = (w2, inl TypeError, evs1).
Proof.
  intros Hd Hg He. rewrite feedback_loop_app, Hd. cbn [feedback_loop]. rewrite Hg.
  destruct (collect_feedback_cases w2 student) as [[_ ->] | [He' _]];
    [by rewrite app_nil_r | congruence].
Qed.

End feedback_loops.

Section main_loops_witnesses.

Lemma main_collect_found_witness :
  exists r n3 evs3,
    main_collect [("notes.ipynb", File "3")] "submitted" "hw" "hw.ipynb" 4
    = (r, n3, evs3)
    /\ main_collect ([("h1_a_b_hw.ipynb", File "1")]
                     ++ ("batch.zip",
                         ZipFile [("Group 2_c_hw.ipynb", File "2");
                                  ("h3_d_e_hw.ipynb", File "3")])
                     :: [("notes.ipynb", File "3")])
                    "submitted" "hw" "hw.ipynb" 0
       = (r, n3,
          snd (main_collect [("h1_a_b_hw.ipynb", File "1")]
                            "submitted" "hw" "hw.ipynb" 0)
          ++ snd (collect "batch.zip"
                          (ZipFile [("Group 2_c_hw.ipynb", File "2");
                                    ("h3_d_e_hw.ipynb", File "3")])
                          "submitted" "hw" "hw.ipynb" 1)
          ++ match makedirs
                     (snd (collect "batch.zip"
                             (ZipFile [("Group 2_c_hw.ipynb", File "2");
                                       ("h3_d_e_hw.ipynb", File "3")])
                             "submitted" "hw" "hw.ipynb" 1)) with
             | [] => Log FATAL "No submissions found."
             | dirs => Log INFO ("Found " +:+ decimal (length dirs) +:+ " submissions")
             end :: evs3).
Proof.
  apply (main_collect_found "submitted" "hw" "hw.ipynb"
           [("h1_a_b_hw.ipynb", File "1")] [("notes.ipynb", File "3")]
           "batch.zip"
           (ZipFile [("Group 2_c_hw.ipynb", File "2"); ("h3_d_e_hw.ipynb", File "3")])
           0 1 4
           (snd (main_collect [("h1_a_b_hw.ipynb", File "1")]
                              "submitted" "hw" "hw.ipynb" 0))
           (snd (collect "batch.zip"
                         (ZipFile [("Group 2_c_hw.ipynb", File "2");
                                   ("h3_d_e_hw.ipynb", File "3")])
                         "submitted" "hw" "hw.ipynb" 1))
           [ {| type := "group"; number := "group2"; dir := "submitted/group2/hw" |};
             {| type := "student"; number := "3"; dir := "submitted/3/hw" |} ]);
    reflexivity.
Defined.

Lemma main_collect_abort_witness :
  main_collect ([("h1_a_b_hw.ipynb", File "1")]
                ++ ("notes.txt", File "2") :: [("h3_d_e_hw.ipynb", File "3")])
               "submitted" "hw" "hw.ipynb" 0
  = (Raise NotImplementedError, 1,
     snd (main_collect [("h1_a_b_hw.ipynb", File "1")] "submitted" "hw" "hw.ipynb" 0)
     ++ [Log FATAL "Don't know what to do with file: notes.txt"]).
Proof.
  apply (main_collect_abort "submitted" "hw" "hw.ipynb"
           [("h1_a_b_hw.ipynb", File "1")] [("h3_d_e_hw.ipynb", File "3")]
           "notes.txt" (File "2") 0 1 1
           (snd (main_collect [("h1_a_b_hw.ipynb", File "1")]
                              "submitted" "hw" "hw.ipynb" 0))
           [Log FATAL "Don't know what to do with file: notes.txt"]); reflexivity.
Defined.

Lemma report_count_witness :
  let exists_ (w : list string) (p : string) := existsb (String.eqb p) w in
  let copy (w : list string) (src dst : string) := (dst :: w, @None unit) in
  let generate (w : list string) (assignment student : string) (force : bool) :=
    (os_path.join "feedback" [student; assignment; "hw.html"] :: w, @None unit) in
  let release (w : list string) (assignment student : string) := (w, @None unit) in
  snd (report (list string) unit exists_ copy generate release
              ["s1"; "s2"] "hw" "upload/hw" "hw.ipynb" [])
  = map (fun student =>
           Log INFO ("Collecting feedback from: "
                     +:+ feedback_html "hw" student "hw.ipynb")) ["s1"; "s2"]
    ++ [Log INFO (decimal_int (Z.of_nat (length ["s1"; "s2"]))
                  +:+ " reports written to " +:+ "upload/hw")].
Proof.
  intros exists_ copy generate release.
  apply (report_count exists_ copy generate release "hw" "upload/hw" "hw.ipynb"
           ["s1"; "s2"] []
           ["upload/hw/s2.html"; "feedback/s2/hw/hw.html";
            "upload/hw/s1.html"; "feedback/s1/hw/hw.html"]).
  reflexivity.
Defined.

Lemma feedback_missing_witness :
  let exists_ (w : list string) (p : string) := existsb (String.eqb p) w in
  let copy (w : list string) (src dst : string) := (dst :: w, @None unit) in
  let generate (w : list string) (assignment student : string) (force : bool) :=
    if String.eqb student "s2" then (w, @None unit)
    else (os_path.join "feedback" [student; assignment; "hw.html"] :: w, @None unit) in
  let release (w : list string) (assignment student : string) := (w, @None unit) in
  feedback_loop (list string) unit exists_ copy generate release
                (["s1"] ++ "s2" :: ["s3"]) "hw" "upload/hw" "hw.ipynb" 0%Z []
  = (["upload/hw/s1.html"; "feedback/s1/hw/hw.html"], inl TypeError,
     [Log INFO "Collecting feedback from: feedback/s1/hw/hw.html"]).
Proof.
  intros exists_ copy generate release.
  apply (feedback_missing exists_ copy generate release "hw" "upload/hw" "hw.ipynb"
           ["s1"] ["s3"] "s2" 0%Z 1%Z []
           ["upload/hw/s1.html"; "feedback/s1/hw/hw.html"]
           ["upload/hw/s1.html"; "feedback/s1/hw/hw.html"]
           [Log INFO "Collecting feedback from: feedback/s1/hw/hw.html"]);
    reflexivity.
Defined.

End main_loops_witnesses.
